(** * UniversalMediaDownloader: the downloader core, embedded and verified

    A shallow embedding of [src/downloaders/] (base.py, manager.py,
    youtube.py, twitter.py, instagram.py, audiomack.py), of the progress
    bar clamp of [src/ui/components.py] and of the progress handler of
    [src/ui/main_window.py].

    Modelling conventions.
    - A Python [str] is a [string]: one [ascii] per character. The character
      classes the code relies on ([str.lower], [str.title], [\s],
      [str.strip]) are given on the ASCII range and leave every other
      character alone; message literals that hold characters outside ASCII
      are carried as their UTF-8 bytes and are never inspected.
    - Python numbers that reach a progress record are rationals ([Q]): the
      quotient [downloaded * 100 / total] is kept exact.
    - A dict handed to the extraction engine is a [gmap string value].
    - Effects are explicit: a state and exception monad over the downloader
      instance and a [World] that records the trace of observable events and
      the files that exist. External collaborators (extraction engine,
      browser, HTTP server, transcoder, tool lookup) are oracles collected
      in an [Env] record. *)

From Stdlib Require Import Ascii String QArith Qround Qminmax Qabs Lqa Sorted.
From stdpp Require Import base option list strings gmap pretty.

Local Open Scope string_scope.
Local Open Scope list_scope.

(** ** Python strings *)

Module PyStr.

(** [c.lower()] on one character: [A-Z] move to [a-z]. *)
Definition lower_char (c : ascii) : ascii :=
  let n := Ascii.nat_of_ascii c in
  if (65 <=? n)%nat && (n <=? 90)%nat then Ascii.ascii_of_nat (n + 32) else c.

(** [c.upper()] on one character: [a-z] move to [A-Z]. *)
Definition upper_char (c : ascii) : ascii :=
  let n := Ascii.nat_of_ascii c in
  if (97 <=? n)%nat && (n <=? 122)%nat then Ascii.ascii_of_nat (n - 32) else c.

(** A cased character is a letter. *)
Definition is_cased (c : ascii) : bool :=
  let n := Ascii.nat_of_ascii c in
  ((65 <=? n)%nat && (n <=? 90)%nat) || ((97 <=? n)%nat && (n <=? 122)%nat).

(** [s.lower()] *)
Fixpoint lower (s : string) : string :=
  match s with
  | EmptyString => EmptyString
  | String c r => String (lower_char c) (lower r)
  end.

(** [s.startswith(p)] *)
Fixpoint startswith (p s : string) : bool :=
  match p, s with
  | EmptyString, _ => true
  | String _ _, EmptyString => false
  | String a p', String b s' => if Ascii.eqb a b then startswith p' s' else false
  end.

(** [sub in s]: [sub] occurs at some offset of [s]. *)
Fixpoint contains (sub s : string) : bool :=
  startswith sub s ||
  match s with
  | EmptyString => false
  | String _ r => contains sub r
  end.

(** [old] and [new] are single characters: [s.replace(old, new)]. *)
Fixpoint replace_char (old new : ascii) (s : string) : string :=
  match s with
  | EmptyString => EmptyString
  | String c r => String (if Ascii.eqb c old then new else c) (replace_char old new r)
  end.

(** Python's whitespace on the ASCII range: tab, LF, VT, FF, CR, the four
    separators 0x1c-0x1f and the space. *)
Definition is_space (c : ascii) : bool :=
  let n := Ascii.nat_of_ascii c in
  ((9 <=? n)%nat && (n <=? 13)%nat) || ((28 <=? n)%nat && (n <=? 32)%nat).

Fixpoint lstrip (s : string) : string :=
  match s with
  | EmptyString => EmptyString
  | String c r => if is_space c then lstrip r else s
  end.

Fixpoint rstrip (s : string) : string :=
  match s with
  | EmptyString => EmptyString
  | String c r =>
      match rstrip r with
      | EmptyString => if is_space c then EmptyString else String c EmptyString
      | r' => String c r'
      end
  end.

(** [s.strip()] *)
Definition strip (s : string) : string := rstrip (lstrip s).

(** [s[:n]] *)
Fixpoint take (n : nat) (s : string) : string :=
  match n, s with
  | O, _ => EmptyString
  | S _, EmptyString => EmptyString
  | S n', String c r => String c (take n' r)
  end.

(** Truth value of an [Optional[str]]: [None] and [""] are false. *)
Definition truthy (o : option string) : bool :=
  match o with
  | Some (String _ _) => true
  | _ => false
  end.

(** A substring in the relational sense, to state what [contains] decides. *)
Definition occurs_in (sub s : string) : Prop :=
  exists pre post, s = pre +:+ sub +:+ post.

End PyStr.

(** ** base.py: the data model *)

Inductive OutputFormat := VIDEO | AUDIO.

Definition OutputFormat_eqb (a b : OutputFormat) : bool :=
  match a, b with
  | VIDEO, VIDEO | AUDIO, AUDIO => true
  | _, _ => false
  end.

Record DownloadProgress := mkDownloadProgress {
  percent : Q;
  speed : string;
  eta : string;
  status : string;
  message : string;
}.

Record DownloadConfig := mkDownloadConfig {
  url : string;
  output_dir : string;
  output_format : OutputFormat;
  cookies_file : option string;
  ffmpeg_path : option string;
}.

(** The four subclasses of [BaseDownloader]. *)
Inductive Platform := YouTubeDownloader | TwitterDownloader | InstagramDownloader | AudiomackDownloader.

Definition PLATFORM_NAME (cls : Platform) : string :=
  match cls with
  | YouTubeDownloader => "YouTube"
  | TwitterDownloader => "X (Twitter)"
  | InstagramDownloader => "Instagram"
  | AudiomackDownloader => "Audiomack"
  end.

Definition SUPPORTED_DOMAINS (cls : Platform) : list string :=
  match cls with
  | YouTubeDownloader =>
      ["youtube.com"; "youtu.be"; "youtube-nocookie.com"; "music.youtube.com"]
  | TwitterDownloader =>
      ["twitter.com"; "x.com"; "mobile.twitter.com"; "mobile.x.com"]
  | InstagramDownloader =>
      ["instagram.com"; "www.instagram.com"; "instagr.am"]
  | AudiomackDownloader =>
      ["audiomack.com"; "www.audiomack.com"]
  end.

(** [BaseDownloader.can_handle] *)
Definition can_handle (cls : Platform) (url : string) : bool :=
  let url_lower := PyStr.lower url in
  existsb (fun domain => PyStr.contains domain url_lower) (SUPPORTED_DOMAINS cls).

(** ** manager.py: the registry and platform detection *)

Definition DOWNLOADERS : list Platform :=
  [YouTubeDownloader; TwitterDownloader; InstagramDownloader; AudiomackDownloader].

(** The [for downloader_cls in DOWNLOADERS] loop of [detect_platform], with
    its early [return]. *)
Fixpoint detect_platform_loop (registry : list Platform) (url : string) : string :=
  match registry with
  | [] => "Desconocida"
  | downloader_cls :: rest =>
      if can_handle downloader_cls url then PLATFORM_NAME downloader_cls
      else detect_platform_loop rest url
  end.

(** [DownloadManager.detect_platform] *)
Definition detect_platform (url : string) : string :=
  detect_platform_loop DOWNLOADERS url.

(** [DownloadManager.get_supported_platforms] *)
Definition get_supported_platforms : list string :=
  map PLATFORM_NAME DOWNLOADERS.

(** What [can_handle] decides, stated without the code's functions: some
    declared domain occurs in the lowercased URL. *)
Definition claims_url (cls : Platform) (url : string) : Prop :=
  exists domain, In domain (SUPPORTED_DOMAINS cls) /\ PyStr.occurs_in domain (PyStr.lower url).

(** ** Values, exceptions, events *)

(** A value stored in an options dict. The two hook closures that
    [_get_base_options] registers are kept as tags. *)
#[warnings="-register-all"]
Inductive value :=
| VStr (s : string)
| VInt (n : Z)
| VBool (b : bool)
| VList (l : list value)
| VDict (d : list (string * value))
| VProgressHook
| VPostprocessorHook.

(** The options mapping handed to the extraction engine. *)
Abbreviation Options := (gmap string value).

(** The metadata mapping a download returns. *)
Abbreviation Info := (gmap string string).

(** A raised exception: its class and [str(e)]. *)
Record exn := mkExn { exn_class : string; exn_text : string }.

Inductive Outcome (A : Type) :=
| Ok (a : A)
| Raise (e : exn).
Arguments Ok {A} a.
Arguments Raise {A} e.

(** The dict the engine passes to a progress hook, read with [d.get]. *)
Record ProgressDict := mkProgressDict {
  pd_status : option string;
  total_bytes : option Q;
  total_bytes_estimate : option Q;
  downloaded_bytes : option Q;
  _speed_str : option string;
  _eta_str : option string;
}.

(** The dict the engine passes to a post-processor hook. *)
Record PostprocessorDict := mkPostprocessorDict {
  pp_status : option string;
  postprocessor : option string;
}.

Inductive HookCall :=
| ProgressHookCall (d : ProgressDict)
| PostprocessorHookCall (d : PostprocessorDict).

(** One run of [YoutubeDL(opts).extract_info(url, download=True)]: the hook
    calls it makes, in order, and how it ends ([Ok None] is the engine
    returning [None]). *)
Record EngineRun := mkEngineRun {
  hook_calls : list HookCall;
  engine_result : Outcome (option Info);
}.

(** An entry of the browser's performance log, as the scan reads it:
    [None] when [json.loads(entry["message"])["message"]] raises, else the
    [method] and, when present, [params.request.url]. *)
Record LogMessage := mkLogMessage {
  method : option string;
  request_url : option string;
}.

Abbreviation LogEntry := (option LogMessage).

(** What the headless browser does during one Audiomack session. *)
Record BrowserSession := mkBrowserSession {
  driver_start : option exn;       (* [_get_driver] raises *)
  page_get : option exn;           (* [driver.get(url)] raises *)
  cookie_banner : bool;            (* the consent button is found and clicked *)
  remove_overlays : option exn;    (* [execute_script] raises *)
  h1_text : option string;         (* [None]: no [h1] element *)
  play_button : option exn;        (* the wait for, or click on, the play control raises *)
  performance_log : Outcome (list LogEntry);
}.

(** The answer to the direct HTTP GET: the parsed [content-length] header,
    the sizes of the non-empty chunks [response.read] returns before the
    empty one, and a failure of the connection after them, if any. *)
Record HttpResponse := mkHttpResponse {
  content_length : option Z;
  chunks : list positive;
  stream_error : option exn;
}.

Inductive BrowserAction :=
| Launch
| Get (page : string)
| ClickCookieBanner
| RemoveOverlays
| ReadHeading
| ClickPlay
| GetLog
| Quit.

(** Observable steps. [EvProgress delivered p] is a call
    [_report_progress(p)]; [delivered] tells whether a callback is registered
    and so received [p]. *)
Inductive Event :=
| EvProgress (delivered : bool) (p : DownloadProgress)
| EvMakedirs (dir : string)
| EvEngine (opts : Options) (page : string)
| EvBrowser (a : BrowserAction)
| EvSleep (seconds : Z)
| EvHttpGet (target : string) (headers : list (string * string))
| EvFileOpen (path : string)
| EvFileWrite (path : string) (size : positive)
| EvSubprocess (argv : list string)
| EvRemove (path : string).

(** The external collaborators. *)
Record Env := mkEnv {
  (* [imageio_ffmpeg.get_ffmpeg_exe()]; [None] when the import or the call raises *)
  imageio_ffmpeg_exe : option string;
  (* [shutil.which("ffmpeg")] *)
  which_ffmpeg : option string;
  (* [os.makedirs(dir, exist_ok=True)]: the exception it raises, if any *)
  makedirs : string -> option exn;
  (* the extraction engine *)
  extract_info : Options -> string -> EngineRun;
  (* the browser session opened for a page *)
  browser : string -> BrowserSession;
  (* [urllib.request.urlopen] *)
  urlopen : string -> Outcome HttpResponse;
  (* whether the transcoder, run with this argv, leaves its output file *)
  ffmpeg_writes_output : list string -> bool;
  (* [format(x, ".1f")] *)
  format_1f : Q -> string;
}.

(** ** The state and exception monad *)

Record Res (S A : Type) := mkRes {
  outcome : Outcome A;
  state : S;
  events : list Event;
}.
Arguments mkRes {S A} outcome state events.
Arguments outcome {S A} r.
Arguments state {S A} r.
Arguments events {S A} r.

Definition ST (S A : Type) : Type := S -> Res S A.

Definition ST_ret {S A} (a : A) : ST S A :=
  fun s => mkRes (Ok a) s [].

Definition ST_bind {S A B} (f : A -> ST S B) (m : ST S A) : ST S B :=
  fun s =>
    let r := m s in
    match outcome r with
    | Ok a => let r' := f a (state r) in
              mkRes (outcome r') (state r') (events r ++ events r')
    | Raise e => mkRes (Raise e) (state r) (events r)
    end.

#[global] Instance ST_mret S : MRet (ST S) := @ST_ret S.
#[global] Instance ST_mbind S : MBind (ST S) := @ST_bind S.

(** [raise e] *)
Definition raise {S A} (e : exn) : ST S A :=
  fun s => mkRes (Raise e) s [].

(** [try: body  except Exception as e: handler(e)] *)
Definition try_except {S A} (body : ST S A) (handler : exn -> ST S A) : ST S A :=
  fun s =>
    let r := body s in
    match outcome r with
    | Ok a => r
    | Raise e => let r' := handler e (state r) in
                 mkRes (outcome r') (state r') (events r ++ events r')
    end.

(** [try: body  finally: cleanup] *)
Definition try_finally {S A} (body : ST S A) (cleanup : ST S unit) : ST S A :=
  fun s =>
    let r := body s in
    let r' := cleanup (state r) in
    match outcome r' with
    | Ok _ => mkRes (outcome r) (state r') (events r ++ events r')
    | Raise e => mkRes (Raise e) (state r') (events r ++ events r')
    end.

Definition emit {S} (ev : Event) : ST S unit :=
  fun s => mkRes (Ok tt) s [ev].

Definition get_state {S} : ST S S :=
  fun s => mkRes (Ok s) s [].

Definition put_state {S} (s : S) : ST S unit :=
  fun _ => mkRes (Ok tt) s [].

(** [for x in xs: body(x)] *)
Fixpoint for_each {S A} (xs : list A) (body : A -> ST S unit) : ST S unit :=
  match xs with
  | [] => mret tt
  | x :: rest => body x;; for_each rest body
  end.

(** ** A downloader instance and the files it sees *)

Record Downloader := mkDownloader {
  cls : Platform;
  progress_callback : bool;          (* whether a callback was given *)
  _ffmpeg_path : option string;      (* the lazily resolved tool path *)
}.

(** [downloader_cls(progress_callback)] *)
Definition new_downloader (c : Platform) (callback : bool) : Downloader :=
  mkDownloader c callback None.

(** State of a downloader method: [self] and the files that exist. *)
Abbreviation DState := (Downloader * gset string)%type.

Definition get_self : ST DState Downloader :=
  fun s => mkRes (Ok (fst s)) s [].

Definition set_ffmpeg_path (p : option string) : ST DState unit :=
  fun s => mkRes (Ok tt) (mkDownloader (cls (fst s)) (progress_callback (fst s)) p, snd s) [].

(** [os.path.exists(path)] *)
Definition os_path_exists (path : string) : ST DState bool :=
  fun s => mkRes (Ok (bool_decide (path ∈ snd s))) s [].

(** [open(path, "wb")]: the file exists from then on. *)
Definition open_wb (path : string) : ST DState unit :=
  fun s => mkRes (Ok tt) (fst s, {[path]} ∪ snd s) [EvFileOpen path].

(** [os.remove(path)] *)
Definition os_remove (path : string) : ST DState unit :=
  fun s =>
    if bool_decide (path ∈ snd s)
    then mkRes (Ok tt) (fst s, snd s ∖ {[path]}) [EvRemove path]
    else mkRes (Raise (mkExn "FileNotFoundError" path)) s [].

(** [os.path.join(a, b)] for two components (POSIX). *)
Definition os_path_join (a b : string) : string :=
  if PyStr.startswith "/" b then b
  else match a with
       | EmptyString => b
       | _ => if PyStr.startswith "/" (String.rev a) then a +:+ b else a +:+ "/" +:+ b
       end.
(** ** base.py: [BaseDownloader] *)

(** [a or b or 0] on optional numbers: [None] and [0] are false. *)
Definition num_truthy (o : option Q) : bool :=
  match o with
  | Some q => negb (Qeq_bool q 0)
  | None => false
  end.

Definition Qgtb (a b : Q) : bool := negb (Qle_bool a b).

(** [d.get("total_bytes") or d.get("total_bytes_estimate") or 0] *)
Definition total_of (d : ProgressDict) : Q :=
  if num_truthy (total_bytes d) then default 0%Q (total_bytes d)
  else if num_truthy (total_bytes_estimate d) then default 0%Q (total_bytes_estimate d)
  else 0%Q.

(** [d.get("downloaded_bytes", 0)] *)
Definition downloaded_of (d : ProgressDict) : Q :=
  default 0%Q (downloaded_bytes d).

(** [text.strip()] of [d.get(key, "")] *)
Definition get_stripped (o : option string) : string :=
  PyStr.strip (default "" o).

Section base_downloader.

Context (env : Env).

(** [BaseDownloader._report_progress] *)
Definition _report_progress (progress : DownloadProgress) : ST DState unit :=
  self ← get_self;
  emit (EvProgress (progress_callback self) progress).

(** [BaseDownloader._get_ffmpeg_path] *)
Definition _get_ffmpeg_path : ST DState (option string) :=
  self ← get_self;
  if PyStr.truthy (_ffmpeg_path self) then mret (_ffmpeg_path self)
  else
    match imageio_ffmpeg_exe env with
    | Some exe =>
        set_ffmpeg_path (Some exe);;
        mret (Some exe)
    | None =>
        if PyStr.truthy (which_ffmpeg env) then
          set_ffmpeg_path (which_ffmpeg env);;
          mret (which_ffmpeg env)
        else mret None
    end.

(** A transcoding tool can be resolved: a cached path, the bundled binary or
    one on the search path. *)
Definition tool_available (self : Downloader) : bool :=
  PyStr.truthy (_ffmpeg_path self)
  || bool_decide (imageio_ffmpeg_exe env ≠ None)
  || PyStr.truthy (which_ffmpeg env).

(** [BaseDownloader._has_ffmpeg] *)
Definition _has_ffmpeg : ST DState bool :=
  p ← _get_ffmpeg_path;
  mret (bool_decide (p ≠ None)).

(** The [hook] closure of [BaseDownloader._create_progress_hook] *)
Definition progress_hook (d : ProgressDict) : ST DState unit :=
  let status := default "" (pd_status d) in
  if String.eqb status "downloading" then
    let total := total_of d in
    let downloaded := downloaded_of d in
    let percent := if Qgtb total 0 then (downloaded * 100 / total)%Q else 0%Q in
    let speed := get_stripped (_speed_str d) in
    let eta := get_stripped (_eta_str d) in
    _report_progress
      (mkDownloadProgress percent speed eta "downloading"
         ("Descargando… " +:+ format_1f env percent +:+ "%"))
  else if String.eqb status "finished" then
    _report_progress (mkDownloadProgress 95 "" "" "processing" "Procesando archivo…")
  else if String.eqb status "error" then
    _report_progress (mkDownloadProgress 0 "" "" "error" "Error en la descarga")
  else mret tt.

(** The [hook] closure of [BaseDownloader._create_postprocessor_hook] *)
Definition postprocessor_hook (d : PostprocessorDict) : ST DState unit :=
  let status := default "" (pp_status d) in
  if String.eqb status "started" then
    let pp := default "" (postprocessor d) in
    let msg :=
      if PyStr.contains "ExtractAudio" pp then "Extrayendo audio…"
      else if PyStr.contains "Metadata" pp then "Añadiendo metadatos…"
      else "Procesando…" in
    _report_progress (mkDownloadProgress 97 "" "" "processing" msg)
  else if String.eqb status "finished" then
    _report_progress (mkDownloadProgress 99 "" "" "processing" "Finalizando…")
  else mret tt.

(** [os.makedirs(dir, exist_ok=True)] *)
Definition os_makedirs (dir : string) : ST DState unit :=
  emit (EvMakedirs dir);;
  match makedirs env dir with
  | Some e => raise e
  | None => mret tt
  end.

(** [BaseDownloader._get_base_options] *)
Definition _get_base_options (config : DownloadConfig) : ST DState Options :=
  os_makedirs (output_dir config);;
  let opts : Options :=
    <["outtmpl" := VStr (os_path_join (output_dir config) "%(title).120s [%(id)s].%(ext)s")]>
    (<["noplaylist" := VBool true]>
    (<["retries" := VInt 10]>
    (<["fragment_retries" := VInt 10]>
    (<["concurrent_fragment_downloads" := VInt 4]>
    (<["progress_hooks" := VList [VProgressHook]]>
    (<["postprocessor_hooks" := VList [VPostprocessorHook]]>
    (<["quiet" := VBool true]>
    (<["no_warnings" := VBool true]> ∅)))))))) in
  ffmpeg ← (if PyStr.truthy (ffmpeg_path config) then mret (ffmpeg_path config)
            else _get_ffmpeg_path);
  let opts : Options :=
    if PyStr.truthy ffmpeg then <["ffmpeg_location" := VStr (default "" ffmpeg)]> opts
    else opts in
  let opts : Options :=
    if PyStr.truthy (cookies_file config)
    then <["cookiefile" := VStr (default "" (cookies_file config))]> opts
    else opts in
  mret opts.

(** The audio-extraction post-processor entry shared by the three generic
    platforms. *)
Definition extract_audio_pp : value :=
  VDict [("key", VStr "FFmpegExtractAudio");
         ("preferredcodec", VStr "mp3");
         ("preferredquality", VStr "192")].

(** The [if config.output_format == OutputFormat.AUDIO: ... else: ...] block
    that youtube.py, twitter.py and instagram.py each carry; [audio_pps] is
    the post-processor list of the platform. *)
Definition format_options (config : DownloadConfig) (audio_pps : list value)
    (opts : Options) : ST DState Options :=
  if OutputFormat_eqb (output_format config) AUDIO then
    mret (<["postprocessors" := VList audio_pps]>
          (<["format" := VStr "bestaudio/best"]> opts))
  else
    _has_ffmpeg ≫= fun has : bool =>
    if has then
      mret (<["merge_output_format" := VStr "mp4"]>
            (<["format" := VStr "bestvideo+bestaudio/best"]> opts))
    else
      mret (<["format" := VStr "best"]> opts).

(** [_get_platform_options] of each subclass *)
Definition _get_platform_options (c : Platform) (config : DownloadConfig) : ST DState Options :=
  match c with
  | YouTubeDownloader =>
      format_options config
        [extract_audio_pp; VDict [("key", VStr "FFmpegMetadata")]]
        (<["age_limit" := VInt 0]> (<["nocheckcertificate" := VBool true]> ∅))
  | TwitterDownloader =>
      format_options config [extract_audio_pp] ∅
  | InstagramDownloader =>
      format_options config [extract_audio_pp]
        (<["extractor_args" :=
             VDict [("instagram", VDict [("skip", VList [VStr "dash"])])]]> ∅)
  | AudiomackDownloader => mret ∅
  end.

(** The engine calls the hooks it finds registered in the options. *)
Definition registered (hook : value) (key : string) (opts : Options) : bool :=
  match opts !! key with
  | Some (VList l) =>
      existsb (fun v => match v, hook with
                        | VProgressHook, VProgressHook => true
                        | VPostprocessorHook, VPostprocessorHook => true
                        | _, _ => false
                        end) l
  | _ => false
  end.

Definition run_hook (opts : Options) (call : HookCall) : ST DState unit :=
  match call with
  | ProgressHookCall d =>
      if registered VProgressHook "progress_hooks" opts then progress_hook d else mret tt
  | PostprocessorHookCall d =>
      if registered VPostprocessorHook "postprocessor_hooks" opts
      then postprocessor_hook d else mret tt
  end.

(** [with YoutubeDL(opts) as ydl: ydl.extract_info(url, download=True)] *)
Definition ydl_extract_info (opts : Options) (page : string) : ST DState (option Info) :=
  emit (EvEngine opts page);;
  for_each (hook_calls (extract_info env opts page)) (run_hook opts);;
  match engine_result (extract_info env opts page) with
  | Ok info => mret info
  | Raise e => raise e
  end.

(** The two statements of [download] that merge base and platform-specific
    options; [opts.update(...)] is the union that prefers the platform's
    entries. *)
Definition merged_options (config : DownloadConfig) : ST DState Options :=
  opts ← _get_base_options config;
  self ← get_self;
  platform_opts ← _get_platform_options (cls self) config;
  mret (platform_opts ∪ opts).

(** [BaseDownloader.download] *)
Definition BaseDownloader_download (config : DownloadConfig) : ST DState Info :=
  _report_progress (mkDownloadProgress 0 "" "" "downloading" "Iniciando descarga…");;
  opts ← merged_options config;
  try_except
    (info ← ydl_extract_info opts (url config);
     match info with
     | None =>
         raise (mkExn "AttributeError" "'NoneType' object has no attribute 'get'")
     | Some info =>
         _report_progress
           (mkDownloadProgress 100 "" "" "finished"
              ("Descarga completa: " +:+ default "archivo" (info !! "title")));;
         mret info
     end)
    (fun e =>
       _report_progress (mkDownloadProgress 0 "" "" "error" ("Error: " +:+ exn_text e));;
       raise e).

End base_downloader.
(** ** audiomack.py: [AudiomackDownloader] *)

Module Audiomack.

Record Metadata := mkMetadata {
  title : string;
  artist : string;
  ident : string;     (* the ["id"] key *)
}.

(** Longest prefix of [s] whose characters satisfy [p], and the rest. *)
Fixpoint span (p : ascii -> bool) (s : string) : string * string :=
  match s with
  | EmptyString => (EmptyString, EmptyString)
  | String c r =>
      if p c then let '(a, b) := span p r in (String c a, b)
      else (EmptyString, s)
  end.

(** [s] without the prefix [p], when it starts with it. *)
Fixpoint strip_prefix (p s : string) : option string :=
  match p, s with
  | EmptyString, _ => Some s
  | String _ _, EmptyString => None
  | String a p', String b s' => if Ascii.eqb a b then strip_prefix p' s' else None
  end.

(** The pattern [audiomack\.com/([^/]+)/song/([^/?]+)] anchored at the start
    of [s]: both groups are greedy runs, and the first must stop at ["/song/"]. *)
Definition match_song_at (s : string) : option (string * string) :=
  match strip_prefix "audiomack.com/" s with
  | Some r =>
      let '(g1, r1) := span (fun c => negb (Ascii.eqb c "/")) r in
      match g1, strip_prefix "/song/" r1 with
      | String _ _, Some r2 =>
          let '(g2, _) := span (fun c => negb (Ascii.eqb c "/" || Ascii.eqb c "?")) r2 in
          match g2 with
          | String _ _ => Some (g1, g2)
          | EmptyString => None
          end
      | _, _ => None
      end
  | None => None
  end.

(** [re.search] of that pattern: the leftmost position where it matches. *)
Fixpoint search_song (s : string) : option (string * string) :=
  match match_song_at s with
  | Some m => Some m
  | None =>
      match s with
      | EmptyString => None
      | String _ r => search_song r
      end
  end.

(** [s.title()]: a letter that follows a letter is lowered, any other letter
    is raised. *)
Fixpoint title_from (previous_is_cased : bool) (s : string) : string :=
  match s with
  | EmptyString => EmptyString
  | String c r =>
      String (if previous_is_cased then PyStr.lower_char c else PyStr.upper_char c)
             (title_from (PyStr.is_cased c) r)
  end.

Definition str_title (s : string) : string := title_from false s.

(** [s.split(sep)] for a one-character separator *)
Fixpoint split (sep : ascii) (s : string) : list string :=
  match s with
  | EmptyString => [EmptyString]
  | String c r =>
      if Ascii.eqb c sep then EmptyString :: split sep r
      else match split sep r with
           | h :: t => String c h :: t
           | [] => [String c EmptyString]
           end
  end.

Definition LF : ascii := "010"%char.
Definition CR : ascii := "013"%char.

(** The metadata read off the page URL. *)
Definition metadata_from_url (page : string) (metadata : Metadata) : Metadata :=
  match search_song page with
  | Some (g1, g2) =>
      mkMetadata (str_title (PyStr.replace_char "-" " " g2))
                 (str_title (PyStr.replace_char "-" " " g1))
                 g2
  | None => metadata
  end.

(** The refinement from the text of the first heading. *)
Definition metadata_from_heading (text : string) (metadata : Metadata) : Metadata :=
  let text := PyStr.strip text in
  let lines :=
    map PyStr.strip
        (filter (fun l => PyStr.strip l ≠ EmptyString) (split LF text)) in
  match lines with
  | l0 :: l1 :: _ => mkMetadata l1 l0 (ident metadata)
  | [l0] => mkMetadata l0 (artist metadata) (ident metadata)
  | [] => metadata
  end.

(** The [for entry in logs] loop of [_extract_streaming_url]: an entry that
    cannot be read is skipped ([except: continue]); the loop stops at the
    first [Network.requestWillBeSent] entry whose request URL holds the
    marker. [None] is the initial [streaming_url = None]. *)
Fixpoint scan_logs (logs : list LogEntry) : option string :=
  match logs with
  | [] => None
  | entry :: rest =>
      match entry with
      | Some log =>
          match method log with
          | Some m =>
              if String.eqb m "Network.requestWillBeSent" then
                match request_url log with
                | Some req_url =>
                    if PyStr.contains "music.audiomack.com" req_url then Some req_url
                    else scan_logs rest
                | None => scan_logs rest
                end
              else scan_logs rest
          | None => scan_logs rest
          end
      | None => scan_logs rest
      end
  end.

(** The character class of the first [re.sub] of [clean]; 034 is the double
    quote. *)
Definition is_illegal (c : ascii) : bool :=
  existsb (Ascii.eqb c) ["<"; ">"; ":"; "034"; "/"; "\"; "|"; "?"; "*"]%char.

(** The first [re.sub] of [clean]: every character of the class (less-than,
    greater-than, colon, double quote, slash, backslash, bar, question mark,
    star) becomes an underscore. *)
Fixpoint sub_illegal (text : string) : string :=
  match text with
  | EmptyString => EmptyString
  | String c r => String (if is_illegal c then "_"%char else c) (sub_illegal r)
  end.

(** [re.sub(r'\s+', ' ', text)]: each maximal run of whitespace becomes one
    space; [in_run] tells that the previous character was whitespace. *)
Fixpoint sub_spaces (in_run : bool) (text : string) : string :=
  match text with
  | EmptyString => EmptyString
  | String c r =>
      if PyStr.is_space c then
        if in_run then sub_spaces true r else String " " (sub_spaces true r)
      else String c (sub_spaces false r)
  end.

(** The local function [clean] of [download] *)
Definition clean (text : string) : string :=
  let text := PyStr.replace_char CR " " (PyStr.replace_char LF " " text) in
  let text := sub_illegal text in
  let text := PyStr.strip (sub_spaces false text) in
  text.

(** [s.rsplit('.', 1)[0]]: what precedes the last dot, or all of [s]. *)
Fixpoint rsplit_dot_head (s : string) : string :=
  match s with
  | EmptyString => EmptyString
  | String c r =>
      if PyStr.contains "." r then String c (rsplit_dot_head r)
      else if Ascii.eqb c "." then EmptyString
      else s
  end.

Definition http_headers : list (string * string) :=
  [("User-Agent", "Mozilla/5.0 (Windows NT 10.0; Win64; x64) AppleWebKit/537.36");
   ("Referer", "https://audiomack.com/")].

Section audiomack_downloader.

Context (env : Env).

(** [AudiomackDownloader._get_driver] *)
Definition _get_driver (session : BrowserSession) : ST DState unit :=
  emit (EvBrowser Launch);;
  match driver_start session with
  | Some e => raise e
  | None => mret tt
  end.

Definition may_raise (o : option exn) : ST DState unit :=
  match o with
  | Some e => raise e
  | None => mret tt
  end.

(** [AudiomackDownloader._extract_streaming_url] *)
Definition _extract_streaming_url (page : string) : ST DState (option string * Metadata) :=
  let session := browser env page in
  _get_driver session;;
  let metadata := mkMetadata "Unknown" "Unknown" "unknown" in
  try_finally
    (_report_progress (mkDownloadProgress 10 "" "" "downloading" "Cargando página...");;
     emit (EvBrowser (Get page));;
     may_raise (page_get session);;
     emit (EvSleep 3);;
     _report_progress (mkDownloadProgress 15 "" "" "downloading" "Cerrando popups...");;
     (if cookie_banner session
      then emit (EvBrowser ClickCookieBanner);; emit (EvSleep 1)
      else mret tt);;
     emit (EvBrowser RemoveOverlays);;
     may_raise (remove_overlays session);;
     let metadata := metadata_from_url page metadata in
     emit (EvBrowser ReadHeading);;
     let metadata :=
       match h1_text session with
       | Some text => metadata_from_heading text metadata
       | None => metadata
       end in
     _report_progress (mkDownloadProgress 25 "" "" "downloading" "Iniciando reproducción...");;
     emit (EvBrowser ClickPlay);;
     match play_button session with
     | Some e =>
         raise (mkExn "Exception" ("No se encontró botón de play: " +:+ exn_text e))
     | None =>
         _report_progress
           (mkDownloadProgress 35 "" "" "downloading" "Esperando carga de audio...");;
         emit (EvSleep 8);;
         _report_progress
           (mkDownloadProgress 50 "" "" "downloading" "Buscando URL de audio...");;
         emit (EvBrowser GetLog);;
         match performance_log session with
         | Raise e => raise e
         | Ok logs => mret (scan_logs logs, metadata)
         end
     end)
    (emit (EvBrowser Quit)).

(** The [while True] loop of [_download_file] over the chunks read. *)
Fixpoint _download_loop (dest_path : string) (total downloaded : Z)
    (pending : list positive) : ST DState unit :=
  match pending with
  | [] => mret tt
  | chunk :: rest =>
      emit (EvFileWrite dest_path chunk);;
      let downloaded := (downloaded + Z.pos chunk)%Z in
      (if (0 <? total)%Z then
         let pct := (60 + (inject_Z downloaded / inject_Z total) * 35)%Q in
         _report_progress
           (mkDownloadProgress pct "" "" "downloading"
              ("Descargando... " +:+ pretty (downloaded `div` 1024)%Z +:+ " KB / "
               +:+ pretty (total `div` 1024)%Z +:+ " KB"))
       else mret tt);;
      _download_loop dest_path total downloaded rest
  end.

(** [AudiomackDownloader._download_file] *)
Definition _download_file (target dest_path : string) : ST DState unit :=
  emit (EvHttpGet target http_headers);;
  match urlopen env target with
  | Raise e => raise e
  | Ok response =>
      let total := default 0%Z (content_length response) in
      open_wb dest_path;;
      _download_loop dest_path total 0 (chunks response);;
      may_raise (stream_error response)
  end.

(** The [if config.output_format == OutputFormat.AUDIO and ext == "m4a" and
    self._has_ffmpeg()] block of [download]; it answers the final
    [dest_path]. *)
Definition convert_to_mp3 (config : DownloadConfig) (ext dest_path : string) : ST DState string :=
  needed ← (if OutputFormat_eqb (output_format config) AUDIO && String.eqb ext "m4a"
            then _has_ffmpeg env else mret false);
  if needed : bool then
    let mp3_path := rsplit_dot_head dest_path +:+ ".mp3" in
    ffmpeg ← _get_ffmpeg_path env;
    _report_progress (mkDownloadProgress 96 "" "" "processing" "Convirtiendo a MP3...");;
    match ffmpeg with
    | None => raise (mkExn "TypeError" "expected str, bytes or os.PathLike object, not NoneType")
    | Some ffmpeg =>
        let argv := [ffmpeg; "-i"; dest_path; "-acodec"; "libmp3lame"; "-q:a"; "2";
                     mp3_path; "-y"] in
        emit (EvSubprocess argv);;
        (if ffmpeg_writes_output env argv then
           '(self, files) ← get_state;
           put_state (self, {[mp3_path]} ∪ files)
         else mret tt);;
        os_path_exists mp3_path ≫= fun present : bool =>
        if present then
          os_remove dest_path;;
          mret mp3_path
        else mret dest_path
    end
  else mret dest_path.

(** [AudiomackDownloader.download] *)
Definition download (config : DownloadConfig) : ST DState Info :=
  _report_progress
    (mkDownloadProgress 0 "" "" "downloading" "Iniciando descarga de Audiomack...");;
  '(streaming_url, metadata) ← _extract_streaming_url (url config);
  if negb (PyStr.truthy streaming_url) then
    raise (mkExn "Exception" "No se pudo obtener la URL de streaming.")
  else
    let streaming_url := default "" streaming_url in
    let metadata :=
      mkMetadata (PyStr.take 100 (clean (title metadata)))
                 (PyStr.take 50 (clean (artist metadata)))
                 (ident metadata) in
    _report_progress
      (mkDownloadProgress 55 "" "" "downloading" ("Descargando: " +:+ title metadata));;
    let ext := if PyStr.contains ".m4a" streaming_url then "m4a" else "mp3" in
    let filename :=
      artist metadata +:+ " - " +:+ title metadata +:+ " [" +:+ ident metadata +:+ "]." +:+ ext in
    let dest_path := os_path_join (output_dir config) filename in
    os_makedirs env (output_dir config);;
    _download_file streaming_url dest_path;;
    dest_path ← convert_to_mp3 config ext dest_path;
    _report_progress
      (mkDownloadProgress 100 "" "" "finished" ("Descarga completa: " +:+ title metadata));;
    mret (<["title" := title metadata]>
          (<["artist" := artist metadata]>
          (<["id" := ident metadata]>
          (<["filepath" := dest_path]> (∅ : Info))))).

End audiomack_downloader.

End Audiomack.
(** ** manager.py: [DownloadManager] *)

Record DownloadManager := mkDownloadManager {
  manager_callback : bool;                 (* [self.progress_callback] is set *)
  _downloaders : gmap string Downloader;   (* the instance cache *)
}.

(** State of a manager method: [self] and the files that exist. *)
Abbreviation MState := (DownloadManager * gset string)%type.

(** [sep.join(items)] *)
Fixpoint join (sep : string) (items : list string) : string :=
  match items with
  | [] => EmptyString
  | [x] => x
  | x :: rest => x +:+ sep +:+ join sep rest
  end.

Definition unsupported_url : exn :=
  mkExn "ValueError"
    ("URL no soportada. Plataformas disponibles: " +:+ join ", " (map PLATFORM_NAME DOWNLOADERS)).

(** The loop of [DownloadManager._get_downloader]. It answers the class that
    matched together with its cached instance; the instance stays shared with
    the cache under the key [PLATFORM_NAME]. *)
Fixpoint _get_downloader_loop (registry : list Platform) (page : string)
    : ST MState (Platform * Downloader) :=
  match registry with
  | [] => raise unsupported_url
  | downloader_cls :: rest =>
      if can_handle downloader_cls page then
        let key := PLATFORM_NAME downloader_cls in
        '(self, files) ← get_state;
        match _downloaders self !! key with
        | Some d => mret (downloader_cls, d)
        | None =>
            let d := new_downloader downloader_cls (manager_callback self) in
            put_state (mkDownloadManager (manager_callback self)
                                         (<[key := d]> (_downloaders self)), files);;
            mret (downloader_cls, d)
        end
      else _get_downloader_loop rest page
  end.

(** [DownloadManager._get_downloader] *)
Definition _get_downloader (page : string) : ST MState (Platform * Downloader) :=
  _get_downloader_loop DOWNLOADERS page.

(** A method call on a cached instance: the method runs on the instance and
    the state it leaves it in is the one the cache holds from then on. *)
Definition call_on {A} (key : string) (d : Downloader) (method : ST DState A) : ST MState A :=
  fun s =>
    let r := method (d, snd s) in
    mkRes (outcome r)
          (mkDownloadManager (manager_callback (fst s))
                             (<[key := fst (state r)]> (_downloaders (fst s))),
           snd (state r))
          (events r).

Section manager.

Context (env : Env).

(** [downloader.download(config)], resolved on the class of the instance:
    only [AudiomackDownloader] overrides [BaseDownloader.download]. *)
Definition Downloader_download (config : DownloadConfig) : ST DState Info :=
  self ← get_self;
  match cls self with
  | AudiomackDownloader => Audiomack.download env config
  | _ => BaseDownloader_download env config
  end.

(** [DownloadManager.download] *)
Definition DownloadManager_download (config : DownloadConfig) : ST MState Info :=
  '(downloader_cls, downloader) ← _get_downloader (url config);
  call_on (PLATFORM_NAME downloader_cls) downloader (Downloader_download config).

End manager.

(** Every cached instance is of the class it is filed under and carries the
    manager's callback. *)
Definition manager_wf (m : DownloadManager) : Prop :=
  forall key d, _downloaders m !! key = Some d ->
    PLATFORM_NAME (cls d) = key /\ progress_callback d = manager_callback m.

(** ** ui/components.py: the progress bar *)

(** [ProgressPanel.set_progress]: the value the bar is set to. *)
Definition set_progress (value : Q) : Q :=
  Qmax 0 (Qmin 100 value).

(** ** The progress records of a trace *)

Definition progress_of (ev : Event) : option DownloadProgress :=
  match ev with
  | EvProgress _ p => Some p
  | _ => None
  end.

(** The records handed to [_report_progress], in order. *)
Definition reported (evs : list Event) : list DownloadProgress :=
  omap progress_of evs.

(** The records the callback received, in order. *)
Definition delivered_to_callback (evs : list Event) : list DownloadProgress :=
  omap (fun ev => match ev with
                  | EvProgress true p => Some p
                  | _ => None
                  end) evs.


(** A record is an error report carrying the text of [e]. *)
Definition reports_failure (e : exn) (p : DownloadProgress) : bool :=
  String.eqb (status p) "error" && String.eqb (message p) ("Error: " +:+ exn_text e).

(** ** The spec's reading of the streaming-URL scan *)

(** The scan as the specification words it: the request URL of the first
    entry, in list order, whose request URL holds the host marker, whatever
    the entry's method. *)
Fixpoint first_marker_url (logs : list LogEntry) : option string :=
  match logs with
  | [] => None
  | entry :: rest =>
      match entry ≫= request_url with
      | Some req_url =>
          if PyStr.contains "music.audiomack.com" req_url then Some req_url
          else first_marker_url rest
      | None => first_marker_url rest
      end
  end.

(** ** A concrete environment *)

(** [format(x, ".1f")] of the exact rational: one decimal, ties to even. *)
Definition format_1f_exact (x : Q) : string :=
  let scaled := (Qabs x * 10)%Q in
  let lo := Qfloor scaled in
  let frac := (scaled - inject_Z lo)%Q in
  let n :=
    match (frac ?= 1 # 2)%Q with
    | Lt => lo
    | Gt => (lo + 1)%Z
    | Eq => if Z.even lo then lo else (lo + 1)%Z
    end in
  (if Qle_bool 0 x then "" else "-") +:+ pretty (n `div` 10)%Z +:+ "." +:+ pretty (n `mod` 10)%Z.

Definition sample_session : BrowserSession :=
  mkBrowserSession None None true None (Some "Artist
Song Title") None
    (Ok [None;
         Some (mkLogMessage (Some "Network.responseReceived") None);
         Some (mkLogMessage (Some "Network.requestWillBeSent")
                            (Some "https://music.audiomack.com/stream/track.m4a"));
         Some (mkLogMessage (Some "Network.requestWillBeSent")
                            (Some "https://audiomack.com/static/app.js"))]).

(** The engine reports half of the download, then fails. *)
Definition failing_run : EngineRun :=
  mkEngineRun
    [ProgressHookCall (mkProgressDict (Some "downloading") (Some 200%Q) None (Some 100%Q)
                                      (Some " 1.0MiB/s ") (Some "00:01"));
     ProgressHookCall (mkProgressDict (Some "error") None None None None None)]
    (Raise (mkExn "DownloadError" "ERROR: Video unavailable")).

Definition sample_env : Env :=
  mkEnv (Some "/opt/ffmpeg/ffmpeg") None (fun _ => None) (fun _ _ => failing_run)
        (fun _ => sample_session)
        (fun _ => Ok (mkHttpResponse (Some 16384%Z) [8192%positive; 8192%positive] None))
        (fun _ => true) format_1f_exact.

Definition sample_config (page : string) (fmt : OutputFormat) : DownloadConfig :=
  mkDownloadConfig page "out" fmt None None.

Definition fresh_manager : DownloadManager := mkDownloadManager true ∅.

(** A log whose first entry carries a marked request URL under another
    method. *)
Definition mixed_method_logs : list LogEntry :=
  [Some (mkLogMessage (Some "Network.requestIntercepted")
                      (Some "https://music.audiomack.com/a.m4a"));
   Some (mkLogMessage (Some "Network.requestWillBeSent")
                      (Some "https://music.audiomack.com/b.mp3"))].

(** The engine reports more bytes than its estimate of the total, then
    succeeds. *)
Definition overshoot_run : EngineRun :=
  mkEngineRun
    [ProgressHookCall (mkProgressDict (Some "downloading") None (Some 100%Q) (Some 200%Q)
                                      None None)]
    (Ok (Some {["title" := "clip"]})).


(** A session whose log holds the marker only in a response. *)
Definition silent_session : BrowserSession :=
  mkBrowserSession None None false None None None
    (Ok [Some (mkLogMessage (Some "Network.responseReceived")
                            (Some "https://music.audiomack.com/stream/track.m4a"));
         None]).

Definition silent_env : Env :=
  mkEnv None None (fun _ => None) (fun _ _ => failing_run)
        (fun _ => silent_session)
        (fun _ => Ok (mkHttpResponse None [] None))
        (fun _ => false) format_1f_exact.

Definition youtube_video : DownloadConfig :=
  sample_config "https://youtu.be/abc123" VIDEO.

Definition audiomack_audio : DownloadConfig :=
  sample_config "https://audiomack.com/some-artist/song/my-song" AUDIO.
(** ** Predicates used in the statements *)

(** Every event a computation emits satisfies [P], whatever the state it
    starts from. *)
Definition emits {S A} (P : Event -> Prop) (m : ST S A) : Prop :=
  forall s, Forall P (events (m s)).

(** What a hook may emit: a progress report that is either not an error or
    the generic error of the progress hook. *)
Definition hook_event (cb : bool) (ev : Event) : Prop :=
  exists p, ev = EvProgress cb p /\
    (status p = "downloading" \/ status p = "processing" \/
     (status p = "error" /\ message p = "Error en la descarga")).


(** A character [clean] may leave in place: outside the replaced class, and
    no whitespace other than the space. *)
Definition kept_char (c : ascii) : bool :=
  negb (Audiomack.is_illegal c) && (negb (PyStr.is_space c) || Ascii.eqb c " ").

Fixpoint all_chars (p : ascii -> bool) (s : string) : bool :=
  match s with
  | EmptyString => true
  | String c r => p c && all_chars p r
  end.


(** The browser session runs through to the log scan and reads [logs]. *)
Definition session_ok (b : BrowserSession) (logs : list LogEntry) : Prop :=
  driver_start b = None /\ page_get b = None /\ remove_overlays b = None /\
  play_button b = None /\ performance_log b = Ok logs.

(** The entry the scan looks for: a [Network.requestWillBeSent] message whose
    request URL is [u] and holds the host marker. *)
Definition wanted (entry : LogEntry) (u : string) : Prop :=
  exists log, entry = Some log /\
    method log = Some "Network.requestWillBeSent" /\
    request_url log = Some u /\
    PyStr.occurs_in "music.audiomack.com" u.

(** Metadata after the URL pattern and the heading refinement. *)
Definition session_metadata (b : BrowserSession) (page : string) : Audiomack.Metadata :=
  let from_url := Audiomack.metadata_from_url page (Audiomack.mkMetadata "Unknown" "Unknown" "unknown") in
  match h1_text b with
  | Some text => Audiomack.metadata_from_heading text from_url
  | None => from_url
  end.

(** The events of a browser session that runs through. *)
Definition session_events (cb : bool) (b : BrowserSession) (page : string) : list Event :=
  [EvBrowser Launch;
   EvProgress cb (mkDownloadProgress 10 "" "" "downloading" "Cargando página...");
   EvBrowser (Get page);
   EvSleep 3;
   EvProgress cb (mkDownloadProgress 15 "" "" "downloading" "Cerrando popups...")]
  ++ (if cookie_banner b then [EvBrowser ClickCookieBanner; EvSleep 1] else [])
  ++ [EvBrowser RemoveOverlays;
      EvBrowser ReadHeading;
      EvProgress cb (mkDownloadProgress 25 "" "" "downloading" "Iniciando reproducción...");
      EvBrowser ClickPlay;
      EvProgress cb (mkDownloadProgress 35 "" "" "downloading" "Esperando carga de audio...");
      EvSleep 8;
      EvProgress cb (mkDownloadProgress 50 "" "" "downloading" "Buscando URL de audio...");
      EvBrowser GetLog;
      EvBrowser Quit].






(** What the Audiomack download may do to the outside: HTTP requests carry
    the two fixed headers, and the extraction engine is never called. *)
Definition quiet_io (ev : Event) : Prop :=
  match ev with
  | EvHttpGet _ headers =>
      headers = [("User-Agent", "Mozilla/5.0 (Windows NT 10.0; Win64; x64) AppleWebKit/537.36");
                 ("Referer", "https://audiomack.com/")]
  | EvEngine _ _ => False
  | _ => True
  end.

(** A method leaves the class and the callback of [self] as they were. *)
Definition keeps_identity {A} (m : ST DState A) : Prop :=
  forall s, cls (fst (state (m s))) = cls (fst s) /\
            progress_callback (fst (state (m s))) = progress_callback (fst s).

(** A computation that returns, returns a value satisfying [Q]. *)
Definition returns {S A} (Q : A -> Prop) (m : ST S A) : Prop :=
  forall s a, outcome (m s) = Ok a -> Q a.

(** The engine tells a progress hook that the download failed. *)
Definition reports_error (call : HookCall) : Prop :=
  match call with
  | ProgressHookCall d => pd_status d = Some "error"
  | PostprocessorHookCall _ => False
  end.

(** A progress report of a hook that is not an error. *)
Definition hook_event_strict (cb : bool) (ev : Event) : Prop :=
  exists p, ev = EvProgress cb p /\ String.eqb (status p) "error" = false.

(** ** Further fixtures and predicates *)

(** The engine calls no hook and answers [None]. *)
Definition none_run : EngineRun := mkEngineRun [] (Ok None).

Definition none_env : Env :=
  mkEnv None (Some "/usr/bin/ffmpeg") (fun _ => None) (fun _ _ => none_run)
        (fun _ => sample_session)
        (fun _ => Ok (mkHttpResponse None [] None))
        (fun _ => false) format_1f_exact.

(** No directory can be created. *)
Definition readonly_env : Env :=
  mkEnv None None (fun dir => Some (mkExn "PermissionError" dir)) (fun _ _ => overshoot_run)
        (fun _ => sample_session)
        (fun _ => Ok (mkHttpResponse None [] None))
        (fun _ => false) format_1f_exact.

(** A session that never shows the play control. *)
Definition stuck_session : BrowserSession :=
  mkBrowserSession None None false None (Some "Artist
Song Title") (Some (mkExn "TimeoutException" "Message: ")) (Ok []).

Definition stuck_env : Env :=
  mkEnv None None (fun _ => None) (fun _ _ => failing_run)
        (fun _ => stuck_session)
        (fun _ => Ok (mkHttpResponse None [] None))
        (fun _ => false) format_1f_exact.

(** The chunk a write event puts into a file. *)
Definition write_of (ev : Event) : option (string * positive) :=
  match ev with
  | EvFileWrite path size => Some (path, size)
  | _ => None
  end.

(** No transcoder is run and no file is removed. *)
Definition leaves_files (ev : Event) : bool :=
  match ev with
  | EvSubprocess _ | EvRemove _ => false
  | _ => true
  end.

(** A record that closes a download. *)
Definition is_finished (ev : Event) : bool :=
  match ev with
  | EvProgress _ p => String.eqb (status p) "finished"
  | _ => false
  end.

(** A computation reports a ["finished"] record exactly when it returns, and
    then as its last event, at 100 percent. *)
Definition finishes_last {A} (m : ST DState A) : Prop :=
  forall s,
    match outcome (m s) with
    | Ok _ =>
        exists evs cb p,
          events (m s) = evs ++ [EvProgress cb p] /\
          status p = "finished" /\ percent p = 100%Q /\
          Forall (fun ev => is_finished ev = false) evs
    | Raise _ => Forall (fun ev => is_finished ev = false) (events (m s))
    end.

(** The start and the end of a browser. *)
Definition is_lifecycle (ev : Event) : bool :=
  match ev with
  | EvBrowser Launch | EvBrowser Quit => true
  | _ => false
  end.

(** No record of status ["error"]. *)
Definition no_error_record (ev : Event) : Prop :=
  match ev with
  | EvProgress _ p =>
      status p = "downloading" \/ status p = "processing" \/ status p = "finished"
  | _ => True
  end.

(** The pattern [audiomack\.com/([^/]+)/song/([^/?]+)] matches at the start
    of [s] with the groups [g1] and [g2]: both are non-empty runs of allowed
    characters, and the second, being greedy, stops only at the end of [s] or
    at a slash or question mark. *)
Definition song_match (g1 g2 s : string) : Prop :=
  exists rest,
    s = "audiomack.com/" +:+ g1 +:+ "/song/" +:+ g2 +:+ rest /\
    g1 <> "" /\ all_chars (fun c => negb (Ascii.eqb c "/")) g1 = true /\
    g2 <> "" /\ all_chars (fun c => negb (Ascii.eqb c "/" || Ascii.eqb c "?")) g2 = true /\
    match rest with
    | EmptyString => True
    | String c _ => Ascii.eqb c "/" || Ascii.eqb c "?" = true
    end.

(** [path] names an entry of [dir] itself: [dir] joined with one non-empty
    component that holds no slash. *)
Definition inside_dir (dir path : string) : Prop :=
  exists name,
    path = os_path_join dir name /\ name <> "" /\
    all_chars (fun c => negb (Ascii.eqb c "/")) name = true.

(** Every file an event opens, writes or removes is an entry of [dir]. *)
Definition touches_inside (dir : string) (ev : Event) : Prop :=
  match ev with
  | EvFileOpen path | EvFileWrite path _ | EvRemove path => inside_dir dir path
  | _ => True
  end.

(** A progress event carries the delivery flag [cb]. *)
Definition reports_with (cb : bool) (ev : Event) : Prop :=
  match ev with
  | EvProgress delivered _ => delivered = cb
  | _ => True
  end.

(** Every record a method reports is handed to the callback of [self], or
    dropped when there is none, and the method leaves that callback in
    place. *)
Definition delivers_own {A} (m : ST DState A) : Prop :=
  forall s,
    Forall (reports_with (progress_callback (fst s))) (events (m s)) /\
    progress_callback (fst (state (m s))) = progress_callback (fst s).


(** ** ui/main_window.py: what a progress record does to the window *)

Module UI.

(** The three widgets a record reaches: the variable of the progress bar,
    the status label, and the texts inserted into the log, in order. *)
Record Window := mkWindow {
  progress_var : Q;
  status_var : string;
  log_text : list string;
}.

(** [ProgressPanel.set_status] *)
Definition set_status (text : string) (w : Window) : Window :=
  mkWindow (progress_var w) text (log_text w).

(** [ProgressPanel.reset] *)
Definition reset (w : Window) : Window :=
  set_status "Listo." (mkWindow (set_progress 0) (status_var w) (log_text w)).

(** [LogPanel.log]: the message and a line feed go to the end of the text. *)
Definition log (message : string) (w : Window) : Window :=
  mkWindow (progress_var w) (status_var w) (log_text w ++ [message +:+ String "010" ""]).

(** The closure [update] of [MainWindow._handle_progress]. *)
Definition update (progress : DownloadProgress) (w : Window) : Window :=
  let w := mkWindow (set_progress (percent progress)) (status_var w) (log_text w) in
  let w := set_status (message progress) w in
  if String.eqb (status progress) "error" then log ("❌ " +:+ message progress) w
  else if String.eqb (status progress) "finished" then log ("✅ " +:+ message progress) w
  else w.

(** [MainWindow._handle_progress]: the closure is handed to the event loop
    with [self.after(0, update)] and runs on the window as it is by then. *)
Definition _handle_progress (progress : DownloadProgress) (w : Window) : Window :=
  update progress w.

(** The event loop runs the closures in the order they were handed over:
    the window after the records of a download. *)
Definition mainloop (records : list DownloadProgress) (w : Window) : Window :=
  fold_left (fun w progress => _handle_progress progress w) records w.

End UI.
(** ** Facts about strings *)

Section string_facts.

Import PyStr.

Lemma app_nil_l (t : string) : "" +:+ t = t.
Proof. reflexivity. Qed.

Lemma app_cons (a : ascii) (p t : string) : String a p +:+ t = String a (p +:+ t).
Proof. reflexivity. Qed.

Lemma startswith_spec p s : startswith p s = true <-> exists t, s = p +:+ t.
Proof.
  revert s. induction p as [|a p IH]; intros s; simpl.
  - split; eauto.
  - destruct s as [|b s].
    + split; [discriminate | intros [t Ht]; discriminate].
    + destruct (Ascii.eqb_spec a b) as [->|Hne].
      * rewrite IH. split; intros [t Ht]; exists t; rewrite app_cons in *; congruence.
      * split; [discriminate | intros [t Ht]; rewrite app_cons in Ht; congruence].
Qed.

Lemma contains_spec sub s : contains sub s = true <-> occurs_in sub s.
Proof.
  unfold occurs_in. induction s as [|c s IH]; simpl.
  - rewrite orb_false_r, startswith_spec. split.
    + intros [t Ht]. exists "", t. exact Ht.
    + intros (pre & post & H). destruct pre; [eauto | discriminate].
  - rewrite orb_true_iff, startswith_spec, IH. split.
    + intros [[t Ht] | (pre & post & H)].
      * exists "", t. exact Ht.
      * exists (String c pre), post. rewrite app_cons. congruence.
    + intros (pre & post & H). destruct pre as [|c' pre].
      * left. eauto.
      * right. exists pre, post. rewrite app_cons in H. congruence.
Qed.

End string_facts.

Lemma can_handle_spec cls url : can_handle cls url = true <-> claims_url cls url.
Proof.
  unfold can_handle, claims_url. rewrite existsb_exists.
  split; intros (d & Hin & H); exists d; split; auto; now apply contains_spec.
Qed.



(** Declaration order alone breaks a tie: this URL holds a domain of every
    platform and resolves to the first one. *)
Example detect_platform_tie :
  Forall (fun c => can_handle c "https://x.com/audiomack.com/instagr.am?u=YouTu.be" = true) DOWNLOADERS /\
  detect_platform "https://x.com/audiomack.com/instagr.am?u=YouTu.be" = "YouTube".
Proof. split; [repeat constructor | reflexivity]. Qed.

(** ** Facts about the monad *)

Section monad_facts.

Context {S : Type}.

Lemma bind_unfold {A B} (m : ST S A) (f : A -> ST S B) (s : S) :
  (m ≫= f) s =
  match outcome (m s) with
  | Ok a => mkRes (outcome (f a (state (m s)))) (state (f a (state (m s))))
                  (events (m s) ++ events (f a (state (m s))))
  | Raise e => mkRes (Raise e) (state (m s)) (events (m s))
  end.
Proof. reflexivity. Qed.

Lemma bind_ok {A B} (m : ST S A) (f : A -> ST S B) s a s' evs :
  m s = mkRes (Ok a) s' evs ->
  (m ≫= f) s = mkRes (outcome (f a s')) (state (f a s')) (evs ++ events (f a s')).
Proof. intros H. rewrite bind_unfold, H. reflexivity. Qed.

Lemma bind_raise {A B} (m : ST S A) (f : A -> ST S B) s e s' evs :
  m s = mkRes (Raise e) s' evs ->
  (m ≫= f) s = mkRes (Raise e) s' evs.
Proof. intros H. rewrite bind_unfold, H. reflexivity. Qed.

(** The same two facts in the form used to run a program step by step. *)
Lemma bind_run_ok {A B} (m : ST S A) (f : A -> ST S B) s a s1 evs1 o s2 evs2 :
  m s = mkRes (Ok a) s1 evs1 ->
  f a s1 = mkRes o s2 evs2 ->
  (m ≫= f) s = mkRes o s2 (evs1 ++ evs2).
Proof. intros H1 H2. rewrite (bind_ok _ _ _ _ _ _ H1), H2. reflexivity. Qed.

Lemma run_with_events {A} (r : Res S A) o s evs evs' :
  r = mkRes o s evs' -> evs' = evs -> r = mkRes o s evs.
Proof. intros -> ->. reflexivity. Qed.

Lemma try_finally_run {A} (body : ST S A) (cleanup : ST S unit) s o s1 evs1 s2 evs2 :
  body s = mkRes o s1 evs1 ->
  cleanup s1 = mkRes (Ok tt) s2 evs2 ->
  try_finally body cleanup s = mkRes o s2 (evs1 ++ evs2).
Proof. intros H1 H2. unfold try_finally. rewrite H1. simpl. rewrite H2. reflexivity. Qed.

Lemma emit_run ev (s : S) : emit ev s = mkRes (Ok tt) s [ev].
Proof. reflexivity. Qed.

Lemma mret_run {A} (a : A) (s : S) : (mret a : ST S A) s = mkRes (Ok a) s [].
Proof. reflexivity. Qed.

Lemma raise_run {A} e (s : S) : (raise e : ST S A) s = mkRes (Raise e) s [].
Proof. reflexivity. Qed.

Lemma res_eta {A} (r : Res S A) : r = mkRes (outcome r) (state r) (events r).
Proof. destruct r; reflexivity. Qed.

Lemma emits_ret {A} P (a : A) : emits P (mret a : ST S A).
Proof. intros s. constructor. Qed.

Lemma emits_raise {A} P e : emits P (raise e : ST S A).
Proof. intros s. constructor. Qed.

Lemma emits_emit P ev : P ev -> emits P (emit ev : ST S unit).
Proof. intros H s. repeat constructor. exact H. Qed.

Lemma emits_bind {A B} P (m : ST S A) (f : A -> ST S B) :
  emits P m -> (forall a, emits P (f a)) -> emits P (m ≫= f).
Proof.
  intros Hm Hf s. rewrite bind_unfold. specialize (Hm s).
  destruct (outcome (m s)); simpl; [|exact Hm].
  apply Forall_app. split; [exact Hm | apply Hf].
Qed.

Lemma emits_try_except {A} P (m : ST S A) h :
  emits P m -> (forall e, emits P (h e)) -> emits P (try_except m h).
Proof.
  intros Hm Hh s. unfold try_except. specialize (Hm s).
  destruct (outcome (m s)); simpl; [exact Hm|].
  apply Forall_app. split; [exact Hm | apply Hh].
Qed.

Lemma emits_try_finally {A} P (m : ST S A) c :
  emits P m -> emits P c -> emits P (try_finally m c).
Proof.
  intros Hm Hc s. unfold try_finally. specialize (Hm s). specialize (Hc (state (m s))).
  destruct (outcome (c (state (m s)))); simpl; apply Forall_app; split; assumption.
Qed.

Lemma emits_for_each {A} P (xs : list A) (body : A -> ST S unit) :
  (forall x, emits P (body x)) -> emits P (for_each xs body).
Proof.
  intros Hb. induction xs as [|x xs IH]; simpl.
  - apply emits_ret.
  - apply emits_bind; auto.
Qed.

Lemma emits_get_state P : emits P (get_state : ST S S).
Proof. intros s. constructor. Qed.

Lemma emits_put_state P s' : emits P (put_state s' : ST S unit).
Proof. intros s. constructor. Qed.

End monad_facts.

Create HintDb emits.

#[local] Hint Resolve emits_ret emits_raise emits_get_state emits_put_state : emits.

(** Breaks a computation down to the events it emits one by one. *)
Ltac emits_step :=
  match goal with
  | |- emits _ (mbind _ _) => apply emits_bind; [|intros ?]
  | |- emits _ (try_except _ _) => apply emits_try_except; [|intros ?]
  | |- emits _ (try_finally _ _) => apply emits_try_finally
  | |- emits _ (for_each _ _) => apply emits_for_each; intros ?
  | |- emits _ (emit _) => apply emits_emit
  | |- emits _ (mret _) => apply emits_ret
  | |- emits _ (raise _) => apply emits_raise
  | |- emits _ get_state => apply emits_get_state
  | |- emits _ (put_state _) => apply emits_put_state
  | |- emits _ (if ?b then _ else _) => destruct b eqn:?
  | |- emits _ (match ?x with _ => _ end) => destruct x eqn:?
  end.

(** ** Tool lookup and platform options *)

Section options_facts.

Context (env : Env).

Lemma truthy_Some (o : option string) : PyStr.truthy o = true -> o ≠ None.
Proof. destruct o; [discriminate | discriminate]. Qed.

Lemma _get_ffmpeg_path_run self files :
  exists p self',
    _get_ffmpeg_path env (self, files) = mkRes (Ok p) (self', files) [] /\
    bool_decide (p ≠ None) = tool_available env self /\
    cls self' = cls self /\
    progress_callback self' = progress_callback self /\
    tool_available env self' = tool_available env self.
Proof.
  unfold _get_ffmpeg_path, tool_available.
  rewrite bind_unfold; simpl.
  destruct (PyStr.truthy (_ffmpeg_path self)) eqn:Hc; simpl.
  - exists (_ffmpeg_path self), self. repeat split.
    + apply truthy_Some in Hc. rewrite bool_decide_eq_true_2; auto.
    + rewrite Hc. reflexivity.
  - destruct (imageio_ffmpeg_exe env) as [exe|] eqn:Hi; simpl.
    + eexists _, _. repeat split. simpl. rewrite orb_true_r. reflexivity.
    + destruct (PyStr.truthy (which_ffmpeg env)) eqn:Hw; simpl.
      * eexists _, _. repeat split; simpl.
        -- apply truthy_Some in Hw. rewrite bool_decide_eq_true_2; auto.
        -- rewrite Hw. rewrite orb_true_r. reflexivity.
      * exists None, self. repeat split. rewrite Hc. reflexivity.
Qed.

Lemma _has_ffmpeg_run self files :
  exists self',
    _has_ffmpeg env (self, files) = mkRes (Ok (tool_available env self)) (self', files) [] /\
    cls self' = cls self /\
    progress_callback self' = progress_callback self /\
    tool_available env self' = tool_available env self.
Proof.
  destruct (_get_ffmpeg_path_run self files) as (p & self' & Hrun & Hp & Hcls & Hcb & Ht).
  exists self'. repeat split; auto.
  unfold _has_ffmpeg. rewrite (bind_ok _ _ _ _ _ _ Hrun). simpl. rewrite Hp. reflexivity.
Qed.

Lemma format_options_run cfg pps (base : Options) self files :
  exists self',
    format_options env cfg pps base (self, files) =
      mkRes (Ok (match output_format cfg with
                 | AUDIO => <["postprocessors" := VList pps]> (<["format" := VStr "bestaudio/best"]> base)
                 | VIDEO =>
                     if tool_available env self
                     then <["merge_output_format" := VStr "mp4"]>
                            (<["format" := VStr "bestvideo+bestaudio/best"]> base)
                     else <["format" := VStr "best"]> base
                 end))
            (self', files) [] /\
    cls self' = cls self /\
    progress_callback self' = progress_callback self /\
    tool_available env self' = tool_available env self.
Proof.
  unfold format_options. destruct (output_format cfg); simpl.
  - destruct (_has_ffmpeg_run self files) as (self' & Hrun & Hcls & Hcb & Ht).
    exists self'. repeat split; auto.
    rewrite (bind_ok _ _ _ _ _ _ Hrun).
    destruct (tool_available env self); reflexivity.
  - exists self. repeat split.
Qed.


End options_facts.

(** ** The two hooks *)

Section hook_facts.

Context (env : Env).


Lemma _report_progress_run p self files :
  _report_progress p (self, files) =
    mkRes (Ok tt) (self, files) [EvProgress (progress_callback self) p].
Proof. reflexivity. Qed.


(** A hook only ever reports progress, and leaves the state alone. *)
Lemma progress_hook_shape d self files :
  exists evs,
    progress_hook env d (self, files) = mkRes (Ok tt) (self, files) evs /\
    Forall (fun ev => exists p, ev = EvProgress (progress_callback self) p /\
                        (status p = "downloading" \/ status p = "processing" \/
                         (status p = "error" /\ message p = "Error en la descarga"))) evs.
Proof.
  unfold progress_hook.
  repeat match goal with
         | |- context [if String.eqb ?a ?b then _ else _] => destruct (String.eqb a b)
         end;
    eexists; (split; [reflexivity|]); repeat constructor; eexists; split; try reflexivity;
    simpl; auto.
Qed.

Lemma postprocessor_hook_shape d self files :
  exists evs,
    postprocessor_hook d (self, files) = mkRes (Ok tt) (self, files) evs /\
    Forall (fun ev => exists p, ev = EvProgress (progress_callback self) p /\
                        status p = "processing" /\
                        (percent p = 97%Q \/ percent p = 99%Q)) evs.
Proof.
  unfold postprocessor_hook.
  repeat match goal with
         | |- context [if String.eqb ?a ?b then _ else _] => destruct (String.eqb a b)
         end;
    eexists; (split; [reflexivity|]); repeat constructor; eexists; split; try reflexivity;
    simpl; auto.
Qed.

End hook_facts.

(** ** [BaseDownloader.download] *)

Section download_facts.

Context (env : Env).

Lemma run_hook_shape opts call self files :
  exists evs,
    run_hook env opts call (self, files) = mkRes (Ok tt) (self, files) evs /\
    Forall (hook_event (progress_callback self)) evs.
Proof.
  destruct call as [d|d]; simpl.
  - destruct (registered _ _ _).
    + apply progress_hook_shape.
    + exists []. split; [reflexivity | constructor].
  - destruct (registered _ _ _).
    + destruct (postprocessor_hook_shape d self files) as (evs & Hrun & Hall).
      exists evs. split; [exact Hrun|].
      eapply Forall_impl; [exact Hall|]. intros ev (p & -> & Hs & _). exists p. auto.
    + exists []. split; [reflexivity | constructor].
Qed.

Lemma run_hooks_shape opts calls self files :
  exists evs,
    for_each calls (run_hook env opts) (self, files) = mkRes (Ok tt) (self, files) evs /\
    Forall (hook_event (progress_callback self)) evs.
Proof.
  induction calls as [|call calls IH]; simpl.
  - exists []. split; [reflexivity | constructor].
  - destruct (run_hook_shape opts call self files) as (evs1 & Hrun1 & Hall1).
    destruct IH as (evs2 & Hrun2 & Hall2).
    exists (evs1 ++ evs2). split.
    + rewrite (bind_ok _ _ _ _ _ _ Hrun1), Hrun2. reflexivity.
    + apply Forall_app. auto.
Qed.

Lemma run_hook_strict opts call self files evs :
  run_hook env opts call (self, files) = mkRes (Ok tt) (self, files) evs ->
  ~ reports_error call ->
  Forall (hook_event_strict (progress_callback self)) evs.
Proof.
  destruct call as [d|d]; simpl; intros Hrun Hno.
  - destruct (registered _ _ _); [|injection Hrun as <-; constructor].
    revert Hrun. unfold progress_hook.
    destruct (String.eqb _ "downloading");
      [|destruct (String.eqb _ "finished");
        [|destruct (String.eqb (default "" (pd_status d)) "error") eqn:E]];
      rewrite ?_report_progress_run; intros [= <-]; try constructor;
      try (repeat constructor; eexists; split; reflexivity).
    apply String.eqb_eq in E. destruct (pd_status d) as [st|]; simpl in E; [|discriminate E].
    subst st. destruct (Hno eq_refl).
  - destruct (registered _ _ _); [|injection Hrun as <-; constructor].
    revert Hrun. unfold postprocessor_hook.
    destruct (String.eqb _ "started"); [|destruct (String.eqb _ "finished")];
      rewrite ?_report_progress_run; intros [= <-]; try constructor;
      repeat constructor; eexists; split; reflexivity.
Qed.

Lemma run_hooks_strict opts calls self files evs :
  for_each calls (run_hook env opts) (self, files) = mkRes (Ok tt) (self, files) evs ->
  Forall (fun call => ~ reports_error call) calls ->
  Forall (hook_event_strict (progress_callback self)) evs.
Proof.
  revert evs. induction calls as [|call calls IH]; intros evs Hrun Hall.
  - injection Hrun as <-. constructor.
  - inversion Hall as [|? ? Hcall Hrest]; subst.
    destruct (run_hook_shape opts call self files) as (evs1 & Hrun1 & _).
    destruct (run_hooks_shape opts calls self files) as (evs2 & Hrun2 & _).
    cbn [for_each] in Hrun. rewrite (bind_ok _ _ _ _ _ _ Hrun1), Hrun2 in Hrun.
    injection Hrun as <-. apply Forall_app. split.
    + exact (run_hook_strict _ _ _ _ _ Hrun1 Hcall).
    + exact (IH _ Hrun2 Hrest).
Qed.

Lemma os_makedirs_run dir (s : DState) :
  os_makedirs env dir s =
    mkRes (match makedirs env dir with Some e => Raise e | None => Ok tt end) s
          [EvMakedirs dir].
Proof.
  unfold os_makedirs. rewrite bind_unfold. simpl.
  destruct (makedirs env dir); reflexivity.
Qed.

Lemma _get_base_options_shape cfg self files :
  exists o self',
    _get_base_options env cfg (self, files) =
      mkRes o (self', files) [EvMakedirs (output_dir cfg)] /\
    (makedirs env (output_dir cfg) = None -> exists opts, o = Ok opts) /\
    cls self' = cls self /\
    progress_callback self' = progress_callback self /\
    tool_available env self' = tool_available env self.
Proof.
  unfold _get_base_options.
  pose proof (os_makedirs_run (output_dir cfg) (self, files)) as Hmk.
  destruct (makedirs env (output_dir cfg)) as [e|].
  - rewrite (bind_raise _ _ _ _ _ _ Hmk).
    exists (Raise e), self. repeat split. discriminate.
  - rewrite (bind_ok _ _ _ _ _ _ Hmk).
    destruct (PyStr.truthy (ffmpeg_path cfg)).
    + eexists _, self. split; [reflexivity|]. repeat split. eauto.
    + destruct (_get_ffmpeg_path_run env self files) as (p & self' & Hrun & _ & Hcls & Hcb & Ht).
      rewrite (bind_ok _ _ _ _ _ _ Hrun).
      eexists _, self'. split; [reflexivity|]. repeat split; eauto.
Qed.

Lemma _get_platform_options_shape c cfg self files :
  exists opts self',
    _get_platform_options env c cfg (self, files) = mkRes (Ok opts) (self', files) [] /\
    cls self' = cls self /\
    progress_callback self' = progress_callback self /\
    tool_available env self' = tool_available env self.
Proof.
  destruct c; simpl.
  4: { exists ∅, self. repeat split. }
  all: match goal with
       | |- context [format_options _ _ ?pps ?base] =>
           destruct (format_options_run env cfg pps base self files) as (self' & Hrun & H)
       end; eexists _, self'; split; [exact Hrun | exact H].
Qed.

Lemma merged_options_shape cfg self files :
  exists o self',
    merged_options env cfg (self, files) = mkRes o (self', files) [EvMakedirs (output_dir cfg)] /\
    (makedirs env (output_dir cfg) = None -> exists opts, o = Ok opts) /\
    cls self' = cls self /\
    progress_callback self' = progress_callback self.
Proof.
  unfold merged_options.
  destruct (_get_base_options_shape cfg self files) as (o & s1 & Hrun & Hok & Hcls & Hcb & _).
  destruct o as [opts|e].
  - rewrite (bind_ok _ _ _ _ _ _ Hrun).
    rewrite bind_unfold. simpl.
    destruct (_get_platform_options_shape (cls s1) cfg s1 files) as (popts & s2 & Hrun2 & Hcls2 & Hcb2 & _).
    rewrite (bind_ok _ _ _ _ _ _ Hrun2). simpl.
    eexists _, s2. split; [reflexivity|]. repeat split; [eauto | congruence | congruence].
  - rewrite (bind_raise _ _ _ _ _ _ Hrun).
    exists (Raise e), s1. repeat split; auto.
Qed.

Lemma ydl_extract_info_run opts page self files :
  exists evs,
    ydl_extract_info env opts page (self, files) =
      mkRes (engine_result (extract_info env opts page)) (self, files)
            (EvEngine opts page :: evs) /\
    Forall (hook_event (progress_callback self)) evs /\
    (Forall (fun call => ~ reports_error call) (hook_calls (extract_info env opts page)) ->
     Forall (hook_event_strict (progress_callback self)) evs).
Proof.
  unfold ydl_extract_info.
  destruct (run_hooks_shape opts (hook_calls (extract_info env opts page)) self files)
    as (evs & Hrun & Hall).
  exists evs. split; [|split; [exact Hall | exact (run_hooks_strict _ _ _ _ _ Hrun)]].
  rewrite bind_unfold. simpl. rewrite (bind_ok _ _ _ _ _ _ Hrun).
  destruct (engine_result (extract_info env opts page)); simpl; rewrite app_nil_r; reflexivity.
Qed.

Lemma reports_failure_hook e cb evs :
  Forall (hook_event cb) evs ->
  List.filter (reports_failure e) (reported evs) = [].
Proof.
  induction 1 as [|ev evs (p & -> & Hp) _ IH]; [reflexivity|].
  assert (Hno : reports_failure e p = false).
  { unfold reports_failure. destruct Hp as [-> | [-> | [-> ->]]]; reflexivity. }
  unfold reported in *. simpl. rewrite Hno. exact IH.
Qed.

Lemma error_status_hook cb evs :
  Forall (hook_event_strict cb) evs ->
  List.filter (fun p => String.eqb (status p) "error") (reported evs) = [].
Proof.
  induction 1 as [|ev evs (p & -> & Hp) _ IH]; [reflexivity|].
  unfold reported in *. simpl. rewrite Hp. exact IH.
Qed.

Lemma delivered_hook cb evs :
  Forall (hook_event cb) evs ->
  delivered_to_callback evs = if cb then reported evs else [].
Proof.
  induction 1 as [|ev evs (p & -> & Hp) _ IH]; [destruct cb; reflexivity|].
  unfold delivered_to_callback, reported in *. simpl.
  destruct cb; simpl; [f_equal|]; exact IH.
Qed.

(** C4. When the engine raises [e], [BaseDownloader.download] ends by raising
    that same [e]; among the records it reports exactly one is an ["error"]
    record whose message is ["Error: "] followed by the text of [e], and it
    is the last event; the callback, when there is one, receives every
    record. That record is the only one of status ["error"] altogether,
    unless the engine itself told the progress hook of an error, in which
    case the hook's generic error record precedes it. *)
Theorem download_reports_and_reraises (cfg : DownloadConfig) (self : Downloader)
    (files : gset string) (opts : Options) (s1 : DState) (evs1 : list Event) (e : exn) :
  merged_options env cfg (self, files) = mkRes (Ok opts) s1 evs1 ->
  engine_result (extract_info env opts (url cfg)) = Raise e ->
  let r := BaseDownloader_download env cfg (self, files) in
  let failure := mkDownloadProgress 0 "" "" "error" ("Error: " +:+ exn_text e) in
  outcome r = Raise e /\
  List.filter (reports_failure e) (reported (events r)) = [failure] /\
  last (events r) = Some (EvProgress (progress_callback self) failure) /\
  delivered_to_callback (events r) =
    (if progress_callback self then reported (events r) else []) /\
  (Forall (fun call => ~ reports_error call) (hook_calls (extract_info env opts (url cfg))) ->
   List.filter (fun p => String.eqb (status p) "error") (reported (events r)) = [failure]).
Proof.
  intros Hopts Hengine r failure.
  destruct (merged_options_shape cfg self files) as (o & self' & Hshape & _ & _ & Hcb).
  rewrite Hopts in Hshape. injection Hshape as _ -> ->.
  destruct (ydl_extract_info_run opts (url cfg) self' files) as (hevs & Hrun & Hall & Hstrict).
  rewrite Hengine, Hcb in *.
  assert (Hr : r = mkRes (Raise e) (self', files)
                 (EvProgress (progress_callback self)
                    (mkDownloadProgress 0 "" "" "downloading" "Iniciando descarga…")
                  :: EvMakedirs (output_dir cfg) :: EvEngine opts (url cfg)
                  :: hevs ++ [EvProgress (progress_callback self) failure])).
  { subst r. unfold BaseDownloader_download.
    rewrite (bind_ok _ _ _ _ _ _ (_report_progress_run _ self files)).
    rewrite (bind_ok _ _ _ _ _ _ Hopts).
    unfold try_except. rewrite (bind_raise _ _ _ _ _ _ Hrun). simpl.
    rewrite Hcb. reflexivity. }
  rewrite Hr. cbn [outcome events]. split; [reflexivity|].
  match goal with
  | |- context [reported ?l] =>
      assert (Hrep : reported l
                     = mkDownloadProgress 0 "" "" "downloading" "Iniciando descarga…"
                       :: reported hevs ++ [failure])
        by (unfold reported; simpl; rewrite omap_app; reflexivity)
  end.
  split; [|split; [|split]].
  - rewrite Hrep. simpl. rewrite List.filter_app, (reports_failure_hook e _ _ Hall).
    unfold reports_failure, failure. simpl. rewrite String.eqb_refl. reflexivity.
  - rewrite !last_cons, last_snoc. reflexivity.
  - rewrite Hrep. unfold delivered_to_callback. simpl. rewrite omap_app.
    fold (delivered_to_callback hevs). rewrite (delivered_hook _ _ Hall).
    destruct (progress_callback self); reflexivity.
  - intros Hquiet. rewrite Hrep. simpl.
    rewrite List.filter_app, (error_status_hook _ _ (Hstrict Hquiet)). reflexivity.
Qed.
End download_facts.

(** ** [DownloadManager] *)

Section manager_facts.

Context (env : Env).

Lemma detect_platform_loop_find registry page :
  detect_platform_loop registry page =
    match List.find (fun c => can_handle c page) registry with
    | Some c => PLATFORM_NAME c
    | None => "Desconocida"
    end.
Proof.
  induction registry as [|c rest IH]; simpl; [reflexivity|].
  destruct (can_handle c page); [reflexivity | exact IH].
Qed.

Lemma _get_downloader_loop_run registry page mgr files :
  _get_downloader_loop registry page (mgr, files) =
    match List.find (fun c => can_handle c page) registry with
    | None => mkRes (Raise unsupported_url) (mgr, files) []
    | Some c =>
        match _downloaders mgr !! PLATFORM_NAME c with
        | Some d => mkRes (Ok (c, d)) (mgr, files) []
        | None =>
            mkRes (Ok (c, new_downloader c (manager_callback mgr)))
                  (mkDownloadManager (manager_callback mgr)
                     (<[PLATFORM_NAME c := new_downloader c (manager_callback mgr)]>
                        (_downloaders mgr)), files) []
        end
    end.
Proof.
  induction registry as [|c rest IH]; simpl; [reflexivity|].
  destruct (can_handle c page); [|exact IH].
  rewrite bind_unfold. simpl.
  destruct (_downloaders mgr !! PLATFORM_NAME c); reflexivity.
Qed.

Lemma Downloader_download_dispatch cfg d files :
  Downloader_download env cfg (d, files) =
    match cls d with
    | AudiomackDownloader => Audiomack.download env cfg (d, files)
    | _ => BaseDownloader_download env cfg (d, files)
    end.
Proof.
  unfold Downloader_download. rewrite bind_unfold. unfold get_self.
  cbn [outcome state events fst app].
  destruct (cls d); symmetry; apply res_eta.
Qed.

(** C3. [DownloadManager.download] on a manager whose cache is well formed.
    When no registered class handles the URL it raises the [ValueError] whose
    message lists every platform name, emits no event and leaves the manager
    and the files as they were. Otherwise the first class that handles the
    URL, the one [detect_platform] names, is used: its cached instance, or a
    fresh one, runs its own [download], and outcome and events of the call
    are those of that run; the instance is kept in the cache. *)
Theorem manager_download_dispatch (cfg : DownloadConfig) (mgr : DownloadManager)
    (files : gset string) :
  manager_wf mgr ->
  match List.find (fun c => can_handle c (url cfg)) DOWNLOADERS with
  | None =>
      detect_platform (url cfg) = "Desconocida" /\
      DownloadManager_download env cfg (mgr, files) =
        mkRes (Raise (mkExn "ValueError"
                 "URL no soportada. Plataformas disponibles: YouTube, X (Twitter), Instagram, Audiomack"))
              (mgr, files) [] /\
      Forall (fun name =>
                PyStr.occurs_in name
                  "URL no soportada. Plataformas disponibles: YouTube, X (Twitter), Instagram, Audiomack")
             get_supported_platforms
  | Some c =>
      detect_platform (url cfg) = PLATFORM_NAME c /\
      let d := default (new_downloader c (manager_callback mgr))
                       (_downloaders mgr !! PLATFORM_NAME c) in
      let r := match c with
               | AudiomackDownloader => Audiomack.download env cfg (d, files)
               | _ => BaseDownloader_download env cfg (d, files)
               end in
      cls d = c /\
      DownloadManager_download env cfg (mgr, files) =
        mkRes (outcome r)
              (mkDownloadManager (manager_callback mgr)
                 (<[PLATFORM_NAME c := fst (state r)]> (_downloaders mgr)),
               snd (state r))
              (events r)
  end.
Proof.
  intros Hwf.
  unfold detect_platform, DownloadManager_download, _get_downloader.
  rewrite detect_platform_loop_find.
  pose proof (_get_downloader_loop_run DOWNLOADERS (url cfg) mgr files) as Hget.
  destruct (List.find (fun c => can_handle c (url cfg)) DOWNLOADERS) as [c|].
  - split; [reflexivity|].
    destruct (_downloaders mgr !! PLATFORM_NAME c) as [d|] eqn:Hd; cbn [default].
    + destruct (Hwf _ _ Hd) as [Hname _].
      assert (Hcls : cls d = c) by (destruct (cls d), c; simpl in Hname; congruence).
      split; [exact Hcls|].
      rewrite (bind_ok _ _ _ _ _ _ Hget). unfold call_on. cbn [fst snd outcome state events].
      rewrite Downloader_download_dispatch, Hcls. reflexivity.
    + split; [reflexivity|].
      rewrite (bind_ok _ _ _ _ _ _ Hget). unfold call_on. cbn [fst snd outcome state events].
      rewrite Downloader_download_dispatch. cbn [cls new_downloader _downloaders manager_callback].
      rewrite insert_insert_eq. reflexivity.
  - split; [reflexivity|]. split.
    + rewrite (bind_raise _ _ _ _ _ _ Hget). reflexivity.
    + repeat constructor; apply contains_spec; reflexivity.
Qed.

End manager_facts.

(** ** The filename sanitizer *)

Section clean_facts.

Import PyStr Audiomack.

Lemma all_chars_impl (p q : ascii -> bool) s :
  (forall c, p c = true -> q c = true) -> all_chars p s = true -> all_chars q s = true.
Proof.
  intros Hpq. induction s as [|c r IH]; simpl; [auto|].
  rewrite !andb_true_iff. intros [Hc Hr]. auto.
Qed.


Lemma all_chars_lstrip p s : all_chars p s = true -> all_chars p (lstrip s) = true.
Proof.
  induction s as [|c r IH]; simpl; [auto|].
  rewrite andb_true_iff. intros [Hc Hr].
  destruct (is_space c); [auto|]. simpl. rewrite Hc, Hr. reflexivity.
Qed.

Lemma all_chars_rstrip p s : all_chars p s = true -> all_chars p (rstrip s) = true.
Proof.
  induction s as [|c r IH]; simpl; [auto|].
  rewrite andb_true_iff. intros [Hc Hr]. specialize (IH Hr).
  destruct (rstrip r) as [|c' r'].
  - destruct (is_space c); simpl; [reflexivity | rewrite Hc; reflexivity].
  - simpl in *. rewrite Hc, IH. reflexivity.
Qed.

Lemma sub_illegal_legal s :
  all_chars (fun c => negb (is_illegal c)) (sub_illegal s) = true.
Proof.
  induction s as [|c r IH]; simpl; [reflexivity|].
  rewrite IH, andb_true_r.
  destruct (is_illegal c) eqn:E; [reflexivity | rewrite E; reflexivity].
Qed.

Lemma sub_spaces_kept b s :
  all_chars (fun c => negb (is_illegal c)) s = true ->
  all_chars kept_char (sub_spaces b s) = true.
Proof.
  revert b. induction s as [|c r IH]; intros b; simpl; [auto|].
  rewrite andb_true_iff. intros [Hc Hr].
  destruct (is_space c) eqn:Hs.
  - destruct b; simpl; auto.
  - simpl. rewrite IH by exact Hr. unfold kept_char. rewrite Hc, Hs. reflexivity.
Qed.













Lemma clean_kept s : all_chars kept_char (clean s) = true.
Proof.
  unfold clean, strip.
  apply all_chars_rstrip, all_chars_lstrip, sub_spaces_kept, sub_illegal_legal.
Qed.



Lemma returns_bind {S A B} (Q : B -> Prop) (m : ST S A) (f : A -> ST S B) :
  (forall a, returns Q (f a)) -> returns Q (m ≫= f).
Proof.
  intros Hf s b. rewrite bind_unfold.
  destruct (outcome (m s)) as [a|e]; cbn [outcome]; [apply Hf | discriminate].
Qed.

Lemma returns_mret {S A} (Q : A -> Prop) (a : A) : Q a -> returns Q (mret a : ST S A).
Proof. intros H s b [= <-]. exact H. Qed.

Lemma returns_raise {S A} (Q : A -> Prop) e : returns Q (raise e : ST S A).
Proof. intros s b H. discriminate H. Qed.



End clean_facts.

(** ** [AudiomackDownloader] *)

(** Runs the primitive steps of a program whose results are known. *)
Ltac run_prim :=
  cbv beta;
  lazymatch goal with
  | |- emit _ _ = _ => apply emit_run
  | |- _report_progress _ _ = _ => apply _report_progress_run
  | |- mret _ _ = _ => apply mret_run
  | |- (_ ≫= _) _ = _ => eapply bind_run_ok; [run_prim | run_prim]
  end.

Ltac run_steps :=
  repeat (cbv beta; eapply bind_run_ok; [solve [run_prim]|]); cbv beta.

Section audiomack_facts.

Import Audiomack.

Context (env : Env).

Lemma scan_logs_spec logs :
  (exists pre entry post u,
      logs = pre ++ entry :: post /\
      Forall (fun e => forall u', ~ wanted e u') pre /\
      wanted entry u /\
      scan_logs logs = Some u)
  \/ (Forall (fun e => forall u', ~ wanted e u') logs /\ scan_logs logs = None).
Proof.
  induction logs as [|entry rest IH]; [right; split; [constructor | reflexivity]|].
  assert (Hskip : (forall u', ~ wanted entry u') -> scan_logs (entry :: rest) = scan_logs rest ->
                  (exists pre e post u, entry :: rest = pre ++ e :: post /\
                      Forall (fun e => forall u', ~ wanted e u') pre /\ wanted e u /\
                      scan_logs (entry :: rest) = Some u)
                  \/ (Forall (fun e => forall u', ~ wanted e u') (entry :: rest) /\
                      scan_logs (entry :: rest) = None)).
  { intros Hno Heq. rewrite Heq.
    destruct IH as [(pre & e & post & u & -> & Hpre & He & Hres) | [Hall Hres]].
    - left. exists (entry :: pre), e, post, u. repeat split; auto.
    - right. split; auto. }
  destruct entry as [[m r]|].
  2: { apply Hskip; [|reflexivity]. intros u' (log & Hlog & _). discriminate. }
  destruct m as [m|].
  2: { apply Hskip; [|reflexivity]. intros u' (log & [= <-] & Hm & _). discriminate. }
  destruct (String.eqb m "Network.requestWillBeSent") eqn:Hm.
  2: { apply Hskip; [|simpl; rewrite Hm; reflexivity].
       apply String.eqb_neq in Hm.
       intros u' (log & [= <-] & [= Hm'] & _). contradiction. }
  apply String.eqb_eq in Hm. subst m.
  destruct r as [req_url|].
  2: { apply Hskip; [|reflexivity]. intros u' (log & [= <-] & _ & Hr & _). discriminate. }
  destruct (PyStr.contains "music.audiomack.com" req_url) eqn:Hc.
  - left. exists [], (Some (mkLogMessage (Some "Network.requestWillBeSent") (Some req_url))), rest, req_url.
    repeat split; [constructor| |simpl; rewrite Hc; reflexivity].
    eexists. repeat split. apply contains_spec, Hc.
  - apply Hskip; [|simpl; rewrite Hc; reflexivity].
    intros u' (log & [= <-] & _ & [= <-] & Hocc). apply contains_spec in Hocc.
    congruence.
Qed.


Lemma _extract_streaming_url_run page logs self files :
  session_ok (browser env page) logs ->
  _extract_streaming_url env page (self, files) =
    mkRes (Ok (scan_logs logs, session_metadata (browser env page) page)) (self, files)
          (session_events (progress_callback self) (browser env page) page).
Proof.
  intros (Hd & Hg & Ho & Hp & Hl).
  unfold _extract_streaming_url, _get_driver, may_raise. cbv zeta.
  rewrite Hd, Hg, Ho, Hp, Hl.
  eapply run_with_events.
  - run_steps. eapply try_finally_run; [|apply emit_run].
    run_steps.
    eapply bind_run_ok.
    { instantiate (1 := if cookie_banner (browser env page)
                        then [EvBrowser ClickCookieBanner; EvSleep 1] else []).
      instantiate (2 := tt).
      destruct (cookie_banner (browser env page)); reflexivity. }
    run_steps. apply mret_run.
  - unfold session_events. destruct (cookie_banner (browser env page)); reflexivity.
Qed.

Lemma _download_loop_shape dest total pending downloaded self files :
  exists evs,
    _download_loop dest total downloaded pending (self, files) = mkRes (Ok tt) (self, files) evs.
Proof.
  revert downloaded. induction pending as [|chunk rest IH]; intros downloaded.
  - eexists. apply mret_run.
  - destruct (IH (downloaded + Z.pos chunk)%Z) as (evs & Hrest).
    cbn [_download_loop].
    destruct (0 <? total)%Z; eexists; run_steps; exact Hrest.
Qed.




Lemma str_app_assoc (x y z : string) : (x +:+ y) +:+ z = x +:+ (y +:+ z).
Proof.
  induction x as [|c x IH]; [reflexivity|].
  rewrite !app_cons, IH. reflexivity.
Qed.



Lemma rsplit_dot_head_m4a x : rsplit_dot_head (x +:+ ".m4a") = x.
Proof.
  induction x as [|c x IH]; [reflexivity|].
  rewrite app_cons. cbn [rsplit_dot_head].
  assert (Hdot : PyStr.contains "." (x +:+ ".m4a") = true).
  { apply contains_spec. exists x, "m4a". reflexivity. }
  rewrite Hdot, IH. reflexivity.
Qed.


Lemma download_no_streaming_url cfg logs self files :
  session_ok (browser env (url cfg)) logs ->
  scan_logs logs = None ->
  download env cfg (self, files) =
    mkRes (Raise (mkExn "Exception" "No se pudo obtener la URL de streaming."))
          (self, files)
          (EvProgress (progress_callback self)
             (mkDownloadProgress 0 "" "" "downloading" "Iniciando descarga de Audiomack...")
           :: session_events (progress_callback self) (browser env (url cfg)) (url cfg)).
Proof.
  intros Hsession Hscan. unfold download.
  eapply run_with_events.
  - eapply bind_run_ok; [apply _report_progress_run|]. cbv beta.
    eapply bind_run_ok; [apply (_extract_streaming_url_run _ _ _ _ Hsession)|].
    cbv beta iota. rewrite Hscan. apply raise_run.
  - simpl. rewrite app_nil_r. reflexivity.
Qed.



Lemma scan_logs_none logs :
  Forall (fun e => forall u', ~ wanted e u') logs -> scan_logs logs = None.
Proof.
  intros Hall.
  destruct (scan_logs_spec logs) as [(pre & entry & post & u & -> & _ & Hw & _) | [_ H]];
    [|exact H].
  apply Forall_app in Hall as [_ Hall]. inversion Hall as [|? ? Hno _]; subst.
  destruct (Hno u Hw).
Qed.

(** C5 (amended). The scan answers the request URL of the first entry, in
    list order, that is a readable [Network.requestWillBeSent] message whose
    request URL holds ["music.audiomack.com"], and stops there; entries with
    another method, without a request URL or unreadable are skipped. When the
    session reaches the scan and no entry qualifies, [download] raises the
    ["No se pudo obtener la URL de streaming."] exception right after the
    browser has quit: nothing but progress reports, browser actions and
    waits has happened, and the files are untouched. *)
Theorem scan_first_request_will_be_sent (logs : list LogEntry) :
  ((exists pre entry post u,
       logs = pre ++ entry :: post /\
       Forall (fun e => forall u', ~ wanted e u') pre /\
       wanted entry u /\
       scan_logs logs = Some u)
   \/ (Forall (fun e => forall u', ~ wanted e u') logs /\ scan_logs logs = None)) /\
  (forall cfg self files,
     session_ok (browser env (url cfg)) logs ->
     Forall (fun e => forall u', ~ wanted e u') logs ->
     let r := download env cfg (self, files) in
     outcome r = Raise (mkExn "Exception" "No se pudo obtener la URL de streaming.") /\
     state r = (self, files) /\
     last (events r) = Some (EvBrowser Quit) /\
     Forall (fun ev => match ev with
                       | EvProgress _ _ | EvBrowser _ | EvSleep _ => True
                       | _ => False
                       end) (events r)).
Proof.
  split; [apply scan_logs_spec|].
  intros cfg self files Hsession Hall r.
  subst r. rewrite (download_no_streaming_url cfg logs self files Hsession (scan_logs_none _ Hall)).
  cbn [outcome state events]. repeat split.
  - unfold session_events. destruct (cookie_banner _); reflexivity.
  - unfold session_events. destruct (cookie_banner _); repeat constructor.
Qed.

(** C5 as the specification words it, without the method test, fails on a log
    whose first marked URL belongs to another method. *)
Lemma scan_skips_other_methods :
  first_marker_url mixed_method_logs = Some "https://music.audiomack.com/a.m4a" /\
  scan_logs mixed_method_logs = Some "https://music.audiomack.com/b.mp3" /\
  ~ (forall logs, scan_logs logs = first_marker_url logs).
Proof.
  repeat split. intros H. specialize (H mixed_method_logs). discriminate H.
Qed.


End audiomack_facts.

(** ** Properties of every emitted event *)

Section emits_facts.

Context (P : Event -> Prop).

Lemma emits_quiet {S A} (m : ST S A) : (forall s, events (m s) = []) -> emits P m.
Proof. intros H s. rewrite H. constructor. Qed.

Lemma emits_report p : (forall cb, P (EvProgress cb p)) -> emits P (_report_progress p).
Proof. intros H s. repeat constructor. apply H. Qed.

Lemma emits_open_wb path : P (EvFileOpen path) -> emits P (open_wb path).
Proof. intros H s. repeat constructor. exact H. Qed.

Lemma emits_os_remove path : P (EvRemove path) -> emits P (os_remove path).
Proof.
  intros H s. unfold os_remove. destruct (bool_decide _); repeat constructor. exact H.
Qed.


End emits_facts.

(** Unfolds the methods of the downloaders, one level at a time. *)
Ltac emits_unfold :=
  match goal with
  | |- emits _ (os_makedirs _ _) => unfold os_makedirs
  | |- emits _ (_get_ffmpeg_path _) => unfold _get_ffmpeg_path
  | |- emits _ (_has_ffmpeg _) => unfold _has_ffmpeg
  | |- emits _ (Audiomack._get_driver _) => unfold Audiomack._get_driver
  | |- emits _ (Audiomack.may_raise _) => unfold Audiomack.may_raise
  | |- emits _ (Audiomack._extract_streaming_url _ _) =>
      unfold Audiomack._extract_streaming_url; cbv zeta
  | |- emits _ (Audiomack._download_file _ _ _) => unfold Audiomack._download_file; cbv zeta
  | |- emits _ (Audiomack.convert_to_mp3 _ _ _ _) =>
      unfold Audiomack.convert_to_mp3; cbv zeta
  | |- emits _ (Audiomack.download _ _) => unfold Audiomack.download; cbv zeta
  | |- emits _ (_get_base_options _ _) => unfold _get_base_options; cbv zeta
  | |- emits _ (format_options _ _ _ _) => unfold format_options
  | |- emits _ (_get_platform_options _ _ _) => unfold _get_platform_options
  | |- emits _ (merged_options _ _) => unfold merged_options
  | |- emits _ (ydl_extract_info _ _ _) => unfold ydl_extract_info
  | |- emits _ (BaseDownloader_download _ _) => unfold BaseDownloader_download
  | |- emits _ (Downloader_download _ _) => unfold Downloader_download
  end.

(** The primitive operations. *)
Ltac emits_leaf :=
  match goal with
  | |- emits _ get_self => apply emits_quiet; reflexivity
  | |- emits _ (set_ffmpeg_path _) => apply emits_quiet; reflexivity
  | |- emits _ (os_path_exists _) => apply emits_quiet; reflexivity
  | |- emits _ (_report_progress _) => apply emits_report; intros ?
  | |- emits _ (open_wb _) => apply emits_open_wb
  | |- emits _ (os_remove _) => apply emits_os_remove
  end.

Ltac emits_prog := repeat first [emits_leaf | emits_step | emits_unfold].


Ltac emits_prog_with tac := repeat first [tac | emits_leaf | emits_step | emits_unfold].

Section noninterference.
Import Audiomack.
Context (env : Env).

Lemma _download_loop_quiet dest total pending downloaded :
  emits quiet_io (_download_loop dest total downloaded pending).
Proof.
  revert downloaded. induction pending as [|chunk rest IH]; intros downloaded.
  - apply emits_ret.
  - cbn [_download_loop]. emits_prog; try exact I. apply IH.
Qed.

Lemma download_quiet cfg : emits quiet_io (download env cfg).
Proof.
  emits_prog_with ltac:(apply _download_loop_quiet); try exact I; reflexivity.
Qed.

(** C10. Two configs that differ only in [cookies_file] and [ffmpeg_path]
    give the same run of the Audiomack download: same outcome, same final
    state, same events in the same order. Its HTTP requests carry the two
    fixed headers only, the extraction engine (the one place a cookie file
    or a configured tool path would go) is never called, and the platform
    options are empty. *)
Theorem audiomack_ignores_cookies_and_tool_path (page dir : string) (fmt : OutputFormat)
    (cookies1 tool1 cookies2 tool2 : option string) (s : DState) :
  download env (mkDownloadConfig page dir fmt cookies1 tool1) s =
  download env (mkDownloadConfig page dir fmt cookies2 tool2) s /\
  Forall quiet_io (events (download env (mkDownloadConfig page dir fmt cookies1 tool1) s)) /\
  _get_platform_options env AudiomackDownloader (mkDownloadConfig page dir fmt cookies1 tool1) s
    = mkRes (Ok ∅) s [].
Proof.
  split; [reflexivity|]. split; [apply download_quiet | reflexivity].
Qed.

End noninterference.

Section contract.
Import Audiomack.
Context (env : Env).

Lemma reported_Forall (Q : DownloadProgress -> Prop) evs :
  Forall (fun ev => match ev with EvProgress _ p => Q p | _ => True end) evs ->
  Forall Q (reported evs).
Proof.
  induction 1 as [|ev evs Hev _ IH]; [constructor|].
  unfold reported in *. destruct ev; simpl; auto.
Qed.


















Lemma set_progress_bounded value :
  (0 <= set_progress value)%Q /\ (set_progress value <= 100)%Q.
Proof.
  unfold set_progress. split.
  - apply Q.le_max_l.
  - apply Q.max_lub; [unfold Qle; simpl; lia | apply Q.le_min_l].
Qed.



End contract.

(** ** The identity of a downloader instance *)

Section keeps_facts.

Lemma keeps_same {A} (m : ST DState A) : (forall s, state (m s) = s) -> keeps_identity m.
Proof. intros H s. rewrite H. split; reflexivity. Qed.

Lemma keeps_bind {A B} (m : ST DState A) (f : A -> ST DState B) :
  keeps_identity m -> (forall a, keeps_identity (f a)) -> keeps_identity (m ≫= f).
Proof.
  intros Hm Hf s. rewrite bind_unfold. destruct (Hm s) as [H1 H2].
  destruct (outcome (m s)) as [a|e]; cbn [state]; [|auto].
  destruct (Hf a (state (m s))) as [H3 H4]. split; congruence.
Qed.

Lemma keeps_try_except {A} (m : ST DState A) h :
  keeps_identity m -> (forall e, keeps_identity (h e)) -> keeps_identity (try_except m h).
Proof.
  intros Hm Hh s. unfold try_except. destruct (Hm s) as [H1 H2].
  destruct (outcome (m s)) as [a|e]; cbn [state]; [auto|].
  destruct (Hh e (state (m s))) as [H3 H4]. split; congruence.
Qed.

Lemma keeps_try_finally {A} (m : ST DState A) c :
  keeps_identity m -> keeps_identity c -> keeps_identity (try_finally m c).
Proof.
  intros Hm Hc s. unfold try_finally. destruct (Hm s) as [H1 H2].
  destruct (Hc (state (m s))) as [H3 H4].
  destruct (outcome (c (state (m s)))); cbn [state]; split; congruence.
Qed.

Lemma keeps_for_each {A} (xs : list A) (body : A -> ST DState unit) :
  (forall x, keeps_identity (body x)) -> keeps_identity (for_each xs body).
Proof.
  intros Hb. induction xs as [|x xs IH]; simpl.
  - apply keeps_same. reflexivity.
  - apply keeps_bind; auto.
Qed.

Lemma keeps_set_ffmpeg_path p : keeps_identity (set_ffmpeg_path p).
Proof. intros s. split; reflexivity. Qed.

Lemma keeps_open_wb path : keeps_identity (open_wb path).
Proof. intros s. split; reflexivity. Qed.

Lemma keeps_os_remove path : keeps_identity (os_remove path).
Proof. intros s. unfold os_remove. destruct (bool_decide _); split; reflexivity. Qed.

Lemma keeps_add_file path :
  keeps_identity (get_state ≫= fun '(self, files) => put_state (self, {[path]} ∪ files)).
Proof. intros [self files]. split; reflexivity. Qed.

End keeps_facts.

(** The same breakdown as for events, for the identity of [self]. *)
Ltac keeps_step :=
  match goal with
  | |- keeps_identity (get_state ≫= _) => apply keeps_add_file
  | |- keeps_identity (mbind _ _) => apply keeps_bind; [|intros ?]
  | |- keeps_identity (try_except _ _) => apply keeps_try_except; [|intros ?]
  | |- keeps_identity (try_finally _ _) => apply keeps_try_finally
  | |- keeps_identity (for_each _ _) => apply keeps_for_each; intros ?
  | |- keeps_identity (emit _) => apply keeps_same; reflexivity
  | |- keeps_identity (mret _) => apply keeps_same; reflexivity
  | |- keeps_identity (raise _) => apply keeps_same; reflexivity
  | |- keeps_identity get_self => apply keeps_same; reflexivity
  | |- keeps_identity (os_path_exists _) => apply keeps_same; reflexivity
  | |- keeps_identity (_report_progress _) => apply keeps_same; reflexivity
  | |- keeps_identity (set_ffmpeg_path _) => apply keeps_set_ffmpeg_path
  | |- keeps_identity (open_wb _) => apply keeps_open_wb
  | |- keeps_identity (os_remove _) => apply keeps_os_remove
  | |- keeps_identity (if ?b then _ else _) => destruct b eqn:?
  | |- keeps_identity (match ?x with _ => _ end) => destruct x eqn:?
  end.

Ltac keeps_unfold :=
  match goal with
  | |- keeps_identity (os_makedirs _ _) => unfold os_makedirs
  | |- keeps_identity (_get_ffmpeg_path _) => unfold _get_ffmpeg_path
  | |- keeps_identity (_has_ffmpeg _) => unfold _has_ffmpeg
  | |- keeps_identity (progress_hook _ _) => unfold progress_hook; cbv zeta
  | |- keeps_identity (postprocessor_hook _) => unfold postprocessor_hook; cbv zeta
  | |- keeps_identity (run_hook _ _ _) => unfold run_hook
  | |- keeps_identity (Audiomack._get_driver _) => unfold Audiomack._get_driver
  | |- keeps_identity (Audiomack.may_raise _) => unfold Audiomack.may_raise
  | |- keeps_identity (Audiomack._extract_streaming_url _ _) =>
      unfold Audiomack._extract_streaming_url; cbv zeta
  | |- keeps_identity (Audiomack._download_file _ _ _) =>
      unfold Audiomack._download_file; cbv zeta
  | |- keeps_identity (Audiomack.convert_to_mp3 _ _ _ _) =>
      unfold Audiomack.convert_to_mp3; cbv zeta
  | |- keeps_identity (Audiomack.download _ _) => unfold Audiomack.download; cbv zeta
  | |- keeps_identity (_get_base_options _ _) => unfold _get_base_options; cbv zeta
  | |- keeps_identity (format_options _ _ _ _) => unfold format_options
  | |- keeps_identity (_get_platform_options _ _ _) => unfold _get_platform_options
  | |- keeps_identity (merged_options _ _) => unfold merged_options
  | |- keeps_identity (ydl_extract_info _ _ _) => unfold ydl_extract_info
  | |- keeps_identity (BaseDownloader_download _ _) => unfold BaseDownloader_download
  | |- keeps_identity (Downloader_download _ _) => unfold Downloader_download
  end.

Section identity.
Context (env : Env).

Lemma _download_loop_keeps dest total pending downloaded :
  keeps_identity (Audiomack._download_loop dest total downloaded pending).
Proof.
  revert downloaded. induction pending as [|chunk rest IH]; intros downloaded.
  - apply keeps_same. reflexivity.
  - cbn [Audiomack._download_loop]. repeat first [keeps_step | keeps_unfold]. apply IH.
Qed.

Lemma Downloader_download_keeps cfg : keeps_identity (Downloader_download env cfg).
Proof.
  repeat first [apply _download_loop_keeps | keeps_step | keeps_unfold].
Qed.

Lemma call_on_state {A} key d (m : ST DState A) mgr files :
  state (call_on key d m (mgr, files)) =
    (mkDownloadManager (manager_callback mgr)
       (<[key := fst (state (m (d, files)))]> (_downloaders mgr)),
     snd (state (m (d, files)))).
Proof. reflexivity. Qed.

(** The cache of a manager stays well formed across downloads; it is well
    formed when the manager is created, its cache being empty. *)
Lemma manager_wf_preserved cfg mgr files :
  manager_wf mgr ->
  manager_wf (fst (state (DownloadManager_download env cfg (mgr, files)))).
Proof.
  intros Hwf.
  unfold DownloadManager_download, _get_downloader.
  pose proof (_get_downloader_loop_run DOWNLOADERS (url cfg) mgr files) as Hget.
  destruct (List.find (fun c => can_handle c (url cfg)) DOWNLOADERS) as [c|].
  2: { rewrite (bind_raise _ _ _ _ _ _ Hget). exact Hwf. }
  assert (Hstep : forall d (m0 : gmap string Downloader),
            PLATFORM_NAME (cls d) = PLATFORM_NAME c ->
            progress_callback d = manager_callback mgr ->
            (forall key d', m0 !! key = Some d' ->
               PLATFORM_NAME (cls d') = key /\ progress_callback d' = manager_callback mgr) ->
            manager_wf
              (fst (state (call_on (PLATFORM_NAME c) d (Downloader_download env cfg)
                             (mkDownloadManager (manager_callback mgr) m0, files))))).
  { intros d m0 Hname Hcb Hm0 key d'. rewrite call_on_state.
    destruct (Downloader_download_keeps cfg (d, files)) as [Hc1 Hc2].
    change (fst (d, files)) with d in Hc1, Hc2.
    set (r := Downloader_download env cfg (d, files)) in *. clearbody r.
    cbn [fst _downloaders manager_callback].
    destruct (decide (PLATFORM_NAME c = key)) as [<-|Hne].
    - rewrite lookup_insert_eq. intros [= <-]. split; congruence.
    - rewrite lookup_insert_ne by exact Hne. apply Hm0. }
  destruct (_downloaders mgr !! PLATFORM_NAME c) as [d|] eqn:Hd.
  - rewrite (bind_ok _ _ _ _ _ _ Hget). cbn [outcome state events].
    destruct mgr as [cb m0]. destruct (Hwf _ _ Hd) as [Hn Hcb].
    apply (Hstep d m0 Hn Hcb). exact Hwf.
  - rewrite (bind_ok _ _ _ _ _ _ Hget). cbn [outcome state events].
    apply Hstep; [reflexivity | reflexivity |].
    intros key d'. cbn [_downloaders].
    destruct (decide (PLATFORM_NAME c = key)) as [<-|Hne].
    + rewrite lookup_insert_eq. intros [= <-]. split; reflexivity.
    + rewrite lookup_insert_ne by exact Hne. apply Hwf.
Qed.

End identity.

Lemma new_manager_wf callback : manager_wf (mkDownloadManager callback ∅).
Proof. intros key d H. simpl in H. by rewrite lookup_empty in H. Qed.

(** ** The theorems at concrete inputs *)

Section witnesses.

Import Audiomack.

(** C3 at a fresh manager and a YouTube URL. *)
Lemma manager_download_dispatch_witness :
  detect_platform (url youtube_video) = "YouTube" /\
  outcome (DownloadManager_download sample_env youtube_video (fresh_manager, ∅)) =
    outcome (BaseDownloader_download sample_env youtube_video
               (new_downloader YouTubeDownloader true, ∅)).
Proof.
  pose proof (manager_download_dispatch sample_env youtube_video fresh_manager ∅
                (new_manager_wf true)) as H.
  change (List.find _ DOWNLOADERS) with (Some YouTubeDownloader) in H.
  cbv beta iota zeta in H. destruct H as (Hname & _ & Hrun).
  split; [exact Hname|]. rewrite Hrun. reflexivity.
Defined.

(** C4 at an engine run that fails with ["ERROR: Video unavailable"]. *)
Lemma download_reports_and_reraises_witness :
  outcome (BaseDownloader_download sample_env youtube_video
             (new_downloader YouTubeDownloader true, ∅)) =
    Raise (mkExn "DownloadError" "ERROR: Video unavailable").
Proof.
  set (run := merged_options sample_env youtube_video (new_downloader YouTubeDownloader true, ∅)).
  refine (proj1 (download_reports_and_reraises sample_env youtube_video
                   (new_downloader YouTubeDownloader true) ∅
                   (match outcome run with Ok opts => opts | Raise _ => ∅ end)
                   (state run) (events run)
                   (mkExn "DownloadError" "ERROR: Video unavailable") _ _)).
  - vm_compute. reflexivity.
  - reflexivity.
Defined.


(** C5 at a session whose log has no request to the streaming host. *)
Lemma scan_first_request_will_be_sent_witness :
  outcome (download silent_env audiomack_audio (new_downloader AudiomackDownloader true, ∅)) =
    Raise (mkExn "Exception" "No se pudo obtener la URL de streaming.").
Proof.
  refine (proj1 (proj2 (scan_first_request_will_be_sent silent_env
                          [Some (mkLogMessage (Some "Network.responseReceived")
                                   (Some "https://music.audiomack.com/stream/track.m4a"));
                           None])
                   audiomack_audio (new_downloader AudiomackDownloader true) ∅ _ _)).
  - repeat split; reflexivity.
  - repeat constructor.
    + intros u' (log & [= <-] & [= Hm] & _).
    + intros u' (log & [= ] & _).
Defined.



End witnesses.

(** ** The end-to-end scenarios of the specification *)

(** Scenario A: [https://youtu.be/abc123], VIDEO, tool available. *)
Example scenario_youtube_video :
  detect_platform "https://youtu.be/abc123" = "YouTube" /\
  match outcome (merged_options sample_env youtube_video
                   (new_downloader YouTubeDownloader true, ∅)) with
  | Ok opts =>
      opts !! "format" = Some (VStr "bestvideo+bestaudio/best") /\
      opts !! "merge_output_format" = Some (VStr "mp4") /\
      opts !! "ffmpeg_location" = Some (VStr "/opt/ffmpeg/ffmpeg") /\
      opts !! "cookiefile" = None
  | Raise _ => False
  end.
Proof. vm_compute. repeat split; reflexivity. Qed.

(** Scenario B: [https://x.com/u/status/1], AUDIO. *)
Example scenario_twitter_audio :
  detect_platform "https://x.com/u/status/1" = "X (Twitter)" /\
  match outcome (merged_options silent_env (sample_config "https://x.com/u/status/1" AUDIO)
                   (new_downloader TwitterDownloader true, ∅)) with
  | Ok opts =>
      opts !! "format" = Some (VStr "bestaudio/best") /\
      opts !! "postprocessors" =
        Some (VList [VDict [("key", VStr "FFmpegExtractAudio");
                            ("preferredcodec", VStr "mp3");
                            ("preferredquality", VStr "192")]])
  | Raise _ => False
  end.
Proof. vm_compute. repeat split; reflexivity. Qed.

(** Scenario C: [https://www.instagram.com/reel/xyz], VIDEO, no tool. *)
Example scenario_instagram_video_no_tool :
  detect_platform "https://www.instagram.com/reel/xyz" = "Instagram" /\
  match outcome (merged_options silent_env
                   (sample_config "https://www.instagram.com/reel/xyz" VIDEO)
                   (new_downloader InstagramDownloader true, ∅)) with
  | Ok opts =>
      opts !! "format" = Some (VStr "best") /\
      opts !! "merge_output_format" = None /\
      opts !! "ffmpeg_location" = None
  | Raise _ => False
  end.
Proof. vm_compute. repeat split; reflexivity. Qed.

(** Scenario D: the m4a request, then a generic one; with the transcoder at
    hand the result is the mp3 and the m4a is gone. *)
Example scenario_audiomack_m4a :
  Audiomack.scan_logs
    [Some (mkLogMessage (Some "Network.requestWillBeSent")
                        (Some "https://music.audiomack.com/stream/track.m4a"));
     Some (mkLogMessage (Some "Network.requestWillBeSent")
                        (Some "https://audiomack.com/static/app.js"))]
    = Some "https://music.audiomack.com/stream/track.m4a" /\
  let r := Audiomack.download sample_env audiomack_audio
             (new_downloader AudiomackDownloader true, ∅) in
  In (EvFileOpen "out/Artist - Song Title [my-song].m4a") (events r) /\
  (exists info, outcome r = Ok info /\
     info !! "filepath" = Some "out/Artist - Song Title [my-song].mp3") /\
  elements (snd (state r)) = ["out/Artist - Song Title [my-song].mp3"].
Proof.
  split; [reflexivity|]. cbv zeta. split; [|split].
  - vm_compute. do 20 right. left. reflexivity.
  - eexists. split; [vm_compute; reflexivity | vm_compute; reflexivity].
  - vm_compute. reflexivity.
Qed.

(** Scenario E: no registered domain. *)
Example scenario_unsupported :
  detect_platform "https://example.org/video" = "Desconocida" /\
  DownloadManager_download sample_env (sample_config "https://example.org/video" VIDEO)
                           (fresh_manager, ∅)
  = mkRes (Raise (mkExn "ValueError"
             "URL no soportada. Plataformas disponibles: YouTube, X (Twitter), Instagram, Audiomack"))
          (fresh_manager, ∅) [].
Proof. split; reflexivity. Qed.

(** ** More of base.py: tool lookup, options, the three ends of a download *)

Section extra_base.

Context (env : Env).

(** X1. [_get_ffmpeg_path] resolves the transcoding tool once: it returns
    without an event; a path it finds is stored in [self._ffmpeg_path]; a
    failed lookup leaves the instance as it was; [_has_ffmpeg] answers
    whether a path came back; a second call gives the same answer and changes
    nothing; and a non-empty path, once cached, is returned whatever the
    environment holds by then. *)
Theorem ffmpeg_path_resolved_once (self : Downloader) (files : gset string) :
  exists p self',
    _get_ffmpeg_path env (self, files) = mkRes (Ok p) (self', files) [] /\
    _has_ffmpeg env (self, files) = mkRes (Ok (bool_decide (p ≠ None))) (self', files) [] /\
    (p ≠ None -> _ffmpeg_path self' = p) /\
    (p = None -> self' = self) /\
    _get_ffmpeg_path env (self', files) = mkRes (Ok p) (self', files) [] /\
    (forall env' : Env, PyStr.truthy p = true ->
       _get_ffmpeg_path env' (self', files) = mkRes (Ok p) (self', files) []).
Proof.
  assert (Hhas : forall p self',
            _get_ffmpeg_path env (self, files) = mkRes (Ok p) (self', files) [] ->
            _has_ffmpeg env (self, files) = mkRes (Ok (bool_decide (p ≠ None))) (self', files) []).
  { intros p self' Hrun. unfold _has_ffmpeg. rewrite (bind_ok _ _ _ _ _ _ Hrun). reflexivity. }
  assert (Hcached : forall (e : Env) d, PyStr.truthy (_ffmpeg_path d) = true ->
            _get_ffmpeg_path e (d, files) = mkRes (Ok (_ffmpeg_path d)) (d, files) []).
  { intros e d Hd. unfold _get_ffmpeg_path. rewrite bind_unfold. simpl. rewrite Hd. reflexivity. }
  destruct self as [c cb cached].
  destruct (PyStr.truthy cached) eqn:Hc.
  - exists cached, (mkDownloader c cb cached).
    pose proof (Hcached env (mkDownloader c cb cached) Hc) as Hrun. simpl in Hrun.
    split; [exact Hrun|]. split; [apply Hhas; exact Hrun|].
    split; [reflexivity|]. split; [reflexivity|]. split; [exact Hrun|].
    intros env' _. apply (Hcached env' (mkDownloader c cb cached) Hc).
  - destruct (imageio_ffmpeg_exe env) as [exe|] eqn:Hi.
    + assert (Hrun : forall old, PyStr.truthy old = false ->
                _get_ffmpeg_path env (mkDownloader c cb old, files)
                = mkRes (Ok (Some exe)) (mkDownloader c cb (Some exe), files) []).
      { intros old Hold. unfold _get_ffmpeg_path. rewrite bind_unfold. simpl.
        rewrite Hold, Hi. reflexivity. }
      exists (Some exe), (mkDownloader c cb (Some exe)).
      split; [apply Hrun; exact Hc|]. split; [apply Hhas, Hrun; exact Hc|].
      split; [reflexivity|]. split; [discriminate|]. split.
      * destruct (PyStr.truthy (Some exe)) eqn:He.
        -- apply (Hcached env (mkDownloader c cb (Some exe)) He).
        -- apply Hrun. exact He.
      * intros env' He. apply (Hcached env' (mkDownloader c cb (Some exe)) He).
    + destruct (PyStr.truthy (which_ffmpeg env)) eqn:Hw.
      * assert (Hrun : _get_ffmpeg_path env (mkDownloader c cb cached, files)
                = mkRes (Ok (which_ffmpeg env)) (mkDownloader c cb (which_ffmpeg env), files) []).
        { unfold _get_ffmpeg_path. rewrite bind_unfold. simpl. rewrite Hc, Hi, Hw. reflexivity. }
        exists (which_ffmpeg env), (mkDownloader c cb (which_ffmpeg env)).
        split; [exact Hrun|]. split; [apply Hhas, Hrun|].
        split; [reflexivity|]. split; [intros Hn; rewrite Hn in Hw; discriminate|]. split.
        -- apply (Hcached env (mkDownloader c cb (which_ffmpeg env)) Hw).
        -- intros env' _. apply (Hcached env' (mkDownloader c cb (which_ffmpeg env)) Hw).
      * assert (Hrun : _get_ffmpeg_path env (mkDownloader c cb cached, files)
                = mkRes (Ok None) (mkDownloader c cb cached, files) []).
        { unfold _get_ffmpeg_path. rewrite bind_unfold. simpl. rewrite Hc, Hi, Hw. reflexivity. }
        exists None, (mkDownloader c cb cached).
        split; [exact Hrun|]. split; [apply Hhas, Hrun|].
        split; [congruence|]. split; [reflexivity|]. split; [exact Hrun|]. discriminate.
Qed.

Lemma BaseDownloader_download_no_dir cfg self files e :
  makedirs env (output_dir cfg) = Some e ->
  BaseDownloader_download env cfg (self, files) =
    mkRes (Raise e) (self, files)
      [EvProgress (progress_callback self)
         (mkDownloadProgress 0 "" "" "downloading" "Iniciando descarga…");
       EvMakedirs (output_dir cfg)].
Proof.
  intros Hmk. unfold BaseDownloader_download.
  rewrite (bind_ok _ _ _ _ _ _ (_report_progress_run _ self files)).
  assert (Hm : merged_options env cfg (self, files)
               = mkRes (Raise e) (self, files) [EvMakedirs (output_dir cfg)]).
  { unfold merged_options. apply bind_raise. unfold _get_base_options. apply bind_raise.
    rewrite os_makedirs_run, Hmk. reflexivity. }
  rewrite (bind_raise _ _ _ _ _ _ Hm). reflexivity.
Qed.

(** X2. When [os.makedirs] of the output directory raises,
    [BaseDownloader.download] raises that exception right after the initial
    record and the attempt to create the directory. The failure is outside
    the [try]: no ["error"] record is reported, the engine is never called
    and the instance is unchanged. *)
Theorem base_download_makedirs_failure (cfg : DownloadConfig) (self : Downloader)
    (files : gset string) (e : exn) :
  makedirs env (output_dir cfg) = Some e ->
  BaseDownloader_download env cfg (self, files) =
    mkRes (Raise e) (self, files)
      [EvProgress (progress_callback self)
         (mkDownloadProgress 0 "" "" "downloading" "Iniciando descarga…");
       EvMakedirs (output_dir cfg)].
Proof. exact (BaseDownloader_download_no_dir cfg self files e). Qed.

End extra_base.

Section extra_base2.

Context (env : Env).

Lemma hook_event_not_finished cb evs :
  Forall (hook_event cb) evs ->
  List.filter (fun p => String.eqb (status p) "finished") (reported evs) = [].
Proof.
  induction 1 as [|ev evs (p & -> & Hp) _ IH]; [reflexivity|].
  assert (Hno : String.eqb (status p) "finished" = false).
  { destruct Hp as [-> | [-> | [-> _]]]; reflexivity. }
  unfold reported in *. simpl. rewrite Hno. exact IH.
Qed.


(** The complete run of [BaseDownloader.download] once the options are
    built. *)
Lemma BaseDownloader_download_run cfg self files opts s1 evs1 :
  merged_options env cfg (self, files) = mkRes (Ok opts) s1 evs1 ->
  exists hevs,
    Forall (hook_event (progress_callback self)) hevs /\
    (Forall (fun call => ~ reports_error call) (hook_calls (extract_info env opts (url cfg))) ->
     Forall (hook_event_strict (progress_callback self)) hevs) /\
    BaseDownloader_download env cfg (self, files) =
      let cb := progress_callback self in
      let final o p :=
        mkRes o s1
          (EvProgress cb (mkDownloadProgress 0 "" "" "downloading" "Iniciando descarga…")
           :: EvMakedirs (output_dir cfg) :: EvEngine opts (url cfg)
           :: hevs ++ [EvProgress cb p]) in
      match engine_result (extract_info env opts (url cfg)) with
      | Ok (Some info) =>
          final (Ok info)
            (mkDownloadProgress 100 "" "" "finished"
               ("Descarga completa: " +:+ default "archivo" (info !! "title")))
      | Ok None =>
          final (Raise (mkExn "AttributeError" "'NoneType' object has no attribute 'get'"))
            (mkDownloadProgress 0 "" "" "error"
               "Error: 'NoneType' object has no attribute 'get'")
      | Raise e =>
          final (Raise e) (mkDownloadProgress 0 "" "" "error" ("Error: " +:+ exn_text e))
      end.
Proof.
  intros Hopts.
  destruct (merged_options_shape env cfg self files) as (o & self' & Hshape & _ & _ & Hcb).
  rewrite Hopts in Hshape. injection Hshape as _ -> ->.
  destruct (ydl_extract_info_run env opts (url cfg) self' files) as (hevs & Hrun & Hall & Hstrict).
  rewrite Hcb in *.
  exists hevs. split; [exact Hall|]. split; [exact Hstrict|].
  unfold BaseDownloader_download.
  rewrite (bind_ok _ _ _ _ _ _ (_report_progress_run _ self files)).
  rewrite (bind_ok _ _ _ _ _ _ Hopts).
  unfold try_except.
  destruct (engine_result (extract_info env opts (url cfg))) as [[info|]|e] eqn:Hengine.
  - rewrite (bind_ok _ _ _ _ _ _ Hrun).
    rewrite (bind_ok _ _ _ _ _ _ (_report_progress_run _ self' files)).
    cbv beta iota zeta. cbn [outcome state events mret ST_mret ST_ret app]. rewrite Hcb, ?app_nil_r. reflexivity.
  - rewrite (bind_ok _ _ _ _ _ _ Hrun).
    cbv beta iota zeta. cbn [outcome state events raise app].
    rewrite (bind_ok _ _ _ _ _ _ (_report_progress_run _ self' files)).
    cbn [outcome state events raise app]. rewrite Hcb, ?app_nil_r. reflexivity.
  - rewrite (bind_raise _ _ _ _ _ _ Hrun).
    cbv beta iota zeta. cbn [outcome state events raise app].
    rewrite (bind_ok _ _ _ _ _ _ (_report_progress_run _ self' files)).
    cbn [outcome state events raise app]. rewrite Hcb, ?app_nil_r. reflexivity.
Qed.


(** X4. When the engine returns [None], reading the title fails inside
    the [try]: [download] reports the ["error"] record that carries the text
    of that [AttributeError] as its last event, raises it, and reports no
    ["finished"] record. *)
Theorem base_download_engine_none (cfg : DownloadConfig) (self : Downloader)
    (files : gset string) (opts : Options) (s1 : DState) (evs1 : list Event) :
  merged_options env cfg (self, files) = mkRes (Ok opts) s1 evs1 ->
  engine_result (extract_info env opts (url cfg)) = Ok None ->
  let r := BaseDownloader_download env cfg (self, files) in
  let failure := mkDownloadProgress 0 "" "" "error"
                   "Error: 'NoneType' object has no attribute 'get'" in
  outcome r = Raise (mkExn "AttributeError" "'NoneType' object has no attribute 'get'") /\
  last (events r) = Some (EvProgress (progress_callback self) failure) /\
  List.filter (fun p => String.eqb (status p) "finished") (reported (events r)) = [].
Proof.
  intros Hopts Hengine r failure.
  destruct (BaseDownloader_download_run cfg self files opts s1 evs1 Hopts)
    as (hevs & Hall & Hstrict & Hrun).
  rewrite Hengine in Hrun. cbv zeta in Hrun. subst r. rewrite Hrun. cbn [outcome events].
  split; [reflexivity|].
  split; [rewrite !last_cons, last_snoc; reflexivity|].
  unfold reported. cbn [omap list_omap progress_of mbind option_bind].
  rewrite omap_app. fold (reported hevs).
  cbn [List.filter status String.eqb Ascii.eqb Bool.eqb].
  rewrite List.filter_app, (hook_event_not_finished _ _ Hall). reflexivity.
Qed.

(** X5. The hooks ignore what they do not know: a progress-hook call
    whose status is missing or is none of ["downloading"], ["finished"] and
    ["error"], and a post-processor call whose status is missing or is
    neither ["started"] nor ["finished"], reports nothing. No hook call
    raises into the engine or changes the instance. *)
Theorem hooks_ignore_other_statuses (self : Downloader) (files : gset string) :
  (forall d, pd_status d ≠ Some "downloading" -> pd_status d ≠ Some "finished" ->
             pd_status d ≠ Some "error" ->
     progress_hook env d (self, files) = mkRes (Ok tt) (self, files) []) /\
  (forall d, pp_status d ≠ Some "started" -> pp_status d ≠ Some "finished" ->
     postprocessor_hook d (self, files) = mkRes (Ok tt) (self, files) []) /\
  (forall d, outcome (progress_hook env d (self, files)) = Ok tt /\
             state (progress_hook env d (self, files)) = (self, files)) /\
  (forall d, outcome (postprocessor_hook d (self, files)) = Ok tt /\
             state (postprocessor_hook d (self, files)) = (self, files)).
Proof.
  assert (Hneq : forall (o : option string) (lit : string),
            o ≠ Some lit -> String.eqb (default "" o) lit = false \/ o = None).
  { intros [s|] lit Hn; [left | right; reflexivity].
    simpl. apply String.eqb_neq. congruence. }
  split; [|split; [|split]].
  - intros d H1 H2 H3. unfold progress_hook. cbv zeta.
    destruct (pd_status d) as [s|]; [|reflexivity]. simpl.
    rewrite (proj2 (String.eqb_neq s "downloading")) by congruence.
    rewrite (proj2 (String.eqb_neq s "finished")) by congruence.
    rewrite (proj2 (String.eqb_neq s "error")) by congruence. reflexivity.
  - intros d H1 H2. unfold postprocessor_hook. cbv zeta.
    destruct (pp_status d) as [s|]; [|reflexivity]. simpl.
    rewrite (proj2 (String.eqb_neq s "started")) by congruence.
    rewrite (proj2 (String.eqb_neq s "finished")) by congruence. reflexivity.
  - intros d. destruct (progress_hook_shape env d self files) as (evs & -> & _). split; reflexivity.
  - intros d. destruct (postprocessor_hook_shape d self files) as (evs & -> & _). split; reflexivity.
Qed.

End extra_base2.

Section extra_options.

Context (env : Env).

(** X6. The optional keys of the base options. [cookiefile] is present
    exactly when [config.cookies_file] is a non-empty string, and holds it.
    [ffmpeg_location] is [config.ffmpeg_path] when that is non-empty, in
    which case no tool lookup is made and the instance is unchanged;
    otherwise it is the path [_get_ffmpeg_path] resolves, and the key is
    absent when that is [None] or empty. The output template lies under
    [config.output_dir], playlists are off and both hooks are registered. *)
Theorem base_options_optional_keys (cfg : DownloadConfig) (self : Downloader)
    (files : gset string) :
  makedirs env (output_dir cfg) = None ->
  exists opts self',
    _get_base_options env cfg (self, files) =
      mkRes (Ok opts) (self', files) [EvMakedirs (output_dir cfg)] /\
    opts !! "cookiefile" =
      (if PyStr.truthy (cookies_file cfg) then VStr <$> cookies_file cfg else None) /\
    (if PyStr.truthy (ffmpeg_path cfg)
     then opts !! "ffmpeg_location" = VStr <$> ffmpeg_path cfg /\ self' = self
     else exists p,
            _get_ffmpeg_path env (self, files) = mkRes (Ok p) (self', files) [] /\
            opts !! "ffmpeg_location" = (if PyStr.truthy p then VStr <$> p else None)) /\
    opts !! "outtmpl" =
      Some (VStr (os_path_join (output_dir cfg) "%(title).120s [%(id)s].%(ext)s")) /\
    opts !! "noplaylist" = Some (VBool true) /\
    registered VProgressHook "progress_hooks" opts = true /\
    registered VPostprocessorHook "postprocessor_hooks" opts = true.
Proof.
  intros Hmk. unfold _get_base_options.
  pose proof (os_makedirs_run env (output_dir cfg) (self, files)) as Hrun.
  rewrite Hmk in Hrun. rewrite (bind_ok _ _ _ _ _ _ Hrun). clear Hrun.
  destruct (PyStr.truthy (ffmpeg_path cfg)) eqn:Hf.
  - destruct (ffmpeg_path cfg) as [tool|] eqn:Htool; [|discriminate].
    eexists _, self. split; [reflexivity|]. cbv zeta. rewrite Hf.
    destruct (cookies_file cfg) as [[|c r]|]; repeat split; reflexivity.
  - destruct (_get_ffmpeg_path_run env self files) as (p & self' & Hp & _).
    rewrite (bind_ok _ _ _ _ _ _ Hp).
    eexists _, self'. split; [reflexivity|]. cbv zeta.
    assert (Hex : forall o : Options,
              (exists q, _get_ffmpeg_path env (self, files) = mkRes (Ok q) (self', files) [] /\
                         o !! "ffmpeg_location" = (if PyStr.truthy q then VStr <$> q else None))
              <-> o !! "ffmpeg_location" = (if PyStr.truthy p then VStr <$> p else None)).
    { intros o. split.
      - intros (q & Hq & Ho). rewrite Hp in Hq. injection Hq as <-. exact Ho.
      - intros Ho. exists p. split; [exact Hp | exact Ho]. }
    destruct p as [[|c0 r0]|]; destruct (cookies_file cfg) as [[|c r]|];
      (split; [reflexivity|]); (split; [apply Hex; reflexivity|]); repeat split; reflexivity.
Qed.

(** X7. [opts.update] with the platform options only adds keys: for
    every platform and format the merged options hold every entry of the
    base options with its value, so the output template, the retry counts,
    the cookie file and the tool location reach the engine as
    [_get_base_options] set them, and both hooks stay registered. *)
Theorem platform_options_only_add (cfg : DownloadConfig) (self : Downloader)
    (files : gset string) :
  makedirs env (output_dir cfg) = None ->
  exists base platform self1 self2,
    _get_base_options env cfg (self, files) =
      mkRes (Ok base) (self1, files) [EvMakedirs (output_dir cfg)] /\
    _get_platform_options env (cls self) cfg (self1, files) =
      mkRes (Ok platform) (self2, files) [] /\
    merged_options env cfg (self, files) =
      mkRes (Ok (platform ∪ base)) (self2, files) [EvMakedirs (output_dir cfg)] /\
    base ⊆ platform ∪ base /\
    registered VProgressHook "progress_hooks" (platform ∪ base) = true /\
    registered VPostprocessorHook "postprocessor_hooks" (platform ∪ base) = true.
Proof.
  intros Hmk.
  assert (Hbase : exists base self1,
            _get_base_options env cfg (self, files) =
              mkRes (Ok base) (self1, files) [EvMakedirs (output_dir cfg)] /\
            cls self1 = cls self /\
            base !! "progress_hooks" = Some (VList [VProgressHook]) /\
            base !! "postprocessor_hooks" = Some (VList [VPostprocessorHook]) /\
            Forall (fun k => base !! k = None)
              ["format"; "postprocessors"; "merge_output_format"; "age_limit";
               "nocheckcertificate"; "extractor_args"]).
  { unfold _get_base_options.
    pose proof (os_makedirs_run env (output_dir cfg) (self, files)) as Hrun.
    rewrite Hmk in Hrun. rewrite (bind_ok _ _ _ _ _ _ Hrun). clear Hrun.
    destruct (PyStr.truthy (ffmpeg_path cfg)) eqn:Hf.
    - eexists _, self. split; [reflexivity|]. split; [reflexivity|]. cbv zeta. rewrite Hf.
      destruct (PyStr.truthy (cookies_file cfg)); repeat constructor.
    - destruct (_get_ffmpeg_path_run env self files) as (p & self1 & Hp & _ & Hcls & _).
      rewrite (bind_ok _ _ _ _ _ _ Hp).
      eexists _, self1. split; [reflexivity|]. split; [exact Hcls|]. cbv zeta.
      destruct (PyStr.truthy p); destruct (PyStr.truthy (cookies_file cfg)); repeat constructor. }
  destruct Hbase as (base & self1 & Hrun1 & Hcls & Hph & Hpp & Hfree).
  assert (Hplat : exists platform self2,
            _get_platform_options env (cls self) cfg (self1, files) =
              mkRes (Ok platform) (self2, files) [] /\
            base ⊆ platform ∪ base /\
            (platform ∪ base) !! "progress_hooks" = Some (VList [VProgressHook]) /\
            (platform ∪ base) !! "postprocessor_hooks" = Some (VList [VPostprocessorHook])).
  { repeat match goal with H : Forall _ (_ :: _) |- _ => apply Forall_cons in H; destruct H as [? H] end.
    destruct (cls self); cbn [_get_platform_options].
    4: { exists ∅, self1. split; [reflexivity|]. rewrite (left_id_L ∅ (∪)). auto. }
    all: match goal with
         | |- context [format_options _ _ ?pps ?b] =>
             destruct (format_options_run env cfg pps b self1 files) as (self2 & Hrun2 & _)
         end;
         eexists _, self2; (split; [exact Hrun2|]);
         destruct (output_format cfg); [destruct (tool_available env self1)|];
         rewrite <- ?insert_union_l, (left_id_L ∅ (∪));
         (split; [repeat (apply insert_subseteq_r; [assumption|]); reflexivity|]);
         rewrite ?lookup_insert_ne by discriminate; auto. }
  destruct Hplat as (platform & self2 & Hrun2 & Hsub & Hph' & Hpp').
  exists base, platform, self1, self2.
  split; [exact Hrun1|]. split; [exact Hrun2|]. split.
  - unfold merged_options. rewrite (bind_ok _ _ _ _ _ _ Hrun1).
    rewrite bind_unfold. cbn [get_self outcome state events fst].
    rewrite Hcls, (bind_ok _ _ _ _ _ _ Hrun2). reflexivity.
  - split; [exact Hsub|].
    unfold registered. rewrite Hph', Hpp'. split; reflexivity.
Qed.

End extra_options.

(** ** More of audiomack.py: the session, the transfer, the file *)

Section finish_facts.

Context (env : Env).

Lemma finishes_last_bind {A B} (m : ST DState A) (f : A -> ST DState B) :
  emits (fun ev => is_finished ev = false) m ->
  (forall a, finishes_last (f a)) ->
  finishes_last (m ≫= f).
Proof.
  intros Hm Hf s. rewrite bind_unfold. specialize (Hm s).
  destruct (outcome (m s)) as [a|e]; cbn [outcome events]; [|exact Hm].
  specialize (Hf a (state (m s))).
  destruct (outcome (f a (state (m s)))).
  - destruct Hf as (evs & cb & p & -> & Hs & Hp & Hevs).
    exists (events (m s) ++ evs), cb, p. rewrite app_assoc.
    split; [reflexivity|]. split; [exact Hs|]. split; [exact Hp|].
    apply Forall_app. split; assumption.
  - apply Forall_app. split; assumption.
Qed.

Lemma finishes_last_raise {A} e : finishes_last (raise e : ST DState A).
Proof. intros s. constructor. Qed.

Lemma finishes_last_report {A} p (a : A) :
  status p = "finished" -> percent p = 100%Q ->
  finishes_last (_report_progress p;; mret a).
Proof.
  intros Hs Hp [self files].
  rewrite (bind_ok _ _ _ _ _ _ (_report_progress_run p self files)).
  cbn [outcome events mret ST_mret ST_ret app].
  exists [], (progress_callback self), p. repeat split; auto.
Qed.

Lemma finishes_last_try_except {A} (body : ST DState A) h :
  finishes_last body ->
  (forall e, emits (fun ev => is_finished ev = false) (h e)) ->
  (forall e s, exists e', outcome (h e s) = Raise e') ->
  finishes_last (try_except body h).
Proof.
  intros Hbody Hh Hraise s. unfold try_except. specialize (Hbody s).
  destruct (outcome (body s)) as [a|e] eqn:Ho.
  - rewrite Ho. exact Hbody.
  - cbn [outcome events]. destruct (Hraise e (state (body s))) as (e' & ->).
    apply Forall_app. split; [exact Hbody | apply Hh].
Qed.

Lemma run_hook_not_finished opts call :
  emits (fun ev => is_finished ev = false) (run_hook env opts call).
Proof.
  intros [self files].
  destruct (run_hook_shape env opts call self files) as (evs & -> & Hall).
  cbn [events]. eapply Forall_impl; [exact Hall|].
  intros ev (p & -> & [Hp | [Hp | [Hp _]]]); simpl; rewrite Hp; reflexivity.
Qed.

Lemma _download_loop_not_finished dest total pending downloaded :
  emits (fun ev => is_finished ev = false)
        (Audiomack._download_loop dest total downloaded pending).
Proof.
  revert downloaded. induction pending as [|chunk rest IH]; intros downloaded.
  - apply emits_ret.
  - cbn [Audiomack._download_loop]. emits_prog; try reflexivity. apply IH.
Qed.

Lemma BaseDownloader_download_finishes cfg : finishes_last (BaseDownloader_download env cfg).
Proof.
  unfold BaseDownloader_download.
  apply finishes_last_bind; [emits_prog; reflexivity|]. intros _.
  apply finishes_last_bind; [emits_prog; reflexivity|]. intros opts.
  apply finishes_last_try_except.
  - apply finishes_last_bind.
    + emits_prog_with ltac:(apply run_hook_not_finished); reflexivity.
    + intros [info|]; [apply finishes_last_report; reflexivity | apply finishes_last_raise].
  - intros e. emits_prog; reflexivity.
  - intros e [self files].
    rewrite (bind_ok _ _ _ _ _ _ (_report_progress_run _ self files)).
    eexists. reflexivity.
Qed.

Lemma Audiomack_download_finishes cfg : finishes_last (Audiomack.download env cfg).
Proof.
  unfold Audiomack.download.
  apply finishes_last_bind; [emits_prog; reflexivity|]. intros _.
  apply finishes_last_bind; [emits_prog; reflexivity|]. intros [streaming_url metadata].
  destruct (negb (PyStr.truthy streaming_url)); [apply finishes_last_raise|].
  cbv zeta.
  apply finishes_last_bind; [emits_prog; reflexivity|]. intros _.
  apply finishes_last_bind; [emits_prog; reflexivity|]. intros _.
  apply finishes_last_bind;
    [emits_prog_with ltac:(apply _download_loop_not_finished); reflexivity|]. intros _.
  apply finishes_last_bind; [emits_prog; reflexivity|]. intros dest_path.
  apply finishes_last_report; reflexivity.
Qed.

Lemma Downloader_download_finishes cfg : finishes_last (Downloader_download env cfg).
Proof.
  intros [self files]. rewrite (Downloader_download_dispatch env cfg self files).
  destruct (cls self);
    first [apply (BaseDownloader_download_finishes cfg (self, files))
          | apply (Audiomack_download_finishes cfg (self, files))].
Qed.


Lemma _download_loop_no_error dest total pending downloaded :
  emits no_error_record (Audiomack._download_loop dest total downloaded pending).
Proof.
  revert downloaded. induction pending as [|chunk rest IH]; intros downloaded.
  - apply emits_ret.
  - cbn [Audiomack._download_loop]. emits_prog; try exact I; [simpl; tauto | apply IH].
Qed.

Lemma download_no_error_record cfg : emits no_error_record (Audiomack.download env cfg).
Proof.
  emits_prog_with ltac:(apply _download_loop_no_error); try exact I; simpl; tauto.
Qed.

(** X9. [AudiomackDownloader.download] has no [except] clause that
    reports: whatever happens, every record it reports has the status
    ["downloading"], ["processing"] or ["finished"], never ["error"]. Its
    failures reach the caller as exceptions only. *)
Theorem audiomack_never_reports_error (cfg : DownloadConfig) (s : DState) :
  Forall (fun p => status p = "downloading" \/ status p = "processing" \/ status p = "finished")
         (reported (events (Audiomack.download env cfg s))).
Proof. apply reported_Forall. exact (download_no_error_record cfg s). Qed.

Lemma emits_filter (keep : Event -> bool) {A} (m : ST DState A) s :
  emits (fun ev => keep ev = false) m -> List.filter keep (events (m s)) = [].
Proof.
  intros H. specialize (H s). induction H as [|ev evs Hev _ IH]; [reflexivity|].
  simpl. rewrite Hev. exact IH.
Qed.

Lemma _download_loop_no_lifecycle dest total pending downloaded :
  emits (fun ev => is_lifecycle ev = false)
        (Audiomack._download_loop dest total downloaded pending).
Proof.
  revert downloaded. induction pending as [|chunk rest IH]; intros downloaded.
  - apply emits_ret.
  - cbn [Audiomack._download_loop]. emits_prog; try reflexivity. apply IH.
Qed.

Lemma _get_driver_run session (s : DState) :
  Audiomack._get_driver session s =
    mkRes (match driver_start session with Some e => Raise e | None => Ok tt end) s
          [EvBrowser Launch].
Proof.
  unfold Audiomack._get_driver. rewrite (bind_ok _ _ _ _ _ _ (emit_run _ s)).
  destruct (driver_start session); reflexivity.
Qed.

Lemma _extract_streaming_url_lifecycle page s :
  List.filter is_lifecycle (events (Audiomack._extract_streaming_url env page s)) =
    match driver_start (browser env page) with
    | Some _ => [EvBrowser Launch]
    | None => [EvBrowser Launch; EvBrowser Quit]
    end /\
  match driver_start (browser env page) with
  | Some e => Audiomack._extract_streaming_url env page s = mkRes (Raise e) s [EvBrowser Launch]
  | None => last (events (Audiomack._extract_streaming_url env page s)) = Some (EvBrowser Quit)
  end.
Proof.
  unfold Audiomack._extract_streaming_url. cbv zeta.
  match goal with |- context [try_finally ?b _] => set (body := b) end.
  assert (Hbody : emits (fun ev => is_lifecycle ev = false) body).
  { subst body. emits_prog; reflexivity. }
  pose proof (_get_driver_run (browser env page) s) as Hrun.
  destruct (driver_start (browser env page)) as [e|].
  - rewrite (bind_raise _ _ _ _ _ _ Hrun). split; reflexivity.
  - rewrite (bind_ok _ _ _ _ _ _ Hrun).
    rewrite (try_finally_run body _ s _ _ _ _ _ (res_eta (body s)) (emit_run _ _)).
    cbn [events app]. split.
    + cbn [List.filter is_lifecycle]. rewrite List.filter_app, (emits_filter _ body s Hbody).
      reflexivity.
    + rewrite last_cons, last_snoc. reflexivity.
Qed.

(** X10. The browser is always closed. When the driver starts,
    [driver.quit()] is the last event of [_extract_streaming_url] whether the
    session succeeds or raises, and a whole download launches one browser
    and quits it once. When the driver fails to start, nothing is quit and
    the download raises the exception of the driver. *)
Theorem browser_always_quit (cfg : DownloadConfig) (s : DState) :
  let session := Audiomack._extract_streaming_url env (url cfg) s in
  let r := Audiomack.download env cfg s in
  match driver_start (browser env (url cfg)) with
  | Some e =>
      session = mkRes (Raise e) s [EvBrowser Launch] /\
      outcome r = Raise e /\
      List.filter is_lifecycle (events r) = [EvBrowser Launch]
  | None =>
      last (events session) = Some (EvBrowser Quit) /\
      List.filter is_lifecycle (events session) = [EvBrowser Launch; EvBrowser Quit] /\
      List.filter is_lifecycle (events r) = [EvBrowser Launch; EvBrowser Quit]
  end.
Proof.
  cbv zeta.
  destruct (_extract_streaming_url_lifecycle (url cfg) s) as [Hfilter Hend].
  assert (Hr : List.filter is_lifecycle (events (Audiomack.download env cfg s))
               = List.filter is_lifecycle
                   (events (Audiomack._extract_streaming_url env (url cfg) s))).
  { destruct s as [self files]. unfold Audiomack.download.
    rewrite (bind_ok _ _ _ _ _ _ (_report_progress_run _ self files)).
    cbn [events app List.filter is_lifecycle].
    rewrite bind_unfold.
    destruct (outcome (Audiomack._extract_streaming_url env (url cfg) (self, files)))
      as [[streaming_url metadata]|e]; cbn [events]; [|reflexivity].
    rewrite List.filter_app.
    match goal with
    | |- _ ++ List.filter _ (events (?k ?st)) = _ =>
        rewrite (emits_filter is_lifecycle k st); [apply app_nil_r|]
    end.
    emits_prog_with ltac:(apply _download_loop_no_lifecycle); reflexivity. }
  destruct (driver_start (browser env (url cfg))) as [e|].
  - split; [exact Hend|]. split; [|rewrite Hr; exact Hfilter].
    destruct s as [self files]. unfold Audiomack.download.
    rewrite (bind_ok _ _ _ _ _ _ (_report_progress_run _ self files)).
    rewrite (bind_raise _ _ _ _ _ _ Hend). reflexivity.
  - split; [exact Hend|]. split; [exact Hfilter|]. rewrite Hr. exact Hfilter.
Qed.

End finish_facts.

Section extra_audiomack.

Import Audiomack.

Context (env : Env).

(** X11. When the play control cannot be found or clicked, the download
    stops there: it raises [Exception] whose text is [No se encontró botón de
    play: ] followed by the text of the cause, the browser is quit, the
    performance log is never read, no HTTP request is made and no file is
    touched. *)
Theorem play_button_failure_is_fatal (cfg : DownloadConfig) (self : Downloader)
    (files : gset string) (e : exn) :
  let b := browser env (url cfg) in
  let cb := progress_callback self in
  driver_start b = None -> page_get b = None -> remove_overlays b = None ->
  play_button b = Some e ->
  download env cfg (self, files) =
    mkRes (Raise (mkExn "Exception" ("No se encontró botón de play: " +:+ exn_text e)))
      (self, files)
      ([EvProgress cb (mkDownloadProgress 0 "" "" "downloading"
                         "Iniciando descarga de Audiomack...");
        EvBrowser Launch;
        EvProgress cb (mkDownloadProgress 10 "" "" "downloading" "Cargando página...");
        EvBrowser (Get (url cfg));
        EvSleep 3;
        EvProgress cb (mkDownloadProgress 15 "" "" "downloading" "Cerrando popups...")]
       ++ (if cookie_banner b then [EvBrowser ClickCookieBanner; EvSleep 1] else [])
       ++ [EvBrowser RemoveOverlays;
           EvBrowser ReadHeading;
           EvProgress cb (mkDownloadProgress 25 "" "" "downloading" "Iniciando reproducción...");
           EvBrowser ClickPlay;
           EvBrowser Quit]).
Proof.
  intros b cb Hd Hg Ho Hp. subst b cb.
  assert (Hsession :
    _extract_streaming_url env (url cfg) (self, files) =
      mkRes (Raise (mkExn "Exception" ("No se encontró botón de play: " +:+ exn_text e)))
        (self, files)
        ([EvBrowser Launch;
          EvProgress (progress_callback self)
            (mkDownloadProgress 10 "" "" "downloading" "Cargando página...");
          EvBrowser (Get (url cfg));
          EvSleep 3;
          EvProgress (progress_callback self)
            (mkDownloadProgress 15 "" "" "downloading" "Cerrando popups...")]
         ++ (if cookie_banner (browser env (url cfg))
             then [EvBrowser ClickCookieBanner; EvSleep 1] else [])
         ++ [EvBrowser RemoveOverlays;
             EvBrowser ReadHeading;
             EvProgress (progress_callback self)
               (mkDownloadProgress 25 "" "" "downloading" "Iniciando reproducción...");
             EvBrowser ClickPlay;
             EvBrowser Quit])).
  { unfold _extract_streaming_url, _get_driver, may_raise. cbv zeta.
    rewrite Hd, Hg, Ho, Hp.
    eapply run_with_events.
    - run_steps. eapply try_finally_run; [|apply emit_run].
      run_steps.
      eapply bind_run_ok.
      { instantiate (1 := if cookie_banner (browser env (url cfg))
                          then [EvBrowser ClickCookieBanner; EvSleep 1] else []).
        instantiate (2 := tt).
        destruct (cookie_banner (browser env (url cfg))); reflexivity. }
      run_steps. apply raise_run.
    - destruct (cookie_banner (browser env (url cfg))); reflexivity. }
  unfold download.
  rewrite (bind_ok _ _ _ _ _ _ (_report_progress_run _ self files)).
  rewrite (bind_raise _ _ _ _ _ _ Hsession). reflexivity.
Qed.

(** The loop of [_download_file]: one write per chunk, in order, and a
    progress record per chunk only when the length is known. *)
Lemma _download_loop_run dest total pending downloaded self files :
  exists evs,
    _download_loop dest total downloaded pending (self, files) = mkRes (Ok tt) (self, files) evs /\
    omap write_of evs = map (fun size => (dest, size)) pending /\
    ((total <= 0)%Z -> reported evs = []) /\
    Forall (fun ev => match ev with
                      | EvFileWrite _ _ | EvProgress _ _ => True
                      | _ => False
                      end) evs.
Proof.
  revert downloaded. induction pending as [|chunk rest IH]; intros downloaded.
  - exists []. split; [apply mret_run|]. repeat split; constructor.
  - destruct (IH (downloaded + Z.pos chunk)%Z) as (evs & Hrest & Hw & Hq & Hall).
    cbn [_download_loop].
    destruct (0 <? total)%Z eqn:Htotal.
    + eexists. split; [run_steps; exact Hrest|].
      cbn [app omap list_omap write_of mbind option_bind map]. fold (omap write_of evs).
      rewrite Hw. split; [reflexivity|]. split.
      * intros Hle. apply Z.ltb_lt in Htotal. lia.
      * repeat constructor. exact Hall.
    + eexists. split; [run_steps; exact Hrest|].
      cbn [app omap list_omap write_of mbind option_bind map]. fold (omap write_of evs).
      rewrite Hw. split; [reflexivity|]. split.
      * intros Hle. unfold reported. cbn [omap list_omap progress_of]. apply Hq. exact Hle.
      * repeat constructor. exact Hall.
Qed.


End extra_audiomack.

Section extra_audiomack2.

Import Audiomack.

Context (env : Env).

Lemma _download_file_events target dest resp self files :
  urlopen env target = Ok resp ->
  let loop := _download_loop dest (default 0%Z (content_length resp)) 0 (chunks resp)
                (self, {[dest]} ∪ files) in
  _download_file env target dest (self, files) =
    mkRes (match stream_error resp with Some e => Raise e | None => Ok tt end)
          (self, {[dest]} ∪ files)
          (EvHttpGet target http_headers :: EvFileOpen dest :: events loop).
Proof.
  intros Hopen. cbv zeta. unfold _download_file. rewrite Hopen.
  destruct (_download_loop_shape dest (default 0%Z (content_length resp)) (chunks resp) 0%Z
              self ({[dest]} ∪ files)) as (evs & Hloop).
  rewrite Hloop. cbn [events].
  eapply run_with_events.
  - run_steps. eapply bind_run_ok; [reflexivity|]. cbv beta.
    eapply bind_run_ok; [exact Hloop|]. cbv beta.
    instantiate (1 := []). destruct (stream_error resp); reflexivity.
  - cbn [app]. rewrite app_nil_r. reflexivity.
Qed.








End extra_audiomack2.

Section extra_audiomack3.

Import Audiomack.

Context (env : Env).

Lemma scan_logs_marker logs u :
  scan_logs logs = Some u -> PyStr.contains "music.audiomack.com" u = true.
Proof.
  induction logs as [|[log|] rest IH]; cbn [scan_logs]; [discriminate | | exact IH].
  destruct (method log) as [m|]; [|exact IH].
  destruct (String.eqb m "Network.requestWillBeSent"); [|exact IH].
  destruct (request_url log) as [req_url|]; [|exact IH].
  destruct (PyStr.contains "music.audiomack.com" req_url) eqn:Hc; [|exact IH].
  intros [= <-]. exact Hc.
Qed.

Lemma convert_to_mp3_skip cfg ext dest self files :
  output_format cfg = VIDEO \/ String.eqb ext "m4a" = false \/ tool_available env self = false ->
  exists self',
    convert_to_mp3 env cfg ext dest (self, files) = mkRes (Ok dest) (self', files) [] /\
    progress_callback self' = progress_callback self.
Proof.
  intros Hskip. unfold convert_to_mp3.
  destruct (OutputFormat_eqb (output_format cfg) AUDIO && String.eqb ext "m4a") eqn:Hneed.
  - apply andb_true_iff in Hneed as [Hfmt Hext].
    destruct Hskip as [Hv | [He | Ht]].
    + rewrite Hv in Hfmt. discriminate.
    + rewrite He in Hext. discriminate.
    + destruct (_has_ffmpeg_run env self files) as (self' & Hrun & _ & Hcb & _).
      rewrite Ht in Hrun. exists self'. split; [|exact Hcb].
      rewrite (bind_ok _ _ _ _ _ _ Hrun). reflexivity.
  - exists self. split; reflexivity.
Qed.

(** X14. Without a conversion the file stays as downloaded: for a VIDEO
    request, or a stream whose URL holds no [.m4a], or when no transcoding
    tool can be resolved, a download whose session and transfer succeed
    returns the record whose [filepath] is the destination
    [artist - title [id].ext] under the output directory; that file exists,
    no transcoder is run, no file is removed, and the last event is the
    ["finished"] record. *)
Theorem download_kept_without_conversion (cfg : DownloadConfig) (self : Downloader)
    (files : gset string) (logs : list LogEntry) (u : string) (resp : HttpResponse) :
  session_ok (browser env (url cfg)) logs ->
  scan_logs logs = Some u ->
  makedirs env (output_dir cfg) = None ->
  urlopen env u = Ok resp ->
  stream_error resp = None ->
  output_format cfg = VIDEO \/ PyStr.contains ".m4a" u = false \/
    tool_available env self = false ->
  let r := download env cfg (self, files) in
  let md := session_metadata (browser env (url cfg)) (url cfg) in
  let t := PyStr.take 100 (clean (title md)) in
  let a := PyStr.take 50 (clean (artist md)) in
  let ext := if PyStr.contains ".m4a" u then "m4a" else "mp3" in
  let dest := os_path_join (output_dir cfg)
                (a +:+ " - " +:+ t +:+ " [" +:+ ident md +:+ "]." +:+ ext) in
  outcome r = Ok (<["title" := t]> (<["artist" := a]> (<["id" := ident md]>
                   (<["filepath" := dest]> (∅ : Info))))) /\
  snd (state r) = {[dest]} ∪ files /\
  Forall (fun ev => leaves_files ev = true) (events r) /\
  last (events r) =
    Some (EvProgress (progress_callback self)
            (mkDownloadProgress 100 "" "" "finished" ("Descarga completa: " +:+ t))).
Proof.
  intros Hsession Hscan Hmk Hopen Hstream Hskip r md t a ext dest.
  assert (Htruthy : PyStr.truthy (Some u) = true).
  { pose proof (scan_logs_marker logs u Hscan) as Hm. destruct u; [discriminate Hm | reflexivity]. }
  destruct (_download_loop_run dest (default 0%Z (content_length resp)) (chunks resp) 0%Z
              self ({[dest]} ∪ files)) as (evs & Hloop & _ & _ & Hevs).
  pose proof (_download_file_events env u dest resp self files Hopen) as Hfile.
  cbv zeta in Hfile. rewrite Hloop, Hstream in Hfile. cbn [events] in Hfile.
  destruct (convert_to_mp3_skip cfg ext dest self ({[dest]} ∪ files)) as (self' & Hconv & Hcb).
  { destruct Hskip as [Hv | [He | Ht]]; [left; exact Hv | right; left | right; right; exact Ht].
    subst ext. rewrite He. reflexivity. }
  assert (Hr : r = mkRes (Ok (<["title" := t]> (<["artist" := a]> (<["id" := ident md]>
                            (<["filepath" := dest]> (∅ : Info))))))
                 (self', {[dest]} ∪ files)
                 (EvProgress (progress_callback self)
                    (mkDownloadProgress 0 "" "" "downloading"
                       "Iniciando descarga de Audiomack...")
                  :: session_events (progress_callback self) (browser env (url cfg)) (url cfg)
                  ++ [EvProgress (progress_callback self)
                        (mkDownloadProgress 55 "" "" "downloading" ("Descargando: " +:+ t));
                      EvMakedirs (output_dir cfg);
                      EvHttpGet u http_headers;
                      EvFileOpen dest]
                  ++ evs
                  ++ [EvProgress (progress_callback self)
                        (mkDownloadProgress 100 "" "" "finished"
                           ("Descarga completa: " +:+ t))])).
  { subst r. unfold download.
    eapply run_with_events.
    - eapply bind_run_ok; [apply _report_progress_run|]. cbv beta.
      eapply bind_run_ok; [apply (_extract_streaming_url_run _ _ _ _ _ Hsession)|].
      cbv beta iota. rewrite Hscan, Htruthy. cbn [negb default from_option]. unfold id.
      cbv zeta. cbn [title artist ident]. fold md. fold t. fold a. fold ext. fold dest.
      eapply bind_run_ok; [apply _report_progress_run|]. cbv beta.
      eapply bind_run_ok; [rewrite os_makedirs_run, Hmk; reflexivity|]. cbv beta.
      eapply bind_run_ok; [exact Hfile|]. cbv beta.
      eapply bind_run_ok; [exact Hconv|]. cbv beta.
      eapply bind_run_ok; [apply _report_progress_run|]. cbv beta.
      apply mret_run.
    - rewrite Hcb, app_nil_r. cbn [app]. rewrite <- ?app_assoc. reflexivity. }
  rewrite Hr. cbn [outcome state events snd].
  split; [reflexivity|]. split; [reflexivity|]. split.
  - constructor; [reflexivity|]. apply Forall_app. split.
    { unfold session_events. destruct (cookie_banner (browser env (url cfg)));
        repeat constructor. }
    apply Forall_app. split; [repeat constructor|].
    apply Forall_app. split; [|repeat constructor].
    eapply Forall_impl; [exact Hevs|]. intros [] H; first [reflexivity | destruct H].
  - rewrite last_cons. rewrite !app_assoc. rewrite last_snoc. reflexivity.
Qed.

End extra_audiomack3.

Section extra_regex.

Import Audiomack.

Lemma strip_prefix_spec p s r : strip_prefix p s = Some r <-> s = p +:+ r.
Proof.
  revert s. induction p as [|a p IH]; intros s.
  - cbn [strip_prefix]. rewrite app_nil_l. split; congruence.
  - rewrite app_cons. destruct s as [|b s]; cbn [strip_prefix]; [split; discriminate|].
    destruct (Ascii.eqb a b) eqn:Hab.
    + apply Ascii.eqb_eq in Hab as ->. rewrite IH. split; congruence.
    + split; [discriminate|]. intros [= -> _]. rewrite Ascii.eqb_refl in Hab. discriminate.
Qed.

Lemma span_spec p s :
  s = fst (span p s) +:+ snd (span p s) /\
  all_chars p (fst (span p s)) = true /\
  match snd (span p s) with
  | EmptyString => True
  | String c _ => p c = false
  end.
Proof.
  induction s as [|c s (IH1 & IH2 & IH3)]; [repeat split|].
  cbn [span]. destruct (p c) eqn:Hc.
  - destruct (span p s) as [a b]. cbn [fst snd] in *.
    rewrite app_cons, <- IH1. cbn [all_chars]. rewrite Hc, IH2. repeat split. exact IH3.
  - cbn [fst snd]. rewrite app_nil_l. repeat split. exact Hc.
Qed.

Lemma span_unique p a b :
  all_chars p a = true ->
  match b with
  | EmptyString => True
  | String c _ => p c = false
  end ->
  span p (a +:+ b) = (a, b).
Proof.
  intros Ha Hb. induction a as [|c a IH].
  - rewrite app_nil_l. destruct b as [|c b]; [reflexivity|]. cbn [span]. rewrite Hb. reflexivity.
  - cbn [all_chars] in Ha. apply andb_true_iff in Ha as [Hc Ha].
    rewrite app_cons. cbn [span]. rewrite Hc, (IH Ha). reflexivity.
Qed.

Lemma match_song_at_spec s g1 g2 :
  match_song_at s = Some (g1, g2) <-> song_match g1 g2 s.
Proof.
  unfold match_song_at, song_match. split.
  - destruct (strip_prefix "audiomack.com/" s) as [r|] eqn:Hr; [|discriminate].
    apply strip_prefix_spec in Hr.
    destruct (span_spec (fun c => negb (Ascii.eqb c "/")) r) as (H1 & H2 & _).
    destruct (span (fun c => negb (Ascii.eqb c "/")) r) as [a r1]. cbn [fst snd] in *.
    destruct a as [|c a]; [discriminate|].
    destruct (strip_prefix "/song/" r1) as [r2|] eqn:Hr2; [|discriminate].
    apply strip_prefix_spec in Hr2.
    destruct (span_spec (fun c => negb (Ascii.eqb c "/" || Ascii.eqb c "?")) r2) as (H3 & H4 & H5).
    destruct (span (fun c => negb (Ascii.eqb c "/" || Ascii.eqb c "?")) r2) as [b rest].
    cbn [fst snd] in *.
    destruct b as [|c2 b]; [discriminate|].
    intros [= <- <-]. exists rest.
    split; [rewrite Hr, H1, Hr2, H3; reflexivity|].
    split; [discriminate|]. split; [exact H2|]. split; [discriminate|]. split; [exact H4|].
    destruct rest as [|c3 rest]; [exact I|]. apply negb_false_iff in H5. exact H5.
  - intros (rest & -> & Hg1 & Ha1 & Hg2 & Ha2 & Hrest).
    rewrite (proj2 (strip_prefix_spec "audiomack.com/" _ _) eq_refl).
    rewrite (span_unique _ g1 ("/song/" +:+ g2 +:+ rest) Ha1) by reflexivity.
    destruct g1 as [|c g1]; [congruence|].
    rewrite (proj2 (strip_prefix_spec "/song/" _ _) eq_refl).
    rewrite (span_unique _ g2 rest Ha2).
    + destruct g2 as [|c2 g2]; [congruence | reflexivity].
    + destruct rest as [|c3 rest]; [exact I|]. apply negb_false_iff. exact Hrest.
Qed.

Lemma search_song_spec page :
  match search_song page with
  | Some (g1, g2) =>
      exists pre s,
        page = pre +:+ s /\ song_match g1 g2 s /\
        (forall pre' s' a b, page = pre' +:+ s' -> song_match a b s' ->
           String.length pre <= String.length pre')
  | None => forall pre s a b, page = pre +:+ s -> ~ song_match a b s
  end.
Proof.
  assert (Hstep : forall s, search_song s =
            match match_song_at s with
            | Some m => Some m
            | None => match s with
                      | EmptyString => None
                      | String _ r => search_song r
                      end
            end) by (intros []; reflexivity).
  induction page as [|c page IH]; rewrite Hstep.
  - destruct (match_song_at "") as [[g1 g2]|] eqn:Hm.
    + exists "", "". split; [reflexivity|]. split; [apply match_song_at_spec, Hm|].
      intros. simpl. lia.
    + intros pre s a b Heq Hs. destruct pre; [|discriminate].
      rewrite app_nil_l in Heq. subst s. apply match_song_at_spec in Hs. congruence.
  - destruct (match_song_at (String c page)) as [[g1 g2]|] eqn:Hm.
    + exists "", (String c page). split; [reflexivity|]. split; [apply match_song_at_spec, Hm|].
      intros. simpl. lia.
    + destruct (search_song page) as [[g1 g2]|].
      * destruct IH as (pre & s & -> & Hs & Hleft).
        exists (String c pre), s. split; [rewrite app_cons; reflexivity|]. split; [exact Hs|].
        intros pre' s' a b Heq Hs'. destruct pre' as [|c' pre'].
        -- rewrite app_nil_l in Heq. subst s'. apply match_song_at_spec in Hs'. congruence.
        -- rewrite app_cons in Heq. injection Heq as _ Heq. simpl.
           apply le_n_S. exact (Hleft pre' s' a b Heq Hs').
      * intros pre s a b Heq Hs. destruct pre as [|c' pre].
        -- rewrite app_nil_l in Heq. subst s. apply match_song_at_spec in Hs. congruence.
        -- rewrite app_cons in Heq. injection Heq as _ Heq. exact (IH pre s a b Heq Hs).
Qed.

(** X15. The search for the song pattern in the page URL is [re.search]:
    when it answers the groups [g1] and [g2], the pattern matches with these
    groups at some offset of the URL and at no smaller offset; when it
    answers nothing, the pattern matches at no offset. *)
Theorem search_song_leftmost_match (page : string) :
  match search_song page with
  | Some (g1, g2) =>
      exists pre s,
        page = pre +:+ s /\ song_match g1 g2 s /\
        (forall pre' s' a b, page = pre' +:+ s' -> song_match a b s' ->
           String.length pre <= String.length pre')
  | None => forall pre s a b, page = pre +:+ s -> ~ song_match a b s
  end.
Proof. exact (search_song_spec page). Qed.

End extra_regex.

Section extra_paths.

Import Audiomack.

Context (env : Env).

Lemma all_chars_app p a b : all_chars p (a +:+ b) = all_chars p a && all_chars p b.
Proof.
  induction a as [|c a IH]; [rewrite app_nil_l; reflexivity|].
  rewrite app_cons. cbn [all_chars]. rewrite IH, andb_assoc. reflexivity.
Qed.

Lemma all_chars_take p n s : all_chars p s = true -> all_chars p (PyStr.take n s) = true.
Proof.
  revert s. induction n as [|n IH]; intros [|c s]; try reflexivity.
  cbn [all_chars PyStr.take]. intros H. apply andb_true_iff in H as [Hc Hs].
  rewrite Hc, (IH s Hs). reflexivity.
Qed.

Lemma kept_char_not_slash c : kept_char c = true -> negb (Ascii.eqb c "/") = true.
Proof.
  destruct (Ascii.eqb c "/") eqn:Hc; [|reflexivity].
  apply Ascii.eqb_eq in Hc as ->. discriminate.
Qed.

Lemma clean_slash_free n s :
  all_chars (fun c => negb (Ascii.eqb c "/")) (PyStr.take n (clean s)) = true.
Proof.
  apply all_chars_take. apply (all_chars_impl kept_char); [exact kept_char_not_slash|].
  apply clean_kept.
Qed.

Lemma returns_bind_with {S A B} (Q' : A -> Prop) (Q : B -> Prop) (m : ST S A) (f : A -> ST S B) :
  returns Q' m -> (forall a, Q' a -> returns Q (f a)) -> returns Q (m ≫= f).
Proof.
  intros Hm Hf s b. rewrite bind_unfold.
  destruct (outcome (m s)) as [a|e] eqn:Ho; cbn [outcome]; [|discriminate].
  apply (Hf a (Hm s a Ho)).
Qed.

Lemma returns_try_finally {S A} (Q : A -> Prop) (body : ST S A) cleanup :
  returns Q body -> returns Q (try_finally body cleanup).
Proof.
  intros Hbody s a. unfold try_finally.
  destruct (outcome (cleanup (state (body s)))); cbn [outcome]; [apply Hbody | discriminate].
Qed.

Lemma emits_bind_returns {S A B} (P : Event -> Prop) (Q : A -> Prop)
    (m : ST S A) (f : A -> ST S B) :
  emits P m -> returns Q m -> (forall a, Q a -> emits P (f a)) -> emits P (m ≫= f).
Proof.
  intros Hm Hq Hf s. rewrite bind_unfold. specialize (Hm s).
  destruct (outcome (m s)) as [a|e] eqn:Ho; cbn [events]; [|exact Hm].
  apply Forall_app. split; [exact Hm | apply (Hf a (Hq s a Ho))].
Qed.

Ltac returns_prog :=
  repeat first
    [ apply returns_mret
    | apply returns_raise
    | apply returns_try_finally
    | apply returns_bind; intros ?
    | match goal with
      | |- returns _ (if ?b then _ else _) => destruct b
      | |- returns _ (match ?x with _ => _ end) => destruct x
      end ].

Lemma ident_from_heading text md : ident (metadata_from_heading text md) = ident md.
Proof.
  unfold metadata_from_heading. cbv zeta.
  destruct (map PyStr.strip _) as [|l0 [|l1 rest]]; reflexivity.
Qed.

Lemma ident_from_url page md :
  all_chars (fun c => negb (Ascii.eqb c "/")) (ident md) = true ->
  all_chars (fun c => negb (Ascii.eqb c "/")) (ident (metadata_from_url page md)) = true.
Proof.
  intros Hmd. unfold metadata_from_url.
  pose proof (search_song_spec page) as Hs.
  destruct (search_song page) as [[g1 g2]|]; [|exact Hmd].
  destruct Hs as (pre & s & _ & (rest & _ & _ & _ & _ & Hg2 & _) & _).
  cbn [ident]. eapply all_chars_impl; [|exact Hg2].
  intros c Hc. cbv beta in Hc. destruct (Ascii.eqb c "/"); [discriminate Hc | reflexivity].
Qed.

Lemma _extract_streaming_url_ident page :
  returns (fun x : option string * Metadata =>
             all_chars (fun c => negb (Ascii.eqb c "/")) (ident (snd x)) = true)
          (_extract_streaming_url env page).
Proof.
  unfold _extract_streaming_url. cbv zeta. returns_prog; cbn [snd];
    destruct (h1_text (browser env page));
    rewrite ?ident_from_heading; apply ident_from_url; reflexivity.
Qed.

Lemma os_path_join_relative a :
  exists p, forall b, PyStr.startswith "/" b = false -> os_path_join a b = p +:+ b.
Proof.
  unfold os_path_join. destruct a as [|c a].
  - exists "". intros b ->. rewrite app_nil_l. reflexivity.
  - destruct (PyStr.startswith "/" (String.rev (String c a))).
    + exists (String c a). intros b ->. reflexivity.
    + exists (String c a +:+ "/"). intros b ->. rewrite str_app_assoc. reflexivity.
Qed.

Lemma slash_free_relative name :
  all_chars (fun c => negb (Ascii.eqb c "/")) name = true -> PyStr.startswith "/" name = false.
Proof.
  destruct name as [|c name]; [reflexivity|].
  cbn [all_chars PyStr.startswith]. intros H. apply andb_true_iff in H as [Hc _].
  rewrite Ascii.eqb_sym. apply negb_true_iff in Hc. rewrite Hc. reflexivity.
Qed.

(** The file name [download] builds holds no slash when its id holds none,
    whatever the extension; and the mp3 path derived from an m4a
    destination is the destination of the same name with the other
    extension. *)
Lemma destination_inside dir a t i :
  all_chars (fun c => negb (Ascii.eqb c "/")) a = true ->
  all_chars (fun c => negb (Ascii.eqb c "/")) t = true ->
  all_chars (fun c => negb (Ascii.eqb c "/")) i = true ->
  let name ext := a +:+ " - " +:+ t +:+ " [" +:+ i +:+ "]." +:+ ext in
  (forall ext, all_chars (fun c => negb (Ascii.eqb c "/")) ext = true ->
     inside_dir dir (os_path_join dir (name ext))) /\
  inside_dir dir (rsplit_dot_head (os_path_join dir (name "m4a")) +:+ ".mp3").
Proof.
  intros Ha Ht Hi name.
  assert (Hfree : forall ext, all_chars (fun c => negb (Ascii.eqb c "/")) ext = true ->
            all_chars (fun c => negb (Ascii.eqb c "/")) (name ext) = true).
  { intros ext Hext. subst name. cbv beta. rewrite !all_chars_app, Ha, Ht, Hi, Hext. reflexivity. }
  assert (Hne : forall ext, name ext <> "").
  { intros ext. subst name. cbv beta. destruct a as [|c a].
    - rewrite app_nil_l, app_cons. discriminate.
    - rewrite app_cons. discriminate. }
  assert (Hin : forall ext, all_chars (fun c => negb (Ascii.eqb c "/")) ext = true ->
            inside_dir dir (os_path_join dir (name ext))).
  { intros ext Hext. exists (name ext). split; [reflexivity|]. split; [apply Hne | apply Hfree, Hext]. }
  split; [exact Hin|].
  destruct (os_path_join_relative dir) as (p & Hp).
  assert (Hsplit : forall ext, name ext
            = (a +:+ " - " +:+ t +:+ " [" +:+ i +:+ "]") +:+ "." +:+ ext).
  { intros ext. subst name. cbv beta. rewrite !str_app_assoc. reflexivity. }
  exists (name "mp3"). split; [|split; [apply Hne | apply Hfree; reflexivity]].
  rewrite (Hp (name "m4a")) by (apply slash_free_relative, Hfree; reflexivity).
  rewrite (Hp (name "mp3")) by (apply slash_free_relative, Hfree; reflexivity).
  rewrite !Hsplit.
  change ("." +:+ "m4a") with ".m4a". change ("." +:+ "mp3") with ".mp3".
  rewrite <- !str_app_assoc. rewrite rsplit_dot_head_m4a. reflexivity.
Qed.

Lemma _download_loop_touches dir dest total pending downloaded :
  inside_dir dir dest ->
  emits (touches_inside dir) (_download_loop dest total downloaded pending).
Proof.
  intros Hdest. revert downloaded. induction pending as [|chunk rest IH]; intros downloaded.
  - apply emits_ret.
  - cbn [_download_loop]. emits_prog; try exact I; [exact Hdest | apply IH].
Qed.

Lemma convert_to_mp3_inside dir cfg ext dest :
  inside_dir dir dest ->
  (String.eqb ext "m4a" = true -> inside_dir dir (rsplit_dot_head dest +:+ ".mp3")) ->
  returns (inside_dir dir) (convert_to_mp3 env cfg ext dest).
Proof.
  intros Hdest Hmp3. unfold convert_to_mp3.
  destruct (String.eqb ext "m4a") eqn:He.
  - specialize (Hmp3 eq_refl). returns_prog; assumption.
  - rewrite andb_false_r.
    apply (returns_bind_with (fun needed : bool => needed = false)).
    + apply returns_mret. reflexivity.
    + intros needed ->. apply returns_mret. exact Hdest.
Qed.

(** X16. Every file the Audiomack download opens, writes or removes,
    and the [filepath] it returns, is [os.path.join(output_dir, name)] for a
    non-empty [name] without a slash: whatever the URL, the heading and the
    network log hold, the download stays an entry of the output directory.
    The artist and the title are cleaned; the id is the raw second group of
    the URL pattern, which excludes the slash. *)
Theorem audiomack_files_inside_output_dir (cfg : DownloadConfig) (s : DState) :
  let r := download env cfg s in
  Forall (touches_inside (output_dir cfg)) (events r) /\
  (forall info, outcome r = Ok info ->
     exists path, info !! "filepath" = Some path /\ inside_dir (output_dir cfg) path).
Proof.
  cbv zeta. split.
  - revert s. change (emits (touches_inside (output_dir cfg)) (download env cfg)).
    unfold download.
    apply emits_bind; [emits_prog; exact I|]. intros _.
    eapply emits_bind_returns;
      [emits_prog; exact I | apply _extract_streaming_url_ident |].
    intros [u md] Hid. cbn [snd] in Hid.
    destruct (negb (PyStr.truthy u)); [apply emits_raise|]. cbv zeta. cbn [title artist ident].
    destruct (destination_inside (output_dir cfg)
                (PyStr.take 50 (clean (artist md))) (PyStr.take 100 (clean (title md)))
                (ident md) (clean_slash_free _ _) (clean_slash_free _ _) Hid) as [Hdest _].
    cbv zeta in Hdest.
    assert (Hext : all_chars (fun c => negb (Ascii.eqb c "/"))
                     (if PyStr.contains ".m4a" (default "" u) then "m4a" else "mp3") = true)
      by (destruct (PyStr.contains ".m4a" (default "" u)); reflexivity).
    specialize (Hdest _ Hext).
    emits_prog_with ltac:(apply _download_loop_touches; exact Hdest);
      first [exact I | exact Hdest].
  - revert s.
    change (returns (fun info : Info =>
                       exists path, info !! "filepath" = Some path /\
                                    inside_dir (output_dir cfg) path)
                    (download env cfg)).
    unfold download.
    apply returns_bind; intros _.
    eapply returns_bind_with; [apply _extract_streaming_url_ident|].
    intros [u md] Hid. cbn [snd] in Hid.
    destruct (negb (PyStr.truthy u)); [apply returns_raise|]. cbv zeta. cbn [title artist ident].
    destruct (destination_inside (output_dir cfg)
                (PyStr.take 50 (clean (artist md))) (PyStr.take 100 (clean (title md)))
                (ident md) (clean_slash_free _ _) (clean_slash_free _ _) Hid) as [Hdest Hmp3].
    cbv zeta in Hdest, Hmp3.
    apply returns_bind; intros _. apply returns_bind; intros _. apply returns_bind; intros _.
    eapply returns_bind_with.
    + apply convert_to_mp3_inside.
      * apply Hdest. destruct (PyStr.contains ".m4a" (default "" u)); reflexivity.
      * destruct (PyStr.contains ".m4a" (default "" u)); [intros _; exact Hmp3 | discriminate].
    + intros path Hpath. apply returns_bind; intros _. apply returns_mret.
      exists path. split; [reflexivity | exact Hpath].
Qed.

End extra_paths.

(** ** More of manager.py and the progress bar *)

Section extra_manager.

Context (env : Env).

Lemma lower_app (a b : string) : PyStr.lower (a +:+ b) = PyStr.lower a +:+ PyStr.lower b.
Proof.
  induction a as [|c a IH]; [rewrite !app_nil_l; reflexivity|].
  rewrite app_cons. cbn [PyStr.lower]. rewrite app_cons, IH. reflexivity.
Qed.

Lemma lower_char_idempotent c : PyStr.lower_char (PyStr.lower_char c) = PyStr.lower_char c.
Proof. destruct c as [[] [] [] [] [] [] [] []]; reflexivity. Qed.

Lemma lower_idempotent s : PyStr.lower (PyStr.lower s) = PyStr.lower s.
Proof.
  induction s as [|c s IH]; [reflexivity|].
  cbn [PyStr.lower]. rewrite lower_char_idempotent, IH. reflexivity.
Qed.

Lemma occurs_in_embedded sub s pre post :
  PyStr.occurs_in sub s -> PyStr.occurs_in sub (pre +:+ s +:+ post).
Proof.
  intros (p & q & ->). exists (pre +:+ p), (q +:+ post).
  rewrite !str_app_assoc. reflexivity.
Qed.

Lemma PLATFORM_NAME_known c : PLATFORM_NAME c <> "Desconocida".
Proof. destruct c; discriminate. Qed.

(** X17. Recognition is by substring of the lowercased URL: a URL a
    class handles is still handled by it with any text before and after it,
    and with its letters in any case, and [detect_platform] never answers
    [Desconocida] for it. *)
Theorem can_handle_embedded_url (c : Platform) (url pre post : string) :
  can_handle c url = true ->
  can_handle c (pre +:+ url +:+ post) = true /\
  (forall url', PyStr.lower url' = PyStr.lower url -> can_handle c url' = true) /\
  can_handle c (PyStr.lower url) = true /\
  detect_platform (pre +:+ url +:+ post) <> "Desconocida".
Proof.
  intros Hc.
  assert (Hemb : can_handle c (pre +:+ url +:+ post) = true).
  { apply can_handle_spec. apply can_handle_spec in Hc as (d & Hin & Hocc).
    exists d. split; [exact Hin|]. rewrite !lower_app. apply occurs_in_embedded. exact Hocc. }
  split; [exact Hemb|]. split; [|split].
  - intros url' Hl. unfold can_handle in *. rewrite Hl. exact Hc.
  - unfold can_handle in *. rewrite lower_idempotent. exact Hc.
  - unfold detect_platform. rewrite detect_platform_loop_find.
    destruct (List.find (fun c0 => can_handle c0 (pre +:+ url +:+ post)) DOWNLOADERS)
      as [c'|] eqn:Hfind; [apply PLATFORM_NAME_known|].
    exfalso. assert (Hin : In c DOWNLOADERS) by (destruct c; simpl; tauto).
    pose proof (List.find_none _ _ Hfind c Hin) as Hno. cbv beta in Hno.
    rewrite Hemb in Hno. discriminate.
Qed.

(** X18. [_get_downloader] reports nothing and touches no file. On a URL
    no class handles it raises the unsupported-URL error and leaves the
    cache alone. Otherwise it answers the class [detect_platform] names and
    the instance cached under that name, which is the one already there or a
    new one carrying the manager's callback; no other entry of the cache
    changes, and asking again gives the same instance and changes nothing. *)
Theorem get_downloader_caches (page : string) (mgr : DownloadManager) (files : gset string) :
  let r := _get_downloader page (mgr, files) in
  events r = [] /\
  snd (state r) = files /\
  manager_callback (fst (state r)) = manager_callback mgr /\
  match outcome r with
  | Raise e =>
      e = unsupported_url /\ state r = (mgr, files) /\ detect_platform page = "Desconocida"
  | Ok (c, d) =>
      detect_platform page = PLATFORM_NAME c /\
      _downloaders (fst (state r)) !! PLATFORM_NAME c = Some d /\
      (forall key, key <> PLATFORM_NAME c ->
         _downloaders (fst (state r)) !! key = _downloaders mgr !! key) /\
      d = default (new_downloader c (manager_callback mgr))
                  (_downloaders mgr !! PLATFORM_NAME c) /\
      _get_downloader page (state r) = mkRes (Ok (c, d)) (state r) []
  end.
Proof.
  cbv zeta. unfold _get_downloader, detect_platform.
  rewrite detect_platform_loop_find, _get_downloader_loop_run.
  destruct (List.find (fun c => can_handle c page) DOWNLOADERS) as [c|] eqn:Hfind.
  2: { cbn [outcome state events fst snd]. repeat split. }
  destruct (_downloaders mgr !! PLATFORM_NAME c) as [d|] eqn:Hd;
    cbn [outcome state events fst snd manager_callback _downloaders].
  - split; [reflexivity|]. split; [reflexivity|]. split; [reflexivity|].
    split; [reflexivity|]. split; [exact Hd|]. split; [reflexivity|].
    split; [rewrite ?Hd; reflexivity|].
    rewrite _get_downloader_loop_run, Hfind, Hd. reflexivity.
  - split; [reflexivity|]. split; [reflexivity|]. split; [reflexivity|].
    split; [reflexivity|]. split; [apply lookup_insert_eq|].
    split; [intros key Hne; apply lookup_insert_ne; congruence|].
    split; [rewrite ?Hd; reflexivity|].
    rewrite _get_downloader_loop_run, Hfind. cbn [_downloaders].
    rewrite lookup_insert_eq. reflexivity.
Qed.

(** X19. A download through the manager keeps the cache well formed:
    the callback of the manager is unchanged, only the entry of the detected
    platform can change, and every cached instance is filed under the name
    of its own class, one of the supported platform names. *)
Theorem manager_cache_invariant (cfg : DownloadConfig) (mgr : DownloadManager)
    (files : gset string) :
  manager_wf mgr ->
  let mgr' := fst (state (DownloadManager_download env cfg (mgr, files))) in
  manager_wf mgr' /\
  manager_callback mgr' = manager_callback mgr /\
  (forall key, key <> detect_platform (url cfg) ->
     _downloaders mgr' !! key = _downloaders mgr !! key) /\
  (forall key d, _downloaders mgr' !! key = Some d ->
     In key get_supported_platforms /\ PLATFORM_NAME (cls d) = key).
Proof.
  intros Hwf mgr'.
  pose proof (manager_wf_preserved env cfg mgr files Hwf) as Hwf'. fold mgr' in Hwf'.
  split; [exact Hwf'|].
  assert (Hshape : manager_callback mgr' = manager_callback mgr /\
            forall key, key <> detect_platform (url cfg) ->
              _downloaders mgr' !! key = _downloaders mgr !! key).
  { subst mgr'. unfold DownloadManager_download, _get_downloader, detect_platform.
    rewrite detect_platform_loop_find.
    pose proof (_get_downloader_loop_run DOWNLOADERS (url cfg) mgr files) as Hget.
    destruct (List.find (fun c => can_handle c (url cfg)) DOWNLOADERS) as [c|].
    2: { rewrite (bind_raise _ _ _ _ _ _ Hget). split; reflexivity. }
    destruct (_downloaders mgr !! PLATFORM_NAME c) as [d|] eqn:Hd;
      rewrite (bind_ok _ _ _ _ _ _ Hget); cbn [outcome state events];
      rewrite call_on_state; cbn [fst manager_callback _downloaders];
      (split; [reflexivity|]); intros key Hne;
      rewrite ?lookup_insert_ne by congruence; reflexivity. }
  destruct Hshape as [Hcb Hother].
  split; [exact Hcb|]. split; [exact Hother|].
  intros key d Hk. destruct (Hwf' key d Hk) as [Hname _]. split; [|exact Hname].
  rewrite <- Hname. unfold get_supported_platforms. apply in_map.
  destruct (cls d); simpl; tauto.
Qed.

(** X20. [ProgressPanel.set_progress] clamps: a value between 0 and 100
    is shown as it is, a lower one as 0, a higher one as 100; clamping twice
    is clamping once, and a larger value never shows less. *)
Theorem set_progress_clamps (value : Q) :
  ((0 <= value)%Q -> (value <= 100)%Q -> (set_progress value == value)%Q) /\
  ((value <= 0)%Q -> (set_progress value == 0)%Q) /\
  ((100 <= value)%Q -> (set_progress value == 100)%Q) /\
  (set_progress (set_progress value) == set_progress value)%Q /\
  (forall other, (value <= other)%Q -> (set_progress value <= set_progress other)%Q).
Proof.
  assert (Hspec : forall v : Q,
            ((v <= 0)%Q /\ (set_progress v == 0)%Q) \/
            ((0 <= v)%Q /\ (v <= 100)%Q /\ (set_progress v == v)%Q) \/
            ((100 <= v)%Q /\ (set_progress v == 100)%Q)).
  { intros v. unfold set_progress.
    destruct (Q.min_spec 100 v) as [[H1 H2] | [H1 H2]];
      destruct (Q.max_spec 0 (Qmin 100 v)) as [[H3 H4] | [H3 H4]];
      set (m := Qmin 100 v) in *; set (M := Qmax 0 m) in *; clearbody M m;
      first [left; split; lra
            | right; left; split; [lra|]; split; lra
            | right; right; split; lra]. }
  split; [|split; [|split; [|split]]].
  - intros H0 H100. destruct (Hspec value) as [[H1 H2] | [[H1 [H2 H3]] | [H1 H2]]]; lra.
  - intros H0. destruct (Hspec value) as [[H1 H2] | [[H1 [H2 H3]] | [H1 H2]]]; lra.
  - intros H0. destruct (Hspec value) as [[H1 H2] | [[H1 [H2 H3]] | [H1 H2]]]; lra.
  - destruct (Hspec value) as [[H1 H2] | [[H1 [H2 H3]] | [H1 H2]]];
      destruct (Hspec (set_progress value)) as [[H4 H5] | [[H4 [H5 H6]] | [H4 H5]]]; lra.
  - intros other Hle.
    destruct (Hspec value) as [[H1 H2] | [[H1 [H2 H3]] | [H1 H2]]];
      destruct (Hspec other) as [[H4 H5] | [[H4 [H5 H6]] | [H4 H5]]]; lra.
Qed.

End extra_manager.

(** ** Records, the callback and the window *)

Section delivery_facts.

Lemma delivers_quiet {A} (m : ST DState A) :
  (forall s, events (m s) = [] /\
             progress_callback (fst (state (m s))) = progress_callback (fst s)) ->
  delivers_own m.
Proof. intros H s. destruct (H s) as [-> Hcb]. split; [constructor | exact Hcb]. Qed.

Lemma delivers_emit ev : reports_with true ev -> reports_with false ev -> delivers_own (emit ev).
Proof.
  intros Ht Hf s. split; [|reflexivity]. cbn [emit events]. constructor; [|constructor].
  destruct (progress_callback (fst s)); assumption.
Qed.

Lemma delivers_report p : delivers_own (_report_progress p).
Proof.
  intros [self files]. rewrite _report_progress_run. split; [|reflexivity].
  repeat constructor.
Qed.

Lemma delivers_bind {A B} (m : ST DState A) (f : A -> ST DState B) :
  delivers_own m -> (forall a, delivers_own (f a)) -> delivers_own (m ≫= f).
Proof.
  intros Hm Hf s. rewrite bind_unfold. destruct (Hm s) as [H1 H2].
  destruct (outcome (m s)) as [a|e]; cbn [state events]; [|split; assumption].
  destruct (Hf a (state (m s))) as [H3 H4]. rewrite H2 in H3, H4.
  split; [apply Forall_app; split; assumption | exact H4].
Qed.

Lemma delivers_try_except {A} (m : ST DState A) h :
  delivers_own m -> (forall e, delivers_own (h e)) -> delivers_own (try_except m h).
Proof.
  intros Hm Hh s. unfold try_except. destruct (Hm s) as [H1 H2].
  destruct (outcome (m s)) as [a|e]; cbn [state events]; [split; assumption|].
  destruct (Hh e (state (m s))) as [H3 H4]. rewrite H2 in H3, H4.
  split; [apply Forall_app; split; assumption | exact H4].
Qed.

Lemma delivers_try_finally {A} (m : ST DState A) c :
  delivers_own m -> delivers_own c -> delivers_own (try_finally m c).
Proof.
  intros Hm Hc s. unfold try_finally. destruct (Hm s) as [H1 H2].
  destruct (Hc (state (m s))) as [H3 H4]. rewrite H2 in H3, H4.
  destruct (outcome (c (state (m s)))); cbn [state events];
    (split; [apply Forall_app; split; assumption | exact H4]).
Qed.

Lemma delivers_for_each {A} (xs : list A) (body : A -> ST DState unit) :
  (forall x, delivers_own (body x)) -> delivers_own (for_each xs body).
Proof.
  intros Hb. induction xs as [|x xs IH]; cbn [for_each].
  - apply delivers_quiet. intros s. split; reflexivity.
  - apply delivers_bind; [apply Hb | intros _; exact IH].
Qed.

Lemma delivers_os_remove path : delivers_own (os_remove path).
Proof.
  intros s. unfold os_remove. destruct (bool_decide _); cbn [events state fst];
    (split; [repeat constructor | reflexivity]).
Qed.

Lemma delivers_add_file path :
  delivers_own (get_state ≫= fun '(self, files) => put_state (self, {[path]} ∪ files)).
Proof. intros [self files]. split; [constructor | reflexivity]. Qed.

End delivery_facts.

(** The same breakdown as for events, for the delivery of records. *)
Ltac delivers_step :=
  match goal with
  | |- delivers_own (get_state ≫= _) => apply delivers_add_file
  | |- delivers_own (mbind _ _) => apply delivers_bind; [|intros ?]
  | |- delivers_own (try_except _ _) => apply delivers_try_except; [|intros ?]
  | |- delivers_own (try_finally _ _) => apply delivers_try_finally
  | |- delivers_own (for_each _ _) => apply delivers_for_each; intros ?
  | |- delivers_own (emit _) => apply delivers_emit; exact I
  | |- delivers_own (_report_progress _) => apply delivers_report
  | |- delivers_own (os_remove _) => apply delivers_os_remove
  | |- delivers_own (mret _) => apply delivers_quiet; intros ?; split; reflexivity
  | |- delivers_own (raise _) => apply delivers_quiet; intros ?; split; reflexivity
  | |- delivers_own get_self => apply delivers_quiet; intros ?; split; reflexivity
  | |- delivers_own (os_path_exists _) => apply delivers_quiet; intros ?; split; reflexivity
  | |- delivers_own (set_ffmpeg_path _) => apply delivers_quiet; intros ?; split; reflexivity
  | |- delivers_own (open_wb _) =>
      intros ?; split; [repeat constructor | reflexivity]
  | |- delivers_own (if ?b then _ else _) => destruct b eqn:?
  | |- delivers_own (match ?x with _ => _ end) => destruct x eqn:?
  end.

Ltac delivers_unfold :=
  match goal with
  | |- delivers_own (os_makedirs _ _) => unfold os_makedirs
  | |- delivers_own (_get_ffmpeg_path _) => unfold _get_ffmpeg_path
  | |- delivers_own (_has_ffmpeg _) => unfold _has_ffmpeg
  | |- delivers_own (progress_hook _ _) => unfold progress_hook; cbv zeta
  | |- delivers_own (postprocessor_hook _) => unfold postprocessor_hook; cbv zeta
  | |- delivers_own (run_hook _ _ _) => unfold run_hook
  | |- delivers_own (Audiomack._get_driver _) => unfold Audiomack._get_driver
  | |- delivers_own (Audiomack.may_raise _) => unfold Audiomack.may_raise
  | |- delivers_own (Audiomack._extract_streaming_url _ _) =>
      unfold Audiomack._extract_streaming_url; cbv zeta
  | |- delivers_own (Audiomack._download_file _ _ _) =>
      unfold Audiomack._download_file; cbv zeta
  | |- delivers_own (Audiomack.convert_to_mp3 _ _ _ _) =>
      unfold Audiomack.convert_to_mp3; cbv zeta
  | |- delivers_own (Audiomack.download _ _) => unfold Audiomack.download; cbv zeta
  | |- delivers_own (_get_base_options _ _) => unfold _get_base_options; cbv zeta
  | |- delivers_own (format_options _ _ _ _) => unfold format_options
  | |- delivers_own (_get_platform_options _ _ _) => unfold _get_platform_options
  | |- delivers_own (merged_options _ _) => unfold merged_options
  | |- delivers_own (ydl_extract_info _ _ _) => unfold ydl_extract_info
  | |- delivers_own (BaseDownloader_download _ _) => unfold BaseDownloader_download
  | |- delivers_own (Downloader_download _ _) => unfold Downloader_download
  end.

Section delivery.

Context (env : Env).

Lemma _download_loop_delivers dest total pending downloaded :
  delivers_own (Audiomack._download_loop dest total downloaded pending).
Proof.
  revert downloaded. induction pending as [|chunk rest IH]; intros downloaded.
  - apply delivers_quiet. intros s. split; reflexivity.
  - cbn [Audiomack._download_loop]. repeat first [delivers_step | delivers_unfold]. apply IH.
Qed.

Lemma Downloader_download_delivers cfg : delivers_own (Downloader_download env cfg).
Proof.
  repeat first [apply _download_loop_delivers | delivers_step | delivers_unfold].
Qed.

Lemma delivered_reports_with cb evs :
  Forall (reports_with cb) evs ->
  delivered_to_callback evs = if cb then reported evs else [].
Proof.
  induction 1 as [|ev evs Hev _ IH]; [destruct cb; reflexivity|].
  unfold delivered_to_callback, reported in *.
  destruct ev; cbn [omap list_omap progress_of]; try exact IH.
  cbn [reports_with] in Hev. subst delivered.
  destruct cb; cbn [mbind option_bind]; [f_equal|]; exact IH.
Qed.

Lemma call_on_events {A} key d (m : ST DState A) mgr files :
  events (call_on key d m (mgr, files)) = events (m (d, files)).
Proof. reflexivity. Qed.

(** X21. Every record a download reports is handed to the callback of
    the instance when it has one, and to nobody otherwise, and the download
    leaves the callback in place. Through a manager whose cache is well
    formed the records reach the manager's callback, whether the instance
    was cached or is new. *)
Theorem callback_receives_every_record (cfg : DownloadConfig) :
  (forall s : DState,
     let r := Downloader_download env cfg s in
     delivered_to_callback (events r) =
       (if progress_callback (fst s) then reported (events r) else []) /\
     progress_callback (fst (state r)) = progress_callback (fst s)) /\
  (forall mgr files,
     manager_wf mgr ->
     let r := DownloadManager_download env cfg (mgr, files) in
     delivered_to_callback (events r) =
       (if manager_callback mgr then reported (events r) else [])).
Proof.
  assert (Hd : forall s : DState,
            delivered_to_callback (events (Downloader_download env cfg s)) =
              (if progress_callback (fst s)
               then reported (events (Downloader_download env cfg s)) else [])).
  { intros s. apply delivered_reports_with. apply (Downloader_download_delivers cfg s). }
  split.
  - intros s. cbv zeta. split; [apply Hd | apply (Downloader_download_delivers cfg s)].
  - intros mgr files Hwf. cbv zeta.
    unfold DownloadManager_download, _get_downloader.
    pose proof (_get_downloader_loop_run DOWNLOADERS (url cfg) mgr files) as Hget.
    destruct (List.find (fun c => can_handle c (url cfg)) DOWNLOADERS) as [c|].
    2: { rewrite (bind_raise _ _ _ _ _ _ Hget). destruct (manager_callback mgr); reflexivity. }
    destruct (_downloaders mgr !! PLATFORM_NAME c) as [d|] eqn:Hcached;
      rewrite (bind_ok _ _ _ _ _ _ Hget); cbn [outcome state events app];
      rewrite call_on_events, Hd; cbn [fst].
    + destruct (Hwf _ _ Hcached) as [_ ->]. reflexivity.
    + reflexivity.
Qed.

End delivery.

Section window_facts.

Import UI.

Context (env : Env).

Lemma mainloop_snoc records p w :
  mainloop (records ++ [p]) w = update p (mainloop records w).
Proof. unfold mainloop. rewrite fold_left_app. reflexivity. Qed.

Lemma update_bounded p w :
  (0 <= progress_var (update p w))%Q /\ (progress_var (update p w) <= 100)%Q.
Proof.
  unfold update. cbv zeta.
  destruct (String.eqb (status p) "error"); [|destruct (String.eqb (status p) "finished")];
    apply set_progress_bounded.
Qed.

Lemma mainloop_bounded records w :
  (0 <= progress_var w)%Q /\ (progress_var w <= 100)%Q ->
  (0 <= progress_var (mainloop records w))%Q /\
  (progress_var (mainloop records w) <= 100)%Q.
Proof.
  revert w. induction records as [|p records IH]; intros w Hw; [exact Hw|].
  apply IH. apply update_bounded.
Qed.

Lemma mainloop_silent records w :
  Forall (fun p => String.eqb (status p) "error" = false /\
                   String.eqb (status p) "finished" = false) records ->
  log_text (mainloop records w) = log_text w.
Proof.
  intros Hall. revert w. induction Hall as [|p records [He Hf] _ IH]; intros w; [reflexivity|].
  change (mainloop (p :: records) w) with (mainloop records (update p w)).
  rewrite IH. unfold update. cbv zeta. rewrite He, Hf. reflexivity.
Qed.

Lemma update_finished p w :
  status p = "finished" -> percent p = 100%Q ->
  (progress_var (update p w) == 100)%Q /\
  last (log_text (update p w)) =
    Some ("✅ " +:+ status_var (update p w) +:+ String "010" "").
Proof.
  intros Hs Hp. unfold update. cbv zeta. rewrite Hs, Hp.
  cbn [String.eqb Ascii.eqb Bool.eqb log set_status progress_var status_var log_text].
  split; [reflexivity|]. rewrite last_snoc, str_app_assoc. reflexivity.
Qed.

Lemma update_error msg w :
  let w' := update (mkDownloadProgress 0 "" "" "error" msg) w in
  (progress_var w' == 0)%Q /\ status_var w' = msg /\
  last (log_text w') = Some ("❌ " +:+ status_var w' +:+ String "010" "").
Proof.
  cbv zeta. unfold update. cbv zeta.
  cbn [status percent message String.eqb Ascii.eqb Bool.eqb log set_status
       progress_var status_var log_text].
  split; [reflexivity|]. split; [reflexivity|]. rewrite last_snoc, str_app_assoc. reflexivity.
Qed.

Lemma reported_app evs1 evs2 : reported (evs1 ++ evs2) = reported evs1 ++ reported evs2.
Proof. unfold reported. apply omap_app. Qed.

(** What the window shows after a generic download that raised. *)
Lemma window_after_base_failure cfg c files w :
  let r := BaseDownloader_download env cfg (new_downloader c true, files) in
  let w' := mainloop (reported (events r)) (reset w) in
  match outcome r with
  | Ok _ => True
  | Raise e =>
      match makedirs env (output_dir cfg) with
      | Some _ => log_text w' = log_text w
      | None =>
          (progress_var w' == 0)%Q /\
          status_var w' = "Error: " +:+ exn_text e /\
          last (log_text w') = Some ("❌ " +:+ status_var w' +:+ String "010" "")
      end
  end.
Proof.
  cbv zeta.
  destruct (makedirs env (output_dir cfg)) as [e0|] eqn:Hmk.
  - rewrite (BaseDownloader_download_no_dir env cfg _ files e0 Hmk). reflexivity.
  - destruct (merged_options_shape env cfg (new_downloader c true) files)
      as (o & self' & Hshape & Hok & _).
    destruct (Hok Hmk) as (opts & ->).
    destruct (BaseDownloader_download_run env cfg _ files opts _ _ Hshape)
      as (hevs & _ & _ & Hrun).
    cbv zeta in Hrun. rewrite Hrun.
    destruct (engine_result (extract_info env opts (url cfg))) as [[info|]|e];
      cbn [outcome events]; [exact I | |].
    + rewrite !app_comm_cons, reported_app.
      change (reported [EvProgress (progress_callback (new_downloader c true))
                          (mkDownloadProgress 0 "" "" "error"
                             "Error: 'NoneType' object has no attribute 'get'")])
        with [mkDownloadProgress 0 "" "" "error"
                ("Error: " +:+ "'NoneType' object has no attribute 'get'")].
      rewrite mainloop_snoc. apply update_error.
    + rewrite !app_comm_cons, reported_app.
      change (reported [EvProgress (progress_callback (new_downloader c true))
                          (mkDownloadProgress 0 "" "" "error" ("Error: " +:+ exn_text e))])
        with [mkDownloadProgress 0 "" "" "error" ("Error: " +:+ exn_text e)].
      rewrite mainloop_snoc. apply update_error.
Qed.

(** X22. What the window shows after the records of a download on a new
    instance that carries the window's callback, starting from a reset
    panel. The bar stays between 0 and 100. After a download that returned
    it is at 100 and the last log line is the check mark followed by the
    status text. After a generic download that raised once its directory
    existed, the bar is back at 0, the status is [Error: ] followed by the
    text of the exception, and the last log line is the cross followed by
    that status. After a failed Audiomack download, or a generic one whose
    directory could not be created, no line was logged. *)
Theorem window_shows_outcome (cfg : DownloadConfig) (c : Platform) (files : gset string)
    (w : Window) :
  let r := Downloader_download env cfg (new_downloader c true, files) in
  let w' := mainloop (delivered_to_callback (events r)) (reset w) in
  ((0 <= progress_var w')%Q /\ (progress_var w' <= 100)%Q) /\
  match outcome r with
  | Ok _ =>
      (progress_var w' == 100)%Q /\
      last (log_text w') = Some ("✅ " +:+ status_var w' +:+ String "010" "")
  | Raise e =>
      match c with
      | AudiomackDownloader => log_text w' = log_text w
      | _ =>
          match makedirs env (output_dir cfg) with
          | Some _ => log_text w' = log_text w
          | None =>
              (progress_var w' == 0)%Q /\
              status_var w' = "Error: " +:+ exn_text e /\
              last (log_text w') = Some ("❌ " +:+ status_var w' +:+ String "010" "")
          end
      end
  end.
Proof.
  cbv zeta.
  rewrite (delivered_reports_with true)
    by apply (Downloader_download_delivers env cfg (new_downloader c true, files)).
  split; [apply mainloop_bounded, set_progress_bounded|].
  pose proof (Downloader_download_finishes env cfg (new_downloader c true, files)) as Hfin.
  destruct (outcome (Downloader_download env cfg (new_downloader c true, files)))
    as [info|e] eqn:Hout.
  - destruct Hfin as (evs & cb & p & -> & Hs & Hp & _).
    rewrite reported_app.
    change (reported [EvProgress cb p]) with [p].
    rewrite mainloop_snoc. apply update_finished; assumption.
  - rewrite (Downloader_download_dispatch env cfg (new_downloader c true) files) in *.
    destruct c; cbn [cls new_downloader] in *.
    1-3: match type of Hout with
         | context [new_downloader ?c true] =>
             pose proof (window_after_base_failure cfg c files w) as Hbase
         end;
         cbv zeta in Hbase; rewrite Hout in Hbase; exact Hbase.
    change (log_text w) with (log_text (reset w)).
    apply mainloop_silent. apply reported_Forall.
    pose proof (download_no_error_record env cfg (new_downloader AudiomackDownloader true, files))
      as Hne.
    induction Hfin as [|ev evs Hev _ IH]; [constructor|].
    inversion Hne as [|? ? Hev' Hrest]; subst. constructor; [|apply IH; exact Hrest].
    destruct ev; try exact I. cbn [is_finished no_error_record] in *.
    split; [|exact Hev]. destruct Hev' as [-> | [-> | ->]]; reflexivity.
Qed.

End window_facts.

Section ascending_facts.






End ascending_facts.




Section ascending.

Import Audiomack.

Context (env : Env).






End ascending.

(** ** The further theorems at concrete inputs *)

Section more_witnesses.

Import Audiomack.

(** X6 at a config without cookies. *)
Lemma base_options_optional_keys_witness :
  exists opts self',
    _get_base_options sample_env youtube_video (new_downloader YouTubeDownloader true, ∅) =
      mkRes (Ok opts) (self', ∅) [EvMakedirs "out"] /\
    opts !! "cookiefile" = None.
Proof.
  destruct (base_options_optional_keys sample_env youtube_video
              (new_downloader YouTubeDownloader true) ∅ eq_refl)
    as (opts & self' & Hrun & Hcookie & _).
  exists opts, self'. split; [exact Hrun | exact Hcookie].
Defined.

(** X7 at a YouTube video request. *)
Lemma platform_options_only_add_witness :
  exists base platform s,
    merged_options sample_env youtube_video (new_downloader YouTubeDownloader true, ∅) =
      mkRes (Ok (platform ∪ base)) s [EvMakedirs "out"] /\
    base ⊆ platform ∪ base.
Proof.
  destruct (platform_options_only_add sample_env youtube_video
              (new_downloader YouTubeDownloader true) ∅ eq_refl)
    as (base & platform & self1 & self2 & _ & _ & Hrun & Hsub & _).
  exists base, platform, (self2, ∅). split; [exact Hrun | exact Hsub].
Defined.


(** X4 at an engine that returns [None]. *)
Lemma base_download_engine_none_witness :
  outcome (BaseDownloader_download none_env youtube_video
             (new_downloader YouTubeDownloader true, ∅)) =
    Raise (mkExn "AttributeError" "'NoneType' object has no attribute 'get'").
Proof.
  destruct (merged_options_shape none_env youtube_video
              (new_downloader YouTubeDownloader true) ∅) as (o & self' & Hshape & Hok & _).
  destruct (Hok eq_refl) as (opts & ->).
  exact (proj1 (base_download_engine_none none_env youtube_video
                  (new_downloader YouTubeDownloader true) ∅ opts _ _ Hshape eq_refl)).
Defined.

(** X2 at an output directory that cannot be created. *)
Lemma base_download_makedirs_failure_witness :
  BaseDownloader_download readonly_env youtube_video (new_downloader YouTubeDownloader true, ∅) =
    mkRes (Raise (mkExn "PermissionError" "out")) (new_downloader YouTubeDownloader true, ∅)
      [EvProgress true (mkDownloadProgress 0 "" "" "downloading" "Iniciando descarga…");
       EvMakedirs "out"].
Proof.
  exact (base_download_makedirs_failure readonly_env youtube_video
           (new_downloader YouTubeDownloader true) ∅ (mkExn "PermissionError" "out") eq_refl).
Defined.

(** X11 at a session whose play control never appears. *)
Lemma play_button_failure_is_fatal_witness :
  outcome (download stuck_env audiomack_audio (new_downloader AudiomackDownloader true, ∅)) =
    Raise (mkExn "Exception" "No se encontró botón de play: Message: ").
Proof.
  pose proof (play_button_failure_is_fatal stuck_env audiomack_audio
                (new_downloader AudiomackDownloader true) ∅
                (mkExn "TimeoutException" "Message: ") eq_refl eq_refl eq_refl eq_refl) as H.
  cbv zeta in H. rewrite H. reflexivity.
Defined.


(** X14 at a video request for the sample session. *)
Lemma download_kept_without_conversion_witness :
  Forall (fun ev => leaves_files ev = true)
    (events (download sample_env
               (sample_config "https://audiomack.com/some-artist/song/my-song" VIDEO)
               (new_downloader AudiomackDownloader true, ∅))).
Proof.
  refine (proj1 (proj2 (proj2 (download_kept_without_conversion sample_env
              (sample_config "https://audiomack.com/some-artist/song/my-song" VIDEO)
              (new_downloader AudiomackDownloader true) ∅
              [None;
               Some (mkLogMessage (Some "Network.responseReceived") None);
               Some (mkLogMessage (Some "Network.requestWillBeSent")
                                  (Some "https://music.audiomack.com/stream/track.m4a"));
               Some (mkLogMessage (Some "Network.requestWillBeSent")
                                  (Some "https://audiomack.com/static/app.js"))]
              "https://music.audiomack.com/stream/track.m4a"
              (mkHttpResponse (Some 16384%Z) [8192%positive; 8192%positive] None)
              _ _ _ _ _ _)))).
  - repeat split; reflexivity.
  - reflexivity.
  - reflexivity.
  - reflexivity.
  - reflexivity.
  - left. reflexivity.
Defined.

(** X17 at a short YouTube link with a scheme and a query around it. *)
Lemma can_handle_embedded_url_witness :
  can_handle YouTubeDownloader ("https://" +:+ "YouTu.be/abc123" +:+ "?t=10") = true.
Proof.
  refine (proj1 (can_handle_embedded_url YouTubeDownloader "YouTu.be/abc123" "https://" "?t=10" _)).
  vm_compute. reflexivity.
Defined.

(** X19 at a new manager. *)
Lemma manager_cache_invariant_witness :
  manager_wf (fst (state (DownloadManager_download sample_env youtube_video (fresh_manager, ∅)))).
Proof.
  exact (proj1 (manager_cache_invariant sample_env youtube_video fresh_manager ∅
                  (new_manager_wf true))).
Defined.

(** X21 at a new manager with a callback. *)
Lemma callback_receives_every_record_witness :
  delivered_to_callback
    (events (DownloadManager_download sample_env youtube_video (fresh_manager, ∅))) =
  reported (events (DownloadManager_download sample_env youtube_video (fresh_manager, ∅))).
Proof.
  exact (proj2 (callback_receives_every_record sample_env youtube_video) fresh_manager ∅
           (new_manager_wf true)).
Defined.


End more_witnesses.
